(** * VisiFruit native launcher (Extras/visifruit_launcher_cpp.cpp)

    A shallow embedding of the Win32 launcher and the proofs of its
    specification.  The launcher is a single class, [VisiFruitLauncher],
    whose methods talk to the operating system.  The embedding keeps the
    class members in a record, models the part of Win32 the class relies
    on (windows and their text, the edit control behind the log, timers,
    the quit message) as explicit state, takes every answer the program
    cannot compute itself (clock, network, file system, shell, dialogs)
    from an abstract operating system [OS W], and returns with every
    operation the list of API calls it made, in order. *)

From Stdlib Require Import ZArith String Ascii List Lia DecimalString.
From stdpp Require Import base gmap strings list.

Local Open Scope Z_scope.

#[local] Arguments String.append !_ _ / : simpl nomatch.

(** ** Wide strings

    [std::wstring] is modelled by [string]; the non-ASCII characters of the
    source's literals appear as their UTF-8 bytes.  The only character the
    code treats specially is the terminator that [c_str()] exposes. *)

Definition NUL : ascii := "000"%char.

Definition CRLF : string := String "013" (String "010" EmptyString).

(** The C string a [const wchar_t*] reader sees behind [s.c_str()]: the
    characters before the first terminator. *)
Fixpoint c_str (s : string) : string :=
  match s with
  | EmptyString => EmptyString
  | String c r => if Ascii.eqb c NUL then EmptyString else String c (c_str r)
  end.

Fixpoint nul_free (s : string) : bool :=
  match s with
  | EmptyString => true
  | String c r => negb (Ascii.eqb c NUL) && nul_free r
  end.

Fixpoint str_take (n : nat) (s : string) : string :=
  match n, s with
  | S n', String c r => String c (str_take n' r)
  | _, _ => EmptyString
  end.

Fixpoint str_drop (n : nat) (s : string) : string :=
  match n, s with
  | S n', String _ r => str_drop n' r
  | _, _ => s
  end.

(** [std::to_wstring(int)]: decimal digits, a leading minus sign for a
    negative number. *)
Definition to_wstring (n : Z) : string := NilZero.string_of_int (Z.to_int n).

Fixpoint str_repeat (c : ascii) (n : nat) : string :=
  match n with
  | O => EmptyString
  | S n' => String c (str_repeat c n')
  end.

(** [ss << std::setfill(fill) << std::setw(width) << n]: the decimal text
    of [n], padded on the left up to [width] characters. *)
Definition setfill_setw (fill : ascii) (width : nat) (n : Z) : string :=
  let s := to_wstring n in
  str_repeat fill (width - String.length s)%nat +:+ s.

(** ** Constants *)

(** Control and timer identifiers, as the source defines them. *)
Definition ID_START_ALL : Z := 1001.
Definition ID_STOP_ALL : Z := 1002.
Definition ID_START_BACKEND : Z := 1003.
Definition ID_START_FRONTEND : Z := 1004.
Definition ID_START_SYSTEM : Z := 1005.
Definition ID_OPEN_FRONTEND : Z := 1006.
Definition ID_OPEN_BACKEND : Z := 1007.
Definition ID_OPEN_SYSTEM : Z := 1008.
Definition ID_LOGS_TEXTBOX : Z := 1009.
Definition ID_STATUS_BACKEND : Z := 1010.
Definition ID_STATUS_FRONTEND : Z := 1011.
Definition ID_STATUS_SYSTEM : Z := 1012.
Definition TIMER_STATUS_UPDATE : Z := 2001.

(** Values of the Windows SDK headers the source includes. *)
Definition NULL : Z := 0.
Definition INVALID_HANDLE_VALUE : Z := -1.
Definition INVALID_FILE_ATTRIBUTES : Z := 4294967295.
Definition MB_OK : Z := 0.
Definition MB_YESNO : Z := 4.
Definition MB_ICONERROR : Z := 16.
Definition MB_ICONQUESTION : Z := 32.
Definition IDYES : Z := 6.
Definition SW_HIDE : Z := 0.
Definition SW_SHOWNORMAL : Z := 1.
Definition SW_SHOW : Z := 5.
Definition SEE_MASK_NOCLOSEPROCESS : Z := 64.
Definition INTERNET_OPEN_TYPE_DIRECT : Z := 1.
Definition INTERNET_FLAG_RELOAD : Z := 2147483648.
Definition EM_SETSEL : Z := 177.
Definition EM_SCROLLCARET : Z := 183.
Definition EM_REPLACESEL : Z := 194.
Definition FALSE : Z := 0.
Definition WS_EX_CLIENTEDGE : Z := 512.
Definition WS_OVERLAPPEDWINDOW : Z := 13565952.
Definition WS_VISIBLE : Z := 268435456.
Definition WS_CHILD : Z := 1073741824.
Definition WS_BORDER : Z := 8388608.
Definition WS_VSCROLL : Z := 2097152.
Definition SS_CENTER : Z := 1.
Definition BS_PUSHBUTTON : Z := 0.
Definition ES_MULTILINE : Z := 4.
Definition ES_READONLY : Z := 2048.
Definition ICC_STANDARD_CLASSES : Z := 16384.

(** [RGB(r, g, b)]. *)
Definition RGB (r g b : Z) : Z := Z.lor r (Z.lor (Z.shiftl g 8) (Z.shiftl b 16)).

(** [LOWORD(wParam)]. *)
Definition LOWORD (w : Z) : Z := Z.land w 65535.

(** ** Data the program exchanges with Win32 *)

(** The fields of [struct tm] that [AddLog] reads. *)
Record tm := { tm_hour : Z; tm_min : Z; tm_sec : Z }.

(** What [std::localtime] guarantees about them. *)
Definition tm_valid (t : tm) : Prop :=
  0 <= tm_hour t <= 23 /\ 0 <= tm_min t <= 59 /\ 0 <= tm_sec t <= 60.

(** The fields of [SHELLEXECUTEINFO] the source fills in; the others stay
    as [= {0}] leaves them, so an absent [lpParameters] is [None]. *)
Record SHELLEXECUTEINFO := {
  fMask : Z;
  sei_hwnd : Z;
  lpVerb : string;
  lpFile : string;
  lpParameters : option string;
  nShow : Z
}.

Record PROCESS_INFORMATION := {
  hProcess : Z;
  hThread : Z;
  dwProcessId : Z;
  dwThreadId : Z
}.

(** How a request made by [InternetOpenUrl] ends.  WinInet hands back a
    handle exactly when the server answered, whatever the status line
    says; the handle it then returns is [url_handle], never [NULL]. *)
Inductive HttpResult :=
| Responded (status : Z) (h : positive)
| ConnectionFailed
| TimedOut
| ResolveFailed.

Definition url_handle (r : HttpResult) : Z :=
  match r with
  | Responded _ h => Z.pos h
  | _ => NULL
  end.

(** The [LPARAM] of a message: an integer or a pointer to a C string. *)
Inductive LPARAM :=
| L_int (n : Z)
| L_str (s : string).

(** Window messages that reach [WndProc]. *)
Inductive Msg :=
| WM_COMMAND (wParam : Z)
| WM_TIMER (wParam : Z)
| WM_CTLCOLORSTATIC (hControl : Z)
| WM_CLOSE
| WM_DESTROY
| WM_other (code : Z).

(** One entry per API call, with the arguments the program passed and the
    answer it got.  [Ret_CheckPort] is not an API call: it marks the return
    of [CheckPort], so that the history says what each probe answered. *)
Inductive Call :=
| Call_InitCommonControlsEx (dwICC : Z)
| Call_CreateSolidBrush (color : Z) (res : Z)
| Call_DeleteObject (h : Z)
| Call_TerminateProcess (h : Z) (code : Z)
| Call_CloseHandle (h : Z)
| Call_RegisterClassEx (cls : string) (res : bool)
| Call_CreateWindowEx (cls title : string) (res : Z)
| Call_CreateWindow (cls text : string) (style x y w h parent id : Z) (res : Z)
| Call_ShowWindow (h : Z) (cmd : Z)
| Call_UpdateWindow (h : Z)
| Call_SetTimer (h id elapse : Z)
| Call_KillTimer (h id : Z)
| Call_localtime (now : tm)
| Call_GetWindowTextLength (h : Z) (res : Z)
| Call_SendMessage (h msg wParam : Z) (lParam : LPARAM)
| Call_InternetOpen (agent : string) (access : Z) (res : Z)
| Call_InternetOpenUrl (session : Z) (url : string) (flags : Z) (res : HttpResult)
| Call_InternetCloseHandle (h : Z)
| Call_SetWindowText (h : Z) (text : string)
| Call_InvalidateRect (h : Z)
| Call_GetFileAttributes (path : string) (res : Z)
| Call_MessageBox (owner : Z) (text caption : string) (type : Z) (res : Z)
| Call_ShellExecuteEx (sei : SHELLEXECUTEINFO) (res : bool) (process : Z)
| Call_ShellExecute (owner : Z) (verb file : string) (show : Z)
| Call_SetTextColor (color : Z)
| Call_SetBkColor (color : Z)
| Call_DestroyWindow (h : Z)
| Call_PostQuitMessage (code : Z)
| Call_DefWindowProc (msg : Msg)
| Ret_CheckPort (port : Z) (isRunning : bool).

(** ** The operating system

    Everything the launcher asks and cannot decide itself.  [W] is the
    state of the outside world; each question may change it. *)
Record OS (W : Type) := {
  os_localtime : W -> tm * W;
  os_InternetOpen : W -> Z * W;
  os_InternetOpenUrl : string -> W -> HttpResult * W;
  os_GetFileAttributes : string -> W -> Z * W;
  os_ShellExecuteEx : SHELLEXECUTEINFO -> W -> (bool * Z) * W;
  os_ShellExecute : string -> string -> W -> W;
  os_MessageBox : string -> string -> Z -> W -> Z * W;
  os_RegisterClassEx : string -> W -> bool * W;
  os_CreateWindowEx : string -> W -> bool * W
}.

Arguments os_localtime {W}.
Arguments os_InternetOpen {W}.
Arguments os_InternetOpenUrl {W}.
Arguments os_GetFileAttributes {W}.
Arguments os_ShellExecuteEx {W}.
Arguments os_ShellExecute {W}.
Arguments os_MessageBox {W}.
Arguments os_RegisterClassEx {W}.
Arguments os_CreateWindowEx {W}.

(** ** State *)

(** A window as far as the launcher can observe it: class, text, control
    identifier and, for an edit control, the selection. *)
Record Window := {
  w_class : string;
  w_text : string;
  w_id : Z;
  sel_start : nat;
  sel_end : nat
}.

(** The members of [class VisiFruitLauncher]. *)
Record VisiFruitLauncher := {
  hwnd : Z;
  hLogsTextBox : Z;
  hStatusBackend : Z;
  hStatusFrontend : Z;
  hStatusSystem : Z;
  hBrushBackground : Z;
  hBrushGreen : Z;
  hBrushRed : Z;
  serviceStatus : gmap string bool;
  processes : list PROCESS_INFORMATION
}.

(** The part of the Win32 session the launcher acts on. *)
Record Desktop (W : Type) := {
  windows : gmap Z Window;
  timers : gmap Z Z;
  quit : option Z;
  next_handle : positive;
  world : W
}.

Arguments windows {W}.
Arguments timers {W}.
Arguments quit {W}.
Arguments next_handle {W}.
Arguments world {W}.

Record State (W : Type) := {
  self : VisiFruitLauncher;
  desk : Desktop W
}.

Arguments self {W}.
Arguments desk {W}.

(** What running an operation yields: its value, the state it leaves and
    the API calls it made, oldest first. *)
Record Outcome (W A : Type) := {
  value : A;
  after : State W;
  calls : list Call
}.

Arguments value {W A}.
Arguments after {W A}.
Arguments calls {W A}.

Definition M (W A : Type) : Type := State W -> Outcome W A.

Definition ret {W A} (a : A) : M W A :=
  fun s => {| value := a; after := s; calls := [] |}.

Definition bind {W A B} (m : M W A) (k : A -> M W B) : M W B :=
  fun s =>
    match m s with
    | {| value := a; after := s1; calls := c1 |} =>
        match k a s1 with
        | {| value := b; after := s2; calls := c2 |} =>
            {| value := b; after := s2; calls := c1 ++ c2 |}
        end
    end.

#[global] Instance M_ret {W} : MRet (M W) := @ret W.
#[global] Instance M_bind {W} : MBind (M W) := fun A B k m => bind m k.

Definition emit {W} (c : Call) : M W unit :=
  fun s => {| value := tt; after := s; calls := [c] |}.

Definition get_self {W} : M W VisiFruitLauncher :=
  fun s => {| value := self s; after := s; calls := [] |}.

Definition put_self {W} (a : VisiFruitLauncher) : M W unit :=
  fun s => {| value := tt; after := {| self := a; desk := desk s |}; calls := [] |}.

Definition get_desk {W} : M W (Desktop W) :=
  fun s => {| value := desk s; after := s; calls := [] |}.

Definition put_desk {W} (d : Desktop W) : M W unit :=
  fun s => {| value := tt; after := {| self := self s; desk := d |}; calls := [] |}.

(** Put a question to the operating system. *)
Definition ask {W A} (q : W -> A * W) : M W A :=
  d ← get_desk;
  let r := q (world d) in
  put_desk {| windows := windows d; timers := timers d; quit := quit d;
              next_handle := next_handle d; world := snd r |} ;;
  ret (fst r).

Definition set_windows {W} (ws : gmap Z Window) : M W unit :=
  d ← get_desk;
  put_desk {| windows := ws; timers := timers d; quit := quit d;
              next_handle := next_handle d; world := world d |}.

Definition set_timers {W} (ts : gmap Z Z) : M W unit :=
  d ← get_desk;
  put_desk {| windows := windows d; timers := ts; quit := quit d;
              next_handle := next_handle d; world := world d |}.

Definition set_quit {W} (q : option Z) : M W unit :=
  d ← get_desk;
  put_desk {| windows := windows d; timers := timers d; quit := q;
              next_handle := next_handle d; world := world d |}.

(** A handle no object of the session has yet; it is never [NULL]. *)
Definition fresh_handle {W} : M W Z :=
  d ← get_desk;
  put_desk {| windows := windows d; timers := timers d; quit := quit d;
              next_handle := Pos.succ (next_handle d); world := world d |} ;;
  ret (Z.pos (next_handle d)).

Definition modify_self {W} (f : VisiFruitLauncher -> VisiFruitLauncher) : M W unit :=
  a ← get_self;
  put_self (f a).

Definition set_serviceStatus (m : gmap string bool) (a : VisiFruitLauncher) : VisiFruitLauncher :=
  {| hwnd := hwnd a; hLogsTextBox := hLogsTextBox a;
     hStatusBackend := hStatusBackend a; hStatusFrontend := hStatusFrontend a;
     hStatusSystem := hStatusSystem a; hBrushBackground := hBrushBackground a;
     hBrushGreen := hBrushGreen a; hBrushRed := hBrushRed a;
     serviceStatus := m; processes := processes a |}.

Definition set_hwnd (h : Z) (a : VisiFruitLauncher) : VisiFruitLauncher :=
  {| hwnd := h; hLogsTextBox := hLogsTextBox a;
     hStatusBackend := hStatusBackend a; hStatusFrontend := hStatusFrontend a;
     hStatusSystem := hStatusSystem a; hBrushBackground := hBrushBackground a;
     hBrushGreen := hBrushGreen a; hBrushRed := hBrushRed a;
     serviceStatus := serviceStatus a; processes := processes a |}.

Definition set_hLogsTextBox (h : Z) (a : VisiFruitLauncher) : VisiFruitLauncher :=
  {| hwnd := hwnd a; hLogsTextBox := h;
     hStatusBackend := hStatusBackend a; hStatusFrontend := hStatusFrontend a;
     hStatusSystem := hStatusSystem a; hBrushBackground := hBrushBackground a;
     hBrushGreen := hBrushGreen a; hBrushRed := hBrushRed a;
     serviceStatus := serviceStatus a; processes := processes a |}.

Definition set_hStatusBackend (h : Z) (a : VisiFruitLauncher) : VisiFruitLauncher :=
  {| hwnd := hwnd a; hLogsTextBox := hLogsTextBox a;
     hStatusBackend := h; hStatusFrontend := hStatusFrontend a;
     hStatusSystem := hStatusSystem a; hBrushBackground := hBrushBackground a;
     hBrushGreen := hBrushGreen a; hBrushRed := hBrushRed a;
     serviceStatus := serviceStatus a; processes := processes a |}.

Definition set_hStatusFrontend (h : Z) (a : VisiFruitLauncher) : VisiFruitLauncher :=
  {| hwnd := hwnd a; hLogsTextBox := hLogsTextBox a;
     hStatusBackend := hStatusBackend a; hStatusFrontend := h;
     hStatusSystem := hStatusSystem a; hBrushBackground := hBrushBackground a;
     hBrushGreen := hBrushGreen a; hBrushRed := hBrushRed a;
     serviceStatus := serviceStatus a; processes := processes a |}.

Definition set_hStatusSystem (h : Z) (a : VisiFruitLauncher) : VisiFruitLauncher :=
  {| hwnd := hwnd a; hLogsTextBox := hLogsTextBox a;
     hStatusBackend := hStatusBackend a; hStatusFrontend := hStatusFrontend a;
     hStatusSystem := h; hBrushBackground := hBrushBackground a;
     hBrushGreen := hBrushGreen a; hBrushRed := hBrushRed a;
     serviceStatus := serviceStatus a; processes := processes a |}.

(** [for (auto x : l) body(x);] *)
Fixpoint for_each {W A} (l : list A) (body : A -> M W unit) : M W unit :=
  match l with
  | [] => ret tt
  | x :: rest => body x ;; for_each rest body
  end.

(** ** The edit control

    The window procedure of the system class [EDIT], for the messages the
    launcher sends: [EM_SETSEL] moves the selection (a negative start
    removes it, a negative end selects up to the end of the text),
    [EM_REPLACESEL] replaces the selected range by the C string behind
    [lParam] and leaves the caret after it, [EM_SCROLLCARET] changes
    nothing the launcher reads. *)
Definition edit_proc (w : Window) (msg wParam : Z) (lParam : LPARAM) : Window :=
  let len := String.length (w_text w) in
  if msg =? EM_SETSEL then
    match lParam with
    | L_int e =>
        if wParam <? 0 then
          {| w_class := w_class w; w_text := w_text w; w_id := w_id w;
             sel_start := sel_end w; sel_end := sel_end w |}
        else
          {| w_class := w_class w; w_text := w_text w; w_id := w_id w;
             sel_start := Nat.min (Z.to_nat wParam) len;
             sel_end := if e <? 0 then len else Nat.min (Z.to_nat e) len |}
    | L_str _ => w
    end
  else if msg =? EM_REPLACESEL then
    match lParam with
    | L_str s =>
        let a := Nat.min (sel_start w) (sel_end w) in
        let b := Nat.max (sel_start w) (sel_end w) in
        {| w_class := w_class w;
           w_text := str_take a (w_text w) +:+ s +:+ str_drop b (w_text w);
           w_id := w_id w;
           sel_start := (a + String.length s)%nat;
           sel_end := (a + String.length s)%nat |}
    | L_int _ => w
    end
  else w.

(** Only an edit control understands the [EM_] messages. *)
Definition window_proc (w : Window) (msg wParam : Z) (lParam : LPARAM) : Window :=
  if String.eqb (w_class w) "EDIT" then edit_proc w msg wParam lParam else w.

Definition with_text (t : string) (w : Window) : Window :=
  {| w_class := w_class w; w_text := t; w_id := w_id w;
     sel_start := O; sel_end := O |}.

Section Launcher.

Context {W : Type} (os : OS W).

(** ** The Win32 calls the launcher makes *)

Definition localtime : M W tm :=
  t ← ask (os_localtime os);
  emit (Call_localtime t) ;;
  ret t.

Definition GetWindowTextLength (h : Z) : M W Z :=
  d ← get_desk;
  let n := match windows d !! h with
           | Some w => Z.of_nat (String.length (w_text w))
           | None => 0
           end in
  emit (Call_GetWindowTextLength h n) ;;
  ret n.

(** A message to a window that does not exist is dropped. *)
Definition SendMessage (h msg wParam : Z) (lParam : LPARAM) : M W unit :=
  emit (Call_SendMessage h msg wParam lParam) ;;
  d ← get_desk;
  match windows d !! h with
  | Some w => set_windows (<[h := window_proc w msg wParam lParam]> (windows d))
  | None => ret tt
  end.

Definition SetWindowText (h : Z) (text : string) : M W unit :=
  emit (Call_SetWindowText h text) ;;
  d ← get_desk;
  match windows d !! h with
  | Some w => set_windows (<[h := with_text text w]> (windows d))
  | None => ret tt
  end.

Definition InvalidateRect (h : Z) : M W unit := emit (Call_InvalidateRect h).
Definition ShowWindow (h cmd : Z) : M W unit := emit (Call_ShowWindow h cmd).
Definition UpdateWindow (h : Z) : M W unit := emit (Call_UpdateWindow h).
Definition SetTextColor (color : Z) : M W unit := emit (Call_SetTextColor color).
Definition SetBkColor (color : Z) : M W unit := emit (Call_SetBkColor color).
Definition DeleteObject (h : Z) : M W unit := emit (Call_DeleteObject h).
Definition CloseHandle (h : Z) : M W unit := emit (Call_CloseHandle h).
Definition TerminateProcess (h code : Z) : M W unit := emit (Call_TerminateProcess h code).
Definition InternetCloseHandle (h : Z) : M W unit := emit (Call_InternetCloseHandle h).
Definition InitCommonControlsEx (dwICC : Z) : M W unit := emit (Call_InitCommonControlsEx dwICC).
Definition DefWindowProc (msg : Msg) : M W Z := emit (Call_DefWindowProc msg) ;; ret 0.

Definition CreateSolidBrush (color : Z) : M W Z :=
  h ← fresh_handle;
  emit (Call_CreateSolidBrush color h) ;;
  ret h.

Definition RegisterClassEx (cls : string) : M W bool :=
  ok ← ask (os_RegisterClassEx os cls);
  emit (Call_RegisterClassEx cls ok) ;;
  ret ok.

Definition new_window (cls text : string) (id : Z) : M W Z :=
  h ← fresh_handle;
  d ← get_desk;
  set_windows (<[h := {| w_class := cls; w_text := text; w_id := id;
                         sel_start := O; sel_end := O |}]> (windows d)) ;;
  ret h.

(** The top-level window: the system may refuse it and return [NULL]. *)
Definition CreateWindowEx (cls title : string) : M W Z :=
  ok ← ask (os_CreateWindowEx os cls);
  h ← (if ok : bool then new_window cls title 0 else ret NULL);
  emit (Call_CreateWindowEx cls title h) ;;
  ret h.

(** A child control.  The source never tests the result of these calls;
    the model takes them to succeed, each with a handle of its own. *)
Definition CreateWindow (cls text : string) (style x y w h parent id : Z) : M W Z :=
  res ← new_window cls text id;
  emit (Call_CreateWindow cls text style x y w h parent id res) ;;
  ret res.

(** A timer is known by its identifier; setting one that exists replaces
    its period. *)
Definition SetTimer (h id elapse : Z) : M W unit :=
  emit (Call_SetTimer h id elapse) ;;
  d ← get_desk;
  set_timers (<[id := elapse]> (timers d)).

Definition KillTimer (h id : Z) : M W unit :=
  emit (Call_KillTimer h id) ;;
  d ← get_desk;
  set_timers (delete id (timers d)).

(** [GetMessage] hands out the first quit message that was posted. *)
Definition PostQuitMessage (code : Z) : M W unit :=
  emit (Call_PostQuitMessage code) ;;
  d ← get_desk;
  match quit d with
  | Some _ => ret tt
  | None => set_quit (Some code)
  end.

Definition MessageBox (owner : Z) (text caption : string) (type : Z) : M W Z :=
  r ← ask (os_MessageBox os text caption type);
  emit (Call_MessageBox owner text caption type r) ;;
  ret r.

Definition GetFileAttributes (path : string) : M W Z :=
  r ← ask (os_GetFileAttributes os path);
  emit (Call_GetFileAttributes path r) ;;
  ret r.

(** Returns [true] on success; with [SEE_MASK_NOCLOSEPROCESS] the caller's
    structure then holds the handle of the new process ([NULL] when the
    shell started none).  The pair stands for the return value and the
    [hProcess] field written back. *)
Definition ShellExecuteEx (sei : SHELLEXECUTEINFO) : M W (bool * Z) :=
  r ← ask (os_ShellExecuteEx os sei);
  emit (Call_ShellExecuteEx sei (fst r) (snd r)) ;;
  ret r.

Definition ShellExecute (owner : Z) (verb file : string) (show : Z) : M W unit :=
  ask (fun w => (tt, os_ShellExecute os verb file w)) ;;
  emit (Call_ShellExecute owner verb file show).

Definition InternetOpen (agent : string) (access : Z) : M W Z :=
  h ← ask (os_InternetOpen os);
  emit (Call_InternetOpen agent access h) ;;
  ret h.

Definition InternetOpenUrl (session : Z) (url : string) (flags : Z) : M W Z :=
  r ← ask (os_InternetOpenUrl os url);
  emit (Call_InternetOpenUrl session url flags r) ;;
  ret (url_handle r).

(** ** [std::map<std::string, bool>] *)

(** [serviceStatus[k]] read: a missing key is first inserted with [false]. *)
Definition serviceStatus_at (k : string) : M W bool :=
  a ← get_self;
  match serviceStatus a !! k with
  | Some b => ret b
  | None => put_self (set_serviceStatus (<[k := false]> (serviceStatus a)) a) ;; ret false
  end.

(** [serviceStatus[k] = v]. *)
Definition serviceStatus_assign (k : string) (v : bool) : M W unit :=
  modify_self (fun a => set_serviceStatus (<[k := v]> (serviceStatus a)) a).

(** ** The class [VisiFruitLauncher] *)

(** The constructor.  The map and the vector start empty; the window
    handles are assigned only by [Initialize] and [CreateControls] and keep
    whatever value the object's storage held. *)
Definition VisiFruitLauncher_new : M W unit :=
  modify_self (fun a =>
    {| hwnd := hwnd a; hLogsTextBox := hLogsTextBox a;
       hStatusBackend := hStatusBackend a; hStatusFrontend := hStatusFrontend a;
       hStatusSystem := hStatusSystem a; hBrushBackground := hBrushBackground a;
       hBrushGreen := hBrushGreen a; hBrushRed := hBrushRed a;
       serviceStatus := ∅; processes := [] |}) ;;
  serviceStatus_assign "backend" false ;;
  serviceStatus_assign "frontend" false ;;
  serviceStatus_assign "system" false ;;
  bg ← CreateSolidBrush (RGB 43 43 43);
  green ← CreateSolidBrush (RGB 76 175 80);
  red ← CreateSolidBrush (RGB 244 67 54);
  modify_self (fun a =>
    {| hwnd := hwnd a; hLogsTextBox := hLogsTextBox a;
       hStatusBackend := hStatusBackend a; hStatusFrontend := hStatusFrontend a;
       hStatusSystem := hStatusSystem a; hBrushBackground := bg;
       hBrushGreen := green; hBrushRed := red;
       serviceStatus := serviceStatus a; processes := processes a |}).

(** The destructor. *)
Definition VisiFruitLauncher_delete : M W unit :=
  a ← get_self;
  DeleteObject (hBrushBackground a) ;;
  DeleteObject (hBrushGreen a) ;;
  DeleteObject (hBrushRed a) ;;
  for_each (processes a) (fun process =>
    if negb (hProcess process =? INVALID_HANDLE_VALUE) then
      TerminateProcess (hProcess process) 0 ;;
      CloseHandle (hProcess process) ;;
      CloseHandle (hThread process)
    else ret tt).

Definition CreateControls : M W unit :=
  a ← get_self;
  let hwnd := hwnd a in
  CreateWindow "STATIC" "🍎 VisiFruit System Launcher"
    (Z.lor WS_VISIBLE (Z.lor WS_CHILD SS_CENTER)) 20 20 960 40 hwnd NULL ;;
  CreateWindow "STATIC" "Sistema Industrial de Etiquetado de Frutas v3.0"
    (Z.lor WS_VISIBLE (Z.lor WS_CHILD SS_CENTER)) 20 60 960 25 hwnd NULL ;;
  CreateWindow "STATIC" "🎮 Control del Sistema"
    (Z.lor WS_VISIBLE WS_CHILD) 20 100 300 25 hwnd NULL ;;
  CreateWindow "BUTTON" "🚀 Iniciar Sistema Completo"
    (Z.lor WS_VISIBLE (Z.lor WS_CHILD BS_PUSHBUTTON)) 20 130 200 40 hwnd ID_START_ALL ;;
  CreateWindow "BUTTON" "⏹️ Detener Todo"
    (Z.lor WS_VISIBLE (Z.lor WS_CHILD BS_PUSHBUTTON)) 240 130 150 40 hwnd ID_STOP_ALL ;;
  CreateWindow "BUTTON" "🔧 Backend"
    (Z.lor WS_VISIBLE (Z.lor WS_CHILD BS_PUSHBUTTON)) 20 180 120 35 hwnd ID_START_BACKEND ;;
  CreateWindow "BUTTON" "💻 Frontend"
    (Z.lor WS_VISIBLE (Z.lor WS_CHILD BS_PUSHBUTTON)) 150 180 120 35 hwnd ID_START_FRONTEND ;;
  CreateWindow "BUTTON" "🏭 Sistema Principal"
    (Z.lor WS_VISIBLE (Z.lor WS_CHILD BS_PUSHBUTTON)) 280 180 150 35 hwnd ID_START_SYSTEM ;;
  CreateWindow "STATIC" "📊 Estado del Sistema"
    (Z.lor WS_VISIBLE WS_CHILD) 500 100 300 25 hwnd NULL ;;
  CreateWindow "STATIC" "Backend (8001):"
    (Z.lor WS_VISIBLE WS_CHILD) 500 130 120 20 hwnd NULL ;;
  hb ← CreateWindow "STATIC" "●"
    (Z.lor WS_VISIBLE (Z.lor WS_CHILD SS_CENTER)) 620 130 30 20 hwnd ID_STATUS_BACKEND;
  modify_self (set_hStatusBackend hb) ;;
  CreateWindow "STATIC" "Frontend (3000):"
    (Z.lor WS_VISIBLE WS_CHILD) 500 155 120 20 hwnd NULL ;;
  hf ← CreateWindow "STATIC" "●"
    (Z.lor WS_VISIBLE (Z.lor WS_CHILD SS_CENTER)) 620 155 30 20 hwnd ID_STATUS_FRONTEND;
  modify_self (set_hStatusFrontend hf) ;;
  CreateWindow "STATIC" "Sistema (8000):"
    (Z.lor WS_VISIBLE WS_CHILD) 500 180 120 20 hwnd NULL ;;
  hs ← CreateWindow "STATIC" "●"
    (Z.lor WS_VISIBLE (Z.lor WS_CHILD SS_CENTER)) 620 180 30 20 hwnd ID_STATUS_SYSTEM;
  modify_self (set_hStatusSystem hs) ;;
  CreateWindow "STATIC" "🔗 Enlaces Rápidos"
    (Z.lor WS_VISIBLE WS_CHILD) 700 100 200 25 hwnd NULL ;;
  CreateWindow "BUTTON" "🌐 Frontend"
    (Z.lor WS_VISIBLE (Z.lor WS_CHILD BS_PUSHBUTTON)) 700 130 100 30 hwnd ID_OPEN_FRONTEND ;;
  CreateWindow "BUTTON" "🔧 Backend API"
    (Z.lor WS_VISIBLE (Z.lor WS_CHILD BS_PUSHBUTTON)) 810 130 120 30 hwnd ID_OPEN_BACKEND ;;
  CreateWindow "BUTTON" "🏭 Sistema"
    (Z.lor WS_VISIBLE (Z.lor WS_CHILD BS_PUSHBUTTON)) 700 165 100 30 hwnd ID_OPEN_SYSTEM ;;
  CreateWindow "STATIC" "📝 Registro de Actividad"
    (Z.lor WS_VISIBLE WS_CHILD) 20 240 300 25 hwnd NULL ;;
  hl ← CreateWindow "EDIT" ""
    (Z.lor WS_VISIBLE (Z.lor WS_CHILD (Z.lor WS_BORDER (Z.lor WS_VSCROLL
       (Z.lor ES_MULTILINE ES_READONLY))))) 20 270 960 380 hwnd ID_LOGS_TEXTBOX;
  modify_self (set_hLogsTextBox hl).

(** The text [AddLog] builds in its string stream for the time [t]. *)
Definition log_line (t : tm) (message : string) : string :=
  "[" +:+ setfill_setw "0" 2 (tm_hour t)
  +:+ ":" +:+ setfill_setw "0" 2 (tm_min t)
  +:+ ":" +:+ setfill_setw "0" 2 (tm_sec t)
  +:+ "] " +:+ message +:+ CRLF.

Definition AddLog (message : string) : M W unit :=
  t ← localtime;
  let ss := log_line t message in
  a ← get_self;
  len ← GetWindowTextLength (hLogsTextBox a);
  SendMessage (hLogsTextBox a) EM_SETSEL len (L_int len) ;;
  SendMessage (hLogsTextBox a) EM_REPLACESEL FALSE (L_str (c_str ss)) ;;
  SendMessage (hLogsTextBox a) EM_SCROLLCARET 0 (L_int 0).

Definition Initialize : M W bool :=
  ok ← RegisterClassEx "VisiFruitLauncher";
  if negb ok then ret false
  else
    h ← CreateWindowEx "VisiFruitLauncher" "🍎 VisiFruit Launcher (C++ Native)";
    modify_self (set_hwnd h) ;;
    if h =? NULL then ret false
    else
      CreateControls ;;
      ShowWindow h SW_SHOW ;;
      UpdateWindow h ;;
      SetTimer h TIMER_STATUS_UPDATE 3000 ;;
      AddLog "🚀 VisiFruit Launcher (C++ Native) iniciado" ;;
      ret true.

Definition health_url (port : Z) : string :=
  "http://localhost:" +:+ to_wstring port +:+ "/health".

Definition CheckPort (port : Z) : M W bool :=
  hInternet ← InternetOpen "VisiFruit" INTERNET_OPEN_TYPE_DIRECT;
  if hInternet =? NULL then
    emit (Ret_CheckPort port false) ;;
    ret false
  else
    let url := health_url port in
    hUrl ← InternetOpenUrl hInternet (c_str url) INTERNET_FLAG_RELOAD;
    let isRunning := negb (hUrl =? NULL) in
    (if negb (hUrl =? NULL) then InternetCloseHandle hUrl else ret tt) ;;
    InternetCloseHandle hInternet ;;
    emit (Ret_CheckPort port isRunning) ;;
    ret isRunning.

Definition UpdateStatusIndicator (hStatus : Z) (isRunning : bool) : M W unit :=
  (if isRunning then SetWindowText hStatus "●"
   else SetWindowText hStatus "●") ;;
  InvalidateRect hStatus.

Definition UpdateServiceStatus : M W unit :=
  b ← CheckPort 8001;
  serviceStatus_assign "backend" b ;;
  f ← CheckPort 3000;
  serviceStatus_assign "frontend" f ;;
  s ← CheckPort 8000;
  serviceStatus_assign "system" s ;;
  a ← get_self;
  vb ← serviceStatus_at "backend";
  UpdateStatusIndicator (hStatusBackend a) vb ;;
  vf ← serviceStatus_at "frontend";
  UpdateStatusIndicator (hStatusFrontend a) vf ;;
  vs ← serviceStatus_at "system";
  UpdateStatusIndicator (hStatusSystem a) vs.

Definition start_all_sei (hwnd : Z) : SHELLEXECUTEINFO :=
  {| fMask := SEE_MASK_NOCLOSEPROCESS; sei_hwnd := hwnd; lpVerb := "open";
     lpFile := "start_sistema_completo.bat"; lpParameters := None;
     nShow := SW_SHOW |}.

Definition StartCompleteSystem : M W unit :=
  AddLog "🚀 Iniciando sistema completo..." ;;
  attrs ← GetFileAttributes "main_etiquetadora.py";
  if attrs =? INVALID_FILE_ATTRIBUTES then
    AddLog "❌ Error: No se encuentra main_etiquetadora.py" ;;
    a ← get_self;
    MessageBox (hwnd a) "No estás en la raíz del proyecto VisiFruit" "Error"
      (Z.lor MB_OK MB_ICONERROR) ;;
    ret tt
  else
    a ← get_self;
    '(ok, _) ← ShellExecuteEx (start_all_sei (hwnd a));
    if ok : bool then
      AddLog "✅ Sistema completo iniciado" ;;
      SetTimer (hwnd a) 3001 8000
    else
      AddLog "❌ Error iniciando sistema completo".

Definition kill_command (port : Z) : string :=
  "taskkill /F /FI " +:+ String (ascii_of_nat 34) "PID eq $(Get-NetTCPConnection -LocalPort "
  +:+ to_wstring port
  +:+ " | Select-Object -ExpandProperty OwningProcess)" +:+ String (ascii_of_nat 34) "".

Definition kill_sei (hwnd port : Z) : SHELLEXECUTEINFO :=
  {| fMask := SEE_MASK_NOCLOSEPROCESS; sei_hwnd := hwnd; lpVerb := "open";
     lpFile := "powershell"; lpParameters := Some (c_str (kill_command port));
     nShow := SW_HIDE |}.

Definition StopAllServices : M W unit :=
  AddLog "⏹️ Deteniendo todos los servicios..." ;;
  a ← get_self;
  let ports := [8000; 8001; 3000] in
  for_each ports (fun port =>
    ShellExecuteEx (kill_sei (hwnd a) port) ;;
    ret tt) ;;
  AddLog "✅ Servicios detenidos".

Definition start_sei (hwnd : Z) (scriptName : string) : SHELLEXECUTEINFO :=
  {| fMask := SEE_MASK_NOCLOSEPROCESS; sei_hwnd := hwnd; lpVerb := "open";
     lpFile := c_str scriptName; lpParameters := None; nShow := SW_SHOW |}.

Definition StartIndividualService (service scriptName : string) : M W unit :=
  AddLog ("🔧 Iniciando " +:+ service +:+ "...") ;;
  a ← get_self;
  '(ok, _) ← ShellExecuteEx (start_sei (hwnd a) scriptName);
  if ok : bool then AddLog ("✅ " +:+ service +:+ " iniciado")
  else AddLog ("❌ Error iniciando " +:+ service).

Definition OpenURL (url : string) : M W unit :=
  a ← get_self;
  ShellExecute (hwnd a) "open" (c_str url) SW_SHOWNORMAL ;;
  AddLog ("🌐 Abierto: " +:+ url).

Definition HandleCommand (commandId : Z) : M W unit :=
  if commandId =? ID_START_ALL then StartCompleteSystem
  else if commandId =? ID_STOP_ALL then StopAllServices
  else if commandId =? ID_START_BACKEND then
    StartIndividualService "Backend" "start_backend.bat"
  else if commandId =? ID_START_FRONTEND then
    StartIndividualService "Frontend" "start_frontend.bat"
  else if commandId =? ID_START_SYSTEM then
    StartIndividualService "Sistema Principal" "main_etiquetadora.py"
  else if commandId =? ID_OPEN_FRONTEND then OpenURL "http://localhost:3000"
  else if commandId =? ID_OPEN_BACKEND then OpenURL "http://localhost:8001/api/docs"
  else if commandId =? ID_OPEN_SYSTEM then OpenURL "http://localhost:8000"
  else ret tt.

Definition HandleTimer (timerId : Z) : M W unit :=
  if timerId =? TIMER_STATUS_UPDATE then UpdateServiceStatus
  else if timerId =? 3001 then
    OpenURL "http://localhost:3000" ;;
    a ← get_self;
    KillTimer (hwnd a) 3001
  else ret tt.

Definition GREEN : Z := RGB 76 175 80.
Definition RED : Z := RGB 244 67 54.

(** The [WM_DESTROY] case of [WndProc]. *)
Definition on_WM_DESTROY : M W Z :=
  a ← get_self;
  KillTimer (hwnd a) TIMER_STATUS_UPDATE ;;
  PostQuitMessage 0 ;;
  ret 0.

(** [DestroyWindow] sends [WM_DESTROY] to the window before it returns. *)
Definition DestroyWindow (h : Z) : M W unit :=
  emit (Call_DestroyWindow h) ;;
  on_WM_DESTROY ;;
  ret tt.

(** The window procedure; its [hwnd] argument is the launcher's window,
    the only window of the class. *)
Definition WndProc (msg : Msg) : M W Z :=
  match msg with
  | WM_COMMAND wParam => HandleCommand (LOWORD wParam) ;; ret 0
  | WM_TIMER wParam => HandleTimer wParam ;; ret 0
  | WM_CTLCOLORSTATIC hControl =>
      a ← get_self;
      if hControl =? hStatusBackend a then
        v ← serviceStatus_at "backend";
        SetTextColor (if v : bool then RGB 76 175 80 else RGB 244 67 54) ;;
        SetBkColor (RGB 43 43 43) ;;
        ret (hBrushBackground a)
      else if hControl =? hStatusFrontend a then
        v ← serviceStatus_at "frontend";
        SetTextColor (if v : bool then RGB 76 175 80 else RGB 244 67 54) ;;
        SetBkColor (RGB 43 43 43) ;;
        ret (hBrushBackground a)
      else if hControl =? hStatusSystem a then
        v ← serviceStatus_at "system";
        SetTextColor (if v : bool then RGB 76 175 80 else RGB 244 67 54) ;;
        SetBkColor (RGB 43 43 43) ;;
        ret (hBrushBackground a)
      else
        SetTextColor (RGB 255 255 255) ;;
        SetBkColor (RGB 43 43 43) ;;
        ret (hBrushBackground a)
  | WM_CLOSE =>
      a ← get_self;
      answer ← MessageBox (hwnd a) "¿Estás seguro de que quieres cerrar el launcher?"
                 "Confirmar cierre" (Z.lor MB_YESNO MB_ICONQUESTION);
      (if answer =? IDYES then DestroyWindow (hwnd a) else ret tt) ;;
      ret 0
  | WM_DESTROY => on_WM_DESTROY
  | WM_other _ => DefWindowProc msg
  end.

(** [DispatchMessage] calls [StaticWndProc], which forwards to [WndProc]
    of the object stored with the window. *)
Definition DispatchMessage (msg : Msg) : M W unit :=
  WndProc msg ;; ret tt.

(** The message loop over the messages [msgs] that arrive, in order.
    [GetMessage] returns zero once a quit message was posted and [Run]
    returns that message's [wParam]; [None] is a loop still waiting in
    [GetMessage] after the last message of [msgs]. *)
Fixpoint Run (msgs : list Msg) : M W (option Z) :=
  d ← get_desk;
  match quit d with
  | Some code => ret (Some code)
  | None =>
      match msgs with
      | [] => ret None
      | m :: rest => DispatchMessage m ;; Run rest
      end
  end.

(** [WinMain]: the exit code of the process, [None] while it runs.  The
    launcher object is destroyed when [WinMain] returns. *)
Definition WinMain (msgs : list Msg) : M W (option Z) :=
  InitCommonControlsEx ICC_STANDARD_CLASSES ;;
  VisiFruitLauncher_new ;;
  ok ← Initialize;
  if negb ok then
    MessageBox NULL "Error inicializando el launcher" "Error" (Z.lor MB_OK MB_ICONERROR) ;;
    VisiFruitLauncher_delete ;;
    ret (Some 1)
  else
    r ← Run msgs;
    match r with
    | Some code => VisiFruitLauncher_delete ;; ret (Some code)
    | None => ret None
    end.

End Launcher.

(** ** Observations

    What the specification talks about, read off a state or off the calls
    an operation made. *)

(** The two-digit rendering the log format asks for: tens, then units. *)
Definition digit (d : Z) : ascii := ascii_of_nat (48 + Z.to_nat d).

Definition two_digits (n : Z) : string :=
  String (digit (n / 10)) (String (digit (n mod 10)) EmptyString).

(** The three services, their keys in [serviceStatus], the ports the
    poller probes for them and their indicator controls. *)
Inductive Service := backend | frontend | system.

Definition key (svc : Service) : string :=
  match svc with
  | backend => "backend"
  | frontend => "frontend"
  | system => "system"
  end.

Definition port_of (svc : Service) : Z :=
  match svc with
  | backend => 8001
  | frontend => 3000
  | system => 8000
  end.

Definition indicator (svc : Service) (a : VisiFruitLauncher) : Z :=
  match svc with
  | backend => hStatusBackend a
  | frontend => hStatusFrontend a
  | system => hStatusSystem a
  end.

(** The status flag of a service, as [serviceStatus[key]] reads it. *)
Definition flag {W} (svc : Service) (s : State W) : bool :=
  match serviceStatus (self s) !! key svc with
  | Some b => b
  | None => false
  end.

(** The text of the log view. *)
Definition log_text {W} (s : State W) : string :=
  match windows (desk s) !! hLogsTextBox (self s) with
  | Some w => w_text w
  | None => EmptyString
  end.

(** The window classes of the session. *)
Definition classes {W} (s : State W) : gmap Z string := w_class <$> windows (desk s).

(** [hLogsTextBox] is an edit control of the session. *)
Definition log_ready {W} (s : State W) : Prop :=
  classes s !! hLogsTextBox (self s) = Some "EDIT".

(** The members that are not status flags. *)
Definition members (a : VisiFruitLauncher) : VisiFruitLauncher := set_serviceStatus ∅ a.

(** The probes among the calls: port and answer, oldest first. *)
Definition probe_of (c : Call) : option (Z * bool) :=
  match c with
  | Ret_CheckPort p b => Some (p, b)
  | _ => None
  end.

Definition probes (cs : list Call) : list (Z * bool) := omap probe_of cs.

(** The answer of the most recent probe of [port], if there was one. *)
Definition last_probe (port : Z) (ps : list (Z * bool)) : option bool :=
  snd <$> last (filter (fun pb => fst pb = port) ps).

(** The most recent probe of [port] found it reachable. *)
Definition reachable (port : Z) (cs : list Call) : bool :=
  match last_probe port (probes cs) with
  | Some true => true
  | _ => false
  end.

Definition text_colors (cs : list Call) : list Z :=
  omap (fun c => match c with Call_SetTextColor x => Some x | _ => None end) cs.

Definition invalidated (cs : list Call) : list Z :=
  omap (fun c => match c with Call_InvalidateRect h => Some h | _ => None end) cs.

(** The launches requested through [ShellExecuteEx]. *)
Definition shell_requests (cs : list Call) : list SHELLEXECUTEINFO :=
  omap (fun c => match c with Call_ShellExecuteEx sei _ _ => Some sei | _ => None end) cs.

(** The process handles successful launches handed to the launcher. *)
Definition started_processes (cs : list Call) : list Z :=
  omap (fun c => match c with
                 | Call_ShellExecuteEx _ true h => if h =? NULL then None else Some h
                 | _ => None
                 end) cs.

(** The processes terminated. *)
Definition termination_of (c : Call) : option Z :=
  match c with
  | Call_TerminateProcess h _ => Some h
  | _ => None
  end.

Definition terminated (cs : list Call) : list Z := omap termination_of cs.

(** The dialogs shown: owner, text, caption and type. *)
Definition dialog_of (c : Call) : option (Z * string * string * Z) :=
  match c with
  | Call_MessageBox o t c ty _ => Some (o, t, c, ty)
  | _ => None
  end.

Definition dialogs (cs : list Call) : list (Z * string * string * Z) := omap dialog_of cs.

(** The URLs requested through [InternetOpenUrl]. *)
Definition http_gets (cs : list Call) : list string :=
  omap (fun c => match c with Call_InternetOpenUrl _ url _ _ => Some url | _ => None end) cs.

(** What [ShellExecute] was asked to open. *)
Definition opened (cs : list Call) : list string :=
  omap (fun c => match c with Call_ShellExecute _ _ file _ => Some file | _ => None end) cs.

(** The timers set, identifier and period. *)
Definition timers_set (cs : list Call) : list (Z * Z) :=
  omap (fun c => match c with Call_SetTimer _ id ms => Some (id, ms) | _ => None end) cs.

(** The exit codes posted. *)
Definition quits_posted (cs : list Call) : list Z :=
  omap (fun c => match c with Call_PostQuitMessage n => Some n | _ => None end) cs.

(** The texts handed to the log view for insertion. *)
Definition log_appends (cs : list Call) : list string :=
  omap (fun c => match c with
                 | Call_SendMessage _ msg _ (L_str t) =>
                     if msg =? EM_REPLACESEL then Some t else None
                 | _ => None
                 end) cs.

(** Calls that serve the log view, and calls that launch something. *)
Definition is_log_call (c : Call) : bool :=
  match c with
  | Call_localtime _ | Call_GetWindowTextLength _ _ | Call_SendMessage _ _ _ _ => true
  | _ => false
  end.

Definition is_launch (c : Call) : bool :=
  match c with
  | Call_ShellExecuteEx _ _ _ => true
  | _ => false
  end.



(** Calls of WinInet; the mark of a probe's return counts among them. *)
Definition is_wininet (c : Call) : bool :=
  match c with
  | Call_InternetOpen _ _ _ | Call_InternetOpenUrl _ _ _ _ | Call_InternetCloseHandle _
  | Ret_CheckPort _ _ => true
  | _ => false
  end.

(** Line breaks.  The log view separates its lines by the pair CR LF that
    [AddLog] puts behind every entry. *)
Definition starts_with_LF (s : string) : bool :=
  match s with
  | String c _ => Ascii.eqb c "010"
  | EmptyString => false
  end.

(** The number of line breaks in a text. *)
Fixpoint line_breaks (s : string) : nat :=
  match s with
  | EmptyString => O
  | String c r =>
      if Ascii.eqb c "013" && starts_with_LF r then S (line_breaks r) else line_breaks r
  end.

(** A text without any line-break character, CR or LF (as the stamp that
    [AddLog] puts before the message). *)
Fixpoint break_free (s : string) : bool :=
  match s with
  | EmptyString => true
  | String c r => negb (Ascii.eqb c "013") && negb (Ascii.eqb c "010") && break_free r
  end.

(** The answers [ShellExecuteEx] gave. *)
Definition launch_results (cs : list Call) : list bool :=
  omap (fun c => match c with Call_ShellExecuteEx _ ok _ => Some ok | _ => None end) cs.

(** A response was received, whatever its status. *)
Definition responded (r : HttpResult) : bool :=
  match r with
  | Responded _ _ => true
  | _ => false
  end.


(** The child controls created: class, text, identifier and parent. *)
Definition controls_created (cs : list Call) : list (string * string * Z * Z) :=
  omap (fun c => match c with
                 | Call_CreateWindow cls text _ _ _ _ _ parent id _ =>
                     Some (cls, text, id, parent)
                 | _ => None
                 end) cs.

(** The identifiers of the buttons among them. *)
Definition button_ids (cs : list Call) : list Z :=
  omap (fun '(cls, _, id, _) => if String.eqb cls "BUTTON" then Some id else None)
       (controls_created cs).

(** The control identifier of the indicator of a service. *)
Definition status_id (svc : Service) : Z :=
  match svc with
  | backend => ID_STATUS_BACKEND
  | frontend => ID_STATUS_FRONTEND
  | system => ID_STATUS_SYSTEM
  end.

(** The windows shown: handle and show command. *)
Definition shown (cs : list Call) : list (Z * Z) :=
  omap (fun c => match c with Call_ShowWindow h cmd => Some (h, cmd) | _ => None end) cs.

(** The top-level windows asked for, with the handle returned. *)
Definition main_windows (cs : list Call) : list (string * Z) :=
  omap (fun c => match c with Call_CreateWindowEx cls _ h => Some (cls, h) | _ => None end) cs.

(** The windows destroyed, the timers killed (by identifier), the GDI
    objects deleted and the handles closed. *)
Definition destroyed (cs : list Call) : list Z :=
  omap (fun c => match c with Call_DestroyWindow h => Some h | _ => None end) cs.

Definition timers_killed (cs : list Call) : list Z :=
  omap (fun c => match c with Call_KillTimer _ id => Some id | _ => None end) cs.

Definition deleted_objects (cs : list Call) : list Z :=
  omap (fun c => match c with Call_DeleteObject h => Some h | _ => None end) cs.

Definition closed_handles (cs : list Call) : list Z :=
  omap (fun c => match c with Call_CloseHandle h => Some h | _ => None end) cs.

(** The processes terminated, each with the exit code given to it. *)
Definition terminations (cs : list Call) : list (Z * Z) :=
  omap (fun c => match c with Call_TerminateProcess h code => Some (h, code) | _ => None end) cs.

(** The handles WinInet handed out, and the handles given back to it. *)
Definition inet_opened (cs : list Call) : list Z :=
  omap (fun c => match c with
                 | Call_InternetOpen _ _ h => if h =? NULL then None else Some h
                 | Call_InternetOpenUrl _ _ _ (Responded _ h) => Some (Z.pos h)
                 | _ => None
                 end) cs.

Definition inet_closed (cs : list Call) : list Z :=
  omap (fun c => match c with Call_InternetCloseHandle h => Some h | _ => None end) cs.

(** The background colours set. *)
Definition bk_colors (cs : list Call) : list Z :=
  omap (fun c => match c with Call_SetBkColor x => Some x | _ => None end) cs.

(** The brushes created: colour and handle. *)
Definition brushes_created (cs : list Call) : list (Z * Z) :=
  omap (fun c => match c with Call_CreateSolidBrush color h => Some (color, h) | _ => None end)
       cs.

(** All the texts handed to the log view, one behind the other. *)
Definition log_written (cs : list Call) : string :=
  fold_right String.append EmptyString (log_appends cs).

(** The log view is an edit control, and no indicator is the log view. *)
Definition log_apart {W} (s : State W) : Prop :=
  log_ready s /\ forall svc, indicator svc (self s) <> hLogsTextBox (self s).

(** The state in which [WinMain] is entered: no window, no timer, no quit
    message; the launcher object's storage holds [a0]. *)
Definition process_start {W} (a0 : VisiFruitLauncher) (w0 : W) : State W :=
  {| self := a0;
     desk := {| windows := ∅; timers := ∅; quit := None;
                next_handle := 1%positive; world := w0 |} |}.

(** [WinMain] up to the message loop: common controls, the constructor,
    [Initialize]. *)
Definition startup {W} (os : OS W) : M W bool :=
  InitCommonControlsEx ICC_STANDARD_CLASSES ;;
  VisiFruitLauncher_new ;;
  Initialize os.

(** The three indicators are three different controls. *)
Definition indicators_differ (a : VisiFruitLauncher) : Prop :=
  hStatusBackend a <> hStatusFrontend a
  /\ hStatusBackend a <> hStatusSystem a
  /\ hStatusFrontend a <> hStatusSystem a.

(** The edit control after one [AddLog]: the three messages in turn. *)
Definition log_window_after (txt : string) (w : Window) : Window :=
  let len := Z.of_nat (String.length (w_text w)) in
  window_proc
    (window_proc
       (window_proc w EM_SETSEL len (L_int len))
       EM_REPLACESEL FALSE (L_str txt))
    EM_SCROLLCARET 0 (L_int 0).

(** A repaint owed.  Reading the calls from the oldest on, a probe of
    [port] leaves the control [h] showing an answer that is out of date,
    and [InvalidateRect] of the control asks the system to paint it anew.
    [repaint_pending]: the last probe of the port has not been followed by
    such a request. *)
Definition repaint_step (port h : Z) (pending : bool) (c : Call) : bool :=
  match c with
  | Ret_CheckPort p _ => if p =? port then true else pending
  | Call_InvalidateRect h' => if h' =? h then false else pending
  | _ => pending
  end.

Definition repaint_pending (port h : Z) (cs : list Call) : bool :=
  fold_left (repaint_step port h) cs false.

(** The invariant of the message loop: each flag holds the answer of the
    most recent probe of its port ([false] before the first one), and the
    three indicators are different controls. *)
Definition in_step {W} (s : State W) (cs : list Call) : Prop :=
  (forall svc, flag svc s = reachable (port_of svc) cs)
  /\ indicators_differ (self s).

Definition logged (txt : string) (h : Z) (ws : gmap Z Window) : gmap Z Window :=
  match ws !! h with
  | Some w => <[h := log_window_after txt w]> ws
  | None => ws
  end.

(** Does [WndProc] take this message as a tick of the status poller? *)
Definition is_poll_tick (m : Msg) : bool :=
  match m with
  | WM_TIMER id => id =? TIMER_STATUS_UPDATE
  | _ => false
  end.

(** ** Scenarios

    Concrete operating systems, for running the launcher on examples.  The
    world is a clock: the seconds since midnight, one more after each
    reading of the time. *)
Definition clock_tm (n : nat) : tm :=
  {| tm_hour := Z.of_nat (n / 3600) mod 24;
     tm_min := Z.of_nat (n / 60) mod 60;
     tm_sec := Z.of_nat n mod 60 |}.

Record Scenario := {
  sc_wininet : Z;
  sc_http : string -> HttpResult;
  sc_marker : bool;
  sc_launch : bool * Z;
  sc_answer : Z;
  sc_class : bool;
  sc_window : bool
}.

Definition scripted (sc : Scenario) : OS nat :=
  {| os_localtime := fun n => (clock_tm n, S n);
     os_InternetOpen := fun n => (sc_wininet sc, n);
     os_InternetOpenUrl := fun url n => (sc_http sc url, n);
     os_GetFileAttributes := fun _ n =>
       (if sc_marker sc then 32 else INVALID_FILE_ATTRIBUTES, n);
     os_ShellExecuteEx := fun _ n => (sc_launch sc, n);
     os_ShellExecute := fun _ _ n => n;
     os_MessageBox := fun _ _ _ n => (sc_answer sc, n);
     os_RegisterClassEx := fun _ n => (sc_class sc, n);
     os_CreateWindowEx := fun _ n => (sc_window sc, n) |}.

(** The backend answers, the frontend answers with an error status, the
    main system does not answer; everything else works and dialogs are
    answered with "yes". *)
Definition office : Scenario :=
  {| sc_wininet := 77;
     sc_http := fun url =>
       if String.eqb url "http://localhost:8001/health" then Responded 200 9
       else if String.eqb url "http://localhost:3000/health" then Responded 404 10
       else TimedOut;
     sc_marker := true;
     sc_launch := (true, 500);
     sc_answer := IDYES;
     sc_class := true;
     sc_window := true |}.

(** As [office], but WinInet cannot be initialised. *)
Definition no_wininet : Scenario :=
  {| sc_wininet := NULL; sc_http := sc_http office; sc_marker := true;
     sc_launch := (true, 500); sc_answer := IDYES; sc_class := true;
     sc_window := true |}.


(** As [office], but the shell refuses every launch. *)
Definition no_launch : Scenario :=
  {| sc_wininet := 77; sc_http := sc_http office; sc_marker := true;
     sc_launch := (false, NULL); sc_answer := IDYES; sc_class := true;
     sc_window := true |}.

(** As [office], but the main window cannot be created. *)
Definition no_window : Scenario :=
  {| sc_wininet := 77; sc_http := sc_http office; sc_marker := true;
     sc_launch := (true, 500); sc_answer := IDYES; sc_class := true;
     sc_window := false |}.

(** Storage of the launcher object before its constructor ran. *)
Definition blank : VisiFruitLauncher :=
  {| hwnd := 0; hLogsTextBox := 0; hStatusBackend := 0; hStatusFrontend := 0;
     hStatusSystem := 0; hBrushBackground := 0; hBrushGreen := 0; hBrushRed := 0;
     serviceStatus := ∅; processes := [] |}.

(** Half past noon and some seconds: 12:34:56. *)
Definition noon : nat := 12 * 3600 + 34 * 60 + 56.

(** The launcher of a scenario after it handled [msgs]. *)
Definition session (sc : Scenario) (msgs : list Msg) : Outcome nat (option Z) :=
  WinMain (scripted sc) msgs (process_start blank noon).

(** ** Properties of operations

    [keeps f m]: running [m] does not change the observation [f].
    [mute f m]: none of the calls [m] makes is selected by [f]. *)
Definition keeps {W X A} (f : State W -> X) (m : M W A) : Prop :=
  forall s, f (after (m s)) = f s.

Definition mute {W X A} (f : Call -> option X) (m : M W A) : Prop :=
  forall s, omap f (calls (m s)) = [].

(** [logs a m]: on a launcher with the handles of [a] and its log view
    apart, [m] changes the text of the log view only by putting behind it
    the texts it hands to the view, and leaves the handles and the window
    classes as they are. *)
Definition logs {W A} (a : VisiFruitLauncher) (m : M W A) : Prop :=
  forall s, members (self s) = a -> log_apart s ->
    members (self (after (m s))) = a
    /\ classes (after (m s)) = classes s
    /\ log_text (after (m s)) = log_text s +:+ log_written (calls (m s)).

(** * Proofs *)

(** ** Strings *)

Lemma str_take_all (s : string) : str_take (String.length s) s = s.
Proof. induction s as [|c r IH]; simpl; [reflexivity | now rewrite IH]. Qed.

Lemma str_drop_all (s : string) : str_drop (String.length s) s = EmptyString.
Proof. induction s as [|c r IH]; simpl; [reflexivity | exact IH]. Qed.

Lemma str_app_empty (s : string) : s +:+ EmptyString = s.
Proof. induction s as [|c r IH]; simpl; [reflexivity | f_equal; exact IH]. Qed.

Lemma str_app_assoc (a b c : string) : (a +:+ b) +:+ c = a +:+ (b +:+ c).
Proof. induction a as [|x r IH]; simpl; [reflexivity | f_equal; exact IH]. Qed.

Lemma str_length_app (a b : string) :
  String.length (a +:+ b) = (String.length a + String.length b)%nat.
Proof. induction a as [|x r IH]; simpl; [reflexivity | f_equal; exact IH]. Qed.

Lemma nul_free_app (a b : string) : nul_free (a +:+ b) = nul_free a && nul_free b.
Proof.
  induction a as [|x r IH]; simpl; [reflexivity |].
  destruct (Ascii.eqb x NUL); simpl; [reflexivity | exact IH].
Qed.

Lemma c_str_nul_free (s : string) : nul_free s = true -> c_str s = s.
Proof.
  induction s as [|c r IH]; simpl; [reflexivity |].
  destruct (Ascii.eqb c NUL); simpl; [discriminate |].
  intros H. f_equal. exact (IH H).
Qed.

(** With a terminator inside, [c_str] stops before it. *)
Lemma c_str_cut (a b : string) :
  nul_free a = true -> c_str (a +:+ String NUL b) = a.
Proof.
  induction a as [|c r IH]; simpl; [reflexivity |].
  destruct (Ascii.eqb c NUL); simpl; [discriminate |].
  intros H. f_equal. exact (IH H).
Qed.

Lemma nul_free_digits (d : Decimal.uint) : nul_free (NilEmpty.string_of_uint d) = true.
Proof. induction d; simpl; auto. Qed.

Lemma nul_free_uint (d : Decimal.uint) : nul_free (NilZero.string_of_uint d) = true.
Proof. destruct d; try reflexivity; apply (nul_free_digits (_ d)). Qed.

Lemma nul_free_to_wstring (n : Z) : nul_free (to_wstring n) = true.
Proof.
  unfold to_wstring. destruct (Z.to_int n) as [d|d]; simpl; apply nul_free_uint.
Qed.

Lemma nul_free_repeat_zero (n : nat) : nul_free (str_repeat "0" n) = true.
Proof. induction n; simpl; auto. Qed.

Lemma nul_free_setfill_setw (w : nat) (n : Z) : nul_free (setfill_setw "0" w n) = true.
Proof.
  unfold setfill_setw. rewrite nul_free_app, nul_free_repeat_zero, nul_free_to_wstring.
  reflexivity.
Qed.

Lemma nul_free_log_line (t : tm) (message : string) :
  nul_free (log_line t message) = nul_free message.
Proof.
  unfold log_line. rewrite !nul_free_app, !nul_free_setfill_setw. simpl.
  now rewrite andb_true_r.
Qed.

Lemma nul_free_health_url (port : Z) : nul_free (health_url port) = true.
Proof.
  unfold health_url. rewrite !nul_free_app, nul_free_to_wstring. reflexivity.
Qed.

Lemma c_str_health_url (port : Z) : c_str (health_url port) = health_url port.
Proof. apply c_str_nul_free, nul_free_health_url. Qed.

Lemma c_str_kill_command (port : Z) : c_str (kill_command port) = kill_command port.
Proof.
  apply c_str_nul_free. unfold kill_command.
  rewrite !nul_free_app, nul_free_to_wstring. reflexivity.
Qed.

Lemma setfill_setw_two_digits_nat (k : nat) :
  (k < 100)%nat -> setfill_setw "0" 2 (Z.of_nat k) = two_digits (Z.of_nat k).
Proof.
  intros Hk.
  assert (Hall : forallb (fun k => String.eqb (setfill_setw "0" 2 (Z.of_nat k))
                                     (two_digits (Z.of_nat k))) (seq 0 100) = true)
    by (vm_compute; reflexivity).
  rewrite forallb_forall in Hall.
  apply String.eqb_eq, Hall, in_seq. lia.
Qed.

Lemma setfill_setw_two_digits (n : Z) :
  0 <= n <= 99 -> setfill_setw "0" 2 n = two_digits n.
Proof.
  intros Hn. rewrite <- (Z2Nat.id n) by lia.
  apply setfill_setw_two_digits_nat. lia.
Qed.

(** ** Composing properties of operations *)

Section Frames.

Context {W : Type}.

Lemma keeps_ret {X A} (f : State W -> X) (a : A) : keeps f (ret a : M W A).
Proof. intros s. reflexivity. Qed.

Lemma keeps_bind {X A B} (f : State W -> X) (m : M W A) (k : A -> M W B) :
  keeps f m -> (forall a, keeps f (k a)) -> keeps f (m ≫= k).
Proof.
  intros Hm Hk s. unfold mbind, M_bind, bind.
  specialize (Hm s). destruct (m s) as [a s1 c1]. specialize (Hk a s1).
  destruct (k a s1) as [b s2 c2]. cbn in *. congruence.
Qed.

Lemma keeps_emit {X} (f : State W -> X) (c : Call) : keeps f (emit c : M W unit).
Proof. intros s. reflexivity. Qed.

Lemma keeps_get_self {X} (f : State W -> X) : keeps f (get_self : M W _).
Proof. intros s. reflexivity. Qed.

Lemma keeps_get_desk {X} (f : State W -> X) : keeps f (get_desk : M W _).
Proof. intros s. reflexivity. Qed.

Lemma keeps_for_each {X A} (f : State W -> X) (l : list A) (body : A -> M W unit) :
  (forall x, keeps f (body x)) -> keeps f (for_each l body).
Proof.
  intros Hb. induction l as [|x l IH]; simpl.
  - apply keeps_ret.
  - apply keeps_bind; auto.
Qed.

Lemma mute_ret {X A} (f : Call -> option X) (a : A) : mute f (ret a : M W A).
Proof. intros s. reflexivity. Qed.

Lemma mute_bind {X A B} (f : Call -> option X) (m : M W A) (k : A -> M W B) :
  mute f m -> (forall a, mute f (k a)) -> mute f (m ≫= k).
Proof.
  intros Hm Hk s. unfold mbind, M_bind, bind.
  specialize (Hm s). destruct (m s) as [a s1 c1]. specialize (Hk a s1).
  destruct (k a s1) as [b s2 c2]. cbn in *. rewrite omap_app, Hm, Hk. reflexivity.
Qed.

Lemma mute_emit {X} (f : Call -> option X) (c : Call) :
  f c = None -> mute f (emit c : M W unit).
Proof. intros Hc s. cbn. now rewrite Hc. Qed.

Lemma mute_for_each {X A} (f : Call -> option X) (l : list A) (body : A -> M W unit) :
  (forall x, mute f (body x)) -> mute f (for_each l body).
Proof.
  intros Hb. induction l as [|x l IH]; simpl.
  - apply mute_ret.
  - apply mute_bind; auto.
Qed.

(** The three components of a sequence, from those of its parts. *)
Lemma bind_value {A B} (m : M W A) (k : A -> M W B) (s : State W) :
  value ((m ≫= k) s) = value (k (value (m s)) (after (m s))).
Proof.
  unfold mbind, M_bind, bind. destruct (m s) as [a s1 c1]; cbn.
  now destruct (k a s1).
Qed.

Lemma bind_after {A B} (m : M W A) (k : A -> M W B) (s : State W) :
  after ((m ≫= k) s) = after (k (value (m s)) (after (m s))).
Proof.
  unfold mbind, M_bind, bind. destruct (m s) as [a s1 c1]; cbn.
  now destruct (k a s1).
Qed.

Lemma bind_calls {A B} (m : M W A) (k : A -> M W B) (s : State W) :
  calls ((m ≫= k) s) = calls (m s) ++ calls (k (value (m s)) (after (m s))).
Proof.
  unfold mbind, M_bind, bind. destruct (m s) as [a s1 c1]; cbn.
  now destruct (k a s1).
Qed.

End Frames.

Create HintDb launcher discriminated.

(** Facts [keeps f m] proved once and used where [m] occurs. *)
Create HintDb frames discriminated.

#[local] Hint Unfold localtime GetWindowTextLength SendMessage SetWindowText InvalidateRect
  ShowWindow UpdateWindow SetTextColor SetBkColor DeleteObject CloseHandle TerminateProcess
  InternetCloseHandle InitCommonControlsEx DefWindowProc CreateSolidBrush RegisterClassEx
  SetTimer KillTimer PostQuitMessage MessageBox GetFileAttributes ShellExecuteEx ShellExecute
  InternetOpen InternetOpenUrl serviceStatus_assign
  AddLog CheckPort UpdateStatusIndicator UpdateServiceStatus StartCompleteSystem
  StopAllServices StartIndividualService OpenURL HandleCommand HandleTimer on_WM_DESTROY
  DestroyWindow WndProc DispatchMessage VisiFruitLauncher_delete : launcher.

(** Reduce the plumbing of the monad and the record projections, and
    nothing else (maps and strings stay as they are). *)
Ltac mred :=
  cbn [value after calls self desk windows timers quit next_handle world fst snd List.app].

Ltac munfold :=
  unfold ask, set_windows, set_timers, set_quit, fresh_handle, modify_self,
    mbind, M_bind, bind, ret, emit, get_self, put_self, get_desk, put_desk.

(** Run an operation on a state given by its components: the monad, the
    primitive state updates and the record projections are evaluated,
    everything else is left folded. *)
Ltac mrun :=
  cbv beta iota zeta delta
      [mbind M_bind mret M_ret bind ret emit get_self put_self get_desk put_desk ask
       set_windows set_timers set_quit fresh_handle modify_self new_window for_each
       set_hwnd set_hStatusBackend set_hStatusFrontend set_hStatusSystem set_hLogsTextBox
       set_serviceStatus
       hwnd hLogsTextBox hStatusBackend hStatusFrontend hStatusSystem hBrushBackground
       hBrushGreen hBrushRed serviceStatus processes
       value after calls self desk windows timers quit next_handle world fst snd negb];
  cbn [List.app].

Tactic Notation "mrun" "in" hyp(H) :=
  cbv beta iota zeta delta
      [mbind M_bind mret M_ret bind ret emit get_self put_self get_desk put_desk ask
       set_windows set_timers set_quit fresh_handle modify_self new_window for_each
       set_hwnd set_hStatusBackend set_hStatusFrontend set_hStatusSystem set_hLogsTextBox
       set_serviceStatus
       hwnd hLogsTextBox hStatusBackend hStatusFrontend hStatusSystem hBrushBackground
       hBrushGreen hBrushRed serviceStatus processes
       value after calls self desk windows timers quit next_handle world fst snd negb] in H;
  cbn [List.app] in H.

(** Split a state into the members of the launcher and the components of
    the session. *)
Ltac open_state s :=
  let a := fresh "obj" in
  let d := fresh "d" in
  destruct s as [a d];
  destruct a as [? ? ? ? ? ? ? ? ? ?];
  destruct d as [? ? ? ? ?].

Ltac frame_leaf := solve [intros ?; reflexivity].

(** [keeps f m], by the structure of [m]. *)
Ltac frame :=
  repeat first
    [ solve [eauto 2 with frames nocore]
    | match goal with
      | |- keeps _ (let _ := _ in _) => cbv zeta
      | |- keeps _ (match ?x with _ => _ end) => destruct x
      | |- keeps _ (ask _) => frame_leaf
      | |- keeps _ (set_windows _) => frame_leaf
      | |- keeps _ (set_timers _) => frame_leaf
      | |- keeps _ (set_quit _) => frame_leaf
      | |- keeps _ (put_self _) => frame_leaf
      | |- keeps _ (put_desk _) => frame_leaf
      | |- keeps _ (modify_self _) => frame_leaf
      | |- keeps _ fresh_handle => frame_leaf
      | |- keeps _ (serviceStatus_at _) =>
          solve [intros s; unfold serviceStatus_at, mbind, M_bind, bind, get_self;
                 destruct (serviceStatus (self s) !! _); reflexivity]
      | |- keeps _ (ret _) => apply keeps_ret
      | |- keeps _ (emit _) => apply keeps_emit
      | |- keeps _ get_self => apply keeps_get_self
      | |- keeps _ get_desk => apply keeps_get_desk
      | |- keeps _ (for_each _ _) => apply keeps_for_each; intros ?
      | |- keeps _ (_ ≫= _) => apply keeps_bind; [| intros ?]
      end
    | progress autounfold with launcher ].

(** [mute f m], by the structure of [m]. *)
Ltac quiet :=
  repeat first
    [ solve [eauto 2 with frames nocore]
    | match goal with
      | |- mute _ (let _ := _ in _) => cbv zeta
      | |- mute _ (match ?x with _ => _ end) => destruct x
      | |- mute _ (ret _) => apply mute_ret
      | |- mute _ (emit _) => apply mute_emit; reflexivity
      | |- mute _ (for_each _ _) => apply mute_for_each; intros ?
      | |- mute _ (_ ≫= _) => apply mute_bind; [| intros ?]
      | |- mute _ (ask _) => frame_leaf
      | |- mute _ (set_windows _) => frame_leaf
      | |- mute _ (set_timers _) => frame_leaf
      | |- mute _ (set_quit _) => frame_leaf
      | |- mute _ (put_self _) => frame_leaf
      | |- mute _ (put_desk _) => frame_leaf
      | |- mute _ (modify_self _) => frame_leaf
      | |- mute _ fresh_handle => frame_leaf
      | |- mute _ get_self => frame_leaf
      | |- mute _ get_desk => frame_leaf
      | |- mute _ (serviceStatus_at _) =>
          solve [intros s; unfold serviceStatus_at, mbind, M_bind, bind, get_self;
                 destruct (serviceStatus (self s) !! _); reflexivity]
      end
    | progress autounfold with launcher ].

Section Facts.

Context {W : Type} (os : OS W).

(** ** The log view *)

(** What one [AddLog] does, in full. *)
Lemma AddLog_run (message : string) (s : State W) :
  AddLog os message s =
  let now := os_localtime os (world (desk s)) in
  let h := hLogsTextBox (self s) in
  let len := match windows (desk s) !! h with
             | Some w => Z.of_nat (String.length (w_text w))
             | None => 0
             end in
  let txt := c_str (log_line (fst now) message) in
  {| value := tt;
     after := {| self := self s;
                 desk := {| windows := logged txt h (windows (desk s));
                            timers := timers (desk s);
                            quit := quit (desk s);
                            next_handle := next_handle (desk s);
                            world := snd now |} |};
     calls := [Call_localtime (fst now);
               Call_GetWindowTextLength h len;
               Call_SendMessage h EM_SETSEL len (L_int len);
               Call_SendMessage h EM_REPLACESEL FALSE (L_str txt);
               Call_SendMessage h EM_SCROLLCARET 0 (L_int 0)] |}.
Proof.
  unfold AddLog, localtime, GetWindowTextLength, SendMessage, logged, log_window_after.
  munfold. mred.
  destruct (windows (desk s) !! hLogsTextBox (self s)) as [w|] eqn:Hw; mred.
  - repeat (rewrite lookup_insert_eq; mred).
    rewrite !insert_insert_eq. reflexivity.
  - repeat (rewrite Hw; mred). reflexivity.
Qed.

Lemma edit_proc_class (w : Window) (msg wParam : Z) (lParam : LPARAM) :
  w_class (edit_proc w msg wParam lParam) = w_class w.
Proof.
  unfold edit_proc.
  repeat match goal with
         | |- context [if ?c then _ else _] => destruct c
         | |- context [match ?l with L_int _ => _ | L_str _ => _ end] => destruct l
         end; reflexivity.
Qed.

Lemma window_proc_class (w : Window) (msg wParam : Z) (lParam : LPARAM) :
  w_class (window_proc w msg wParam lParam) = w_class w.
Proof.
  unfold window_proc. destruct (String.eqb (w_class w) "EDIT"); [|reflexivity].
  apply edit_proc_class.
Qed.

Lemma window_proc_edit (w : Window) (msg wParam : Z) (lParam : LPARAM) :
  w_class w = "EDIT" -> window_proc w msg wParam lParam = edit_proc w msg wParam lParam.
Proof. intros Hc. unfold window_proc. now rewrite Hc. Qed.

Lemma edit_setsel_end (w : Window) :
  edit_proc w EM_SETSEL (Z.of_nat (String.length (w_text w)))
    (L_int (Z.of_nat (String.length (w_text w)))) =
  {| w_class := w_class w; w_text := w_text w; w_id := w_id w;
     sel_start := String.length (w_text w); sel_end := String.length (w_text w) |}.
Proof.
  unfold edit_proc. rewrite Z.eqb_refl.
  assert (Hlt : (Z.of_nat (String.length (w_text w)) <? 0) = false) by (apply Z.ltb_ge; lia).
  rewrite Hlt, Nat2Z.id, Nat.min_id. reflexivity.
Qed.

Lemma edit_replacesel (w : Window) (wParam : Z) (txt : string) :
  edit_proc w EM_REPLACESEL wParam (L_str txt) =
  let a := Nat.min (sel_start w) (sel_end w) in
  let b := Nat.max (sel_start w) (sel_end w) in
  {| w_class := w_class w;
     w_text := str_take a (w_text w) +:+ txt +:+ str_drop b (w_text w);
     w_id := w_id w;
     sel_start := (a + String.length txt)%nat;
     sel_end := (a + String.length txt)%nat |}.
Proof. reflexivity. Qed.

Lemma edit_scrollcaret (w : Window) (wParam : Z) (lParam : LPARAM) :
  edit_proc w EM_SCROLLCARET wParam lParam = w.
Proof. reflexivity. Qed.

(** On an edit control the three messages append the text and leave the
    caret behind it. *)
Lemma log_window_after_edit (txt : string) (w : Window) :
  w_class w = "EDIT" ->
  log_window_after txt w =
  {| w_class := w_class w;
     w_text := w_text w +:+ txt;
     w_id := w_id w;
     sel_start := (String.length (w_text w) + String.length txt)%nat;
     sel_end := (String.length (w_text w) + String.length txt)%nat |}.
Proof.
  intros Hc. unfold log_window_after.
  rewrite !window_proc_edit by (rewrite ?window_proc_class; exact Hc).
  rewrite edit_scrollcaret, edit_setsel_end, edit_replacesel.
  cbn [w_class w_text w_id sel_start sel_end].
  rewrite Nat.min_id, Nat.max_id, str_take_all, str_drop_all, str_app_empty.
  reflexivity.
Qed.

Lemma log_window_after_class (txt : string) (w : Window) :
  w_class (log_window_after txt w) = w_class w.
Proof. unfold log_window_after. now rewrite !window_proc_class. Qed.

Lemma logged_lookup (txt : string) (h : Z) (ws : gmap Z Window) (w : Window) :
  ws !! h = Some w -> logged txt h ws !! h = Some (log_window_after txt w).
Proof. intros Hw. unfold logged. rewrite Hw. apply lookup_insert_eq. Qed.

Lemma logged_classes (txt : string) (h : Z) (ws : gmap Z Window) :
  w_class <$> logged txt h ws = w_class <$> ws.
Proof.
  unfold logged. destruct (ws !! h) as [w|] eqn:Hw; [|reflexivity].
  rewrite fmap_insert, log_window_after_class.
  apply insert_id. now rewrite lookup_fmap, Hw.
Qed.

Lemma SendMessage_classes (h msg wParam : Z) (lParam : LPARAM) :
  keeps classes (SendMessage (W := W) h msg wParam lParam).
Proof.
  intros s. unfold SendMessage, classes. munfold. mred.
  destruct (windows (desk s) !! h) as [w|] eqn:Hw; mred; [|reflexivity].
  rewrite fmap_insert, window_proc_class.
  apply insert_id. now rewrite lookup_fmap, Hw.
Qed.

Lemma SetWindowText_classes (h : Z) (text : string) :
  keeps classes (SetWindowText (W := W) h text).
Proof.
  intros s. unfold SetWindowText, classes. munfold. mred.
  destruct (windows (desk s) !! h) as [w|] eqn:Hw; mred; [|reflexivity].
  rewrite fmap_insert. apply insert_id. now rewrite lookup_fmap, Hw.
Qed.

#[local] Hint Resolve SendMessage_classes SetWindowText_classes : frames.

Lemma AddLog_self (message : string) : keeps self (AddLog os message).
Proof. frame. Qed.

Lemma AddLog_classes (message : string) : keeps classes (AddLog os message).
Proof. frame. Qed.

Lemma AddLog_appends (message : string) (s : State W) :
  log_appends (calls (AddLog os message s)) =
  [c_str (log_line (fst (os_localtime os (world (desk s)))) message)].
Proof. rewrite AddLog_run. reflexivity. Qed.

Lemma log_ready_window (s : State W) :
  log_ready s <->
  exists w, windows (desk s) !! hLogsTextBox (self s) = Some w /\ w_class w = "EDIT".
Proof.
  unfold log_ready, classes. rewrite lookup_fmap.
  destruct (windows (desk s) !! hLogsTextBox (self s)) as [w|]; cbn; split.
  - intros [= H]. eauto.
  - intros (w' & [= <-] & H). now rewrite H.
  - discriminate.
  - intros (w' & H & _). discriminate.
Qed.

(** On a ready log view [AddLog] puts its line behind the text that is
    there, and the view stays ready. *)
Lemma AddLog_log_text (message : string) (s : State W) :
  log_ready s ->
  log_text (after (AddLog os message s)) =
  log_text s +:+ c_str (log_line (fst (os_localtime os (world (desk s)))) message).
Proof.
  intros (w & Hw & Hc)%log_ready_window.
  rewrite AddLog_run. unfold log_text. mred.
  rewrite (logged_lookup _ _ _ _ Hw), Hw, log_window_after_edit by exact Hc.
  reflexivity.
Qed.

Lemma AddLog_ready (message : string) (s : State W) :
  log_ready s -> log_ready (after (AddLog os message s)).
Proof.
  unfold log_ready. intros H.
  now rewrite AddLog_classes, AddLog_self.
Qed.

(** ** The port prober *)

Lemma responded_handle (r : HttpResult) : negb (url_handle r =? NULL) = responded r.
Proof. now destruct r. Qed.

(** What one [CheckPort] does, in full. *)
Lemma CheckPort_run (port : Z) (s : State W) :
  CheckPort os port s =
  let io := os_InternetOpen os (world (desk s)) in
  if fst io =? NULL then
    {| value := false;
       after := {| self := self s;
                   desk := {| windows := windows (desk s); timers := timers (desk s);
                              quit := quit (desk s); next_handle := next_handle (desk s);
                              world := snd io |} |};
       calls := [Call_InternetOpen "VisiFruit" INTERNET_OPEN_TYPE_DIRECT (fst io);
                 Ret_CheckPort port false] |}
  else
    let ou := os_InternetOpenUrl os (health_url port) (snd io) in
    {| value := responded (fst ou);
       after := {| self := self s;
                   desk := {| windows := windows (desk s); timers := timers (desk s);
                              quit := quit (desk s); next_handle := next_handle (desk s);
                              world := snd ou |} |};
       calls := [Call_InternetOpen "VisiFruit" INTERNET_OPEN_TYPE_DIRECT (fst io);
                 Call_InternetOpenUrl (fst io) (health_url port) INTERNET_FLAG_RELOAD (fst ou)]
                ++ (if responded (fst ou)
                    then [Call_InternetCloseHandle (url_handle (fst ou))] else [])
                ++ [Call_InternetCloseHandle (fst io);
                    Ret_CheckPort port (responded (fst ou))] |}.
Proof.
  unfold CheckPort, InternetOpen, InternetOpenUrl, InternetCloseHandle.
  rewrite c_str_health_url. munfold. mred.
  destruct (fst (os_InternetOpen os (world (desk s))) =? NULL); mred; [reflexivity|].
  rewrite !responded_handle.
  destruct (responded _); reflexivity.
Qed.

Lemma CheckPort_probes (port : Z) (s : State W) :
  probes (calls (CheckPort os port s)) = [(port, value (CheckPort os port s))].
Proof.
  rewrite CheckPort_run. cbv zeta.
  destruct (fst (os_InternetOpen os (world (desk s))) =? NULL); mred; [reflexivity|].
  destruct (responded _); reflexivity.
Qed.

Lemma CheckPort_self (port : Z) : keeps self (CheckPort os port).
Proof. frame. Qed.

Lemma CheckPort_windows (port : Z) : keeps (fun s => windows (desk s)) (CheckPort os port).
Proof. frame. Qed.

Lemma CheckPort_timers (port : Z) : keeps (fun s => timers (desk s)) (CheckPort os port).
Proof. frame. Qed.

Lemma CheckPort_quit (port : Z) : keeps (fun s => quit (desk s)) (CheckPort os port).
Proof. frame. Qed.

(** C7 (as amended).  [CheckPort] calls nothing but WinInet and changes
    nothing in the launcher or in its windows, timers, quit message and
    handles.  When WinInet gives a session it requests
    [http://localhost:<port>/health], with the port in decimal, exactly
    once and returns [true] exactly when a response came back, whatever
    its status, and [false] on a connection failure, a timeout or a
    resolve failure.  When WinInet gives no session it makes no request
    and returns [false]. *)
Theorem CheckPort_at_most_one_request (port : Z) (s : State W) :
  let r := CheckPort os port s in
  let session := os_InternetOpen os (world (desk s)) in
  let url := "http://localhost:" +:+ NilZero.string_of_int (Z.to_int port) +:+ "/health" in
  self (after r) = self s
  /\ windows (desk (after r)) = windows (desk s)
  /\ timers (desk (after r)) = timers (desk s)
  /\ quit (desk (after r)) = quit (desk s)
  /\ next_handle (desk (after r)) = next_handle (desk s)
  /\ forallb is_wininet (calls r) = true
  /\ (if fst session =? NULL
      then http_gets (calls r) = [] /\ value r = false
      else http_gets (calls r) = [url]
           /\ match fst (os_InternetOpenUrl os url (snd session)) with
              | Responded _ _ => value r = true
              | ConnectionFailed | TimedOut | ResolveFailed => value r = false
              end).
Proof.
  intros r session url. subst r session url.
  split; [apply CheckPort_self|].
  split; [apply (CheckPort_windows port s)|].
  split; [apply (CheckPort_timers port s)|].
  split; [apply (CheckPort_quit port s)|].
  rewrite CheckPort_run. cbv zeta.
  change ("http://localhost:" +:+ NilZero.string_of_int (Z.to_int port) +:+ "/health")
    with (health_url port).
  destruct (fst (os_InternetOpen os (world (desk s))) =? NULL); mred.
  - repeat split.
  - destruct (fst (os_InternetOpenUrl os (health_url port) _)); repeat split.
Qed.

Lemma break_free_two_digits (n : Z) : 0 <= n <= 99 -> break_free (two_digits n) = true.
Proof.
  intros Hn.
  assert (Hall : forallb (fun k => break_free (two_digits (Z.of_nat k))) (seq 0 100) = true)
    by (vm_compute; reflexivity).
  rewrite forallb_forall in Hall.
  rewrite <- (Z2Nat.id n) by lia. apply Hall, in_seq. lia.
Qed.

(** A text without break characters adds no line break to what follows. *)
Lemma line_breaks_after_free (a b : string) :
  break_free a = true -> line_breaks (a +:+ b) = line_breaks b.
Proof.
  induction a as [|c r IH]; simpl; [reflexivity |].
  destruct (Ascii.eqb c "013"); simpl; [discriminate |].
  destruct (Ascii.eqb c "010"); simpl; [discriminate | exact IH].
Qed.

Lemma starts_with_LF_app (a b : string) :
  starts_with_LF b = false ->
  starts_with_LF (a +:+ b) = starts_with_LF a.
Proof. destruct a; simpl; auto. Qed.

(** Line breaks add up, unless a break arises where the texts meet. *)
Lemma line_breaks_app (a b : string) :
  starts_with_LF b = false -> line_breaks (a +:+ b) = (line_breaks a + line_breaks b)%nat.
Proof.
  intros Hb. induction a as [|c r IH]; simpl; [reflexivity |].
  rewrite (starts_with_LF_app r b Hb), IH.
  now destruct (Ascii.eqb c "013" && starts_with_LF r).
Qed.

(** C6 (as amended).  On the log view of the launcher, for a message
    without a terminator and without a line break and a valid local time,
    [AddLog] inserts exactly one text behind the text already in the
    view: the entry [[HH:MM:SS] <message>], with two-digit fields, and the
    line break that closes it.  The entry has no line break inside, so
    that the log has exactly one line more than before. *)
Theorem AddLog_appends_one_line (message : string) (s : State W) :
  let t := fst (os_localtime os (world (desk s))) in
  let r := AddLog os message s in
  let entry := "[" +:+ two_digits (tm_hour t) +:+ ":" +:+ two_digits (tm_min t)
               +:+ ":" +:+ two_digits (tm_sec t) +:+ "] " +:+ message in
  log_ready s -> nul_free message = true -> line_breaks message = O -> tm_valid t ->
  log_text (after r) = log_text s +:+ entry +:+ CRLF
  /\ line_breaks entry = O
  /\ line_breaks (log_text (after r)) = S (line_breaks (log_text s))
  /\ log_appends (calls r) = [entry +:+ CRLF]
  /\ log_ready (after r).
Proof.
  intros t r entry Hready Hmsg Hbrk (Hh & Hm & Hs). subst r.
  assert (Hline : c_str (log_line t message) = entry +:+ CRLF).
  { rewrite c_str_nul_free by (rewrite nul_free_log_line; exact Hmsg).
    unfold log_line, entry. rewrite !setfill_setw_two_digits by lia.
    now rewrite !str_app_assoc. }
  assert (Hentry : line_breaks entry = O).
  { unfold entry.
    rewrite !line_breaks_after_free
      by (reflexivity || (apply break_free_two_digits; lia)).
    exact Hbrk. }
  rewrite AddLog_log_text, AddLog_appends by exact Hready.
  fold t. rewrite Hline.
  split; [reflexivity|].
  split; [exact Hentry|].
  split.
  { rewrite (line_breaks_app (log_text s)) by reflexivity.
    rewrite (line_breaks_app entry CRLF) by reflexivity.
    rewrite Hentry. cbn. lia. }
  split; [reflexivity|]. apply AddLog_ready, Hready.
Qed.

(** ** Stop all *)



(** C3.  "Stop all" requests exactly three launches, in this order the
    kill commands for the ports 8000, 8001 and 3000: each a hidden
    [powershell] given the [taskkill] command that names the process
    owning that port.  Apart from them it only writes to the log view (it
    never waits for a launched command or asks what became of it), and it
    changes neither the launcher's members nor the timers nor the quit
    message. *)
Theorem StopAllServices_three_kill_commands (s : State W) :
  let r := StopAllServices os s in
  let kill (port : string) :=
    {| fMask := SEE_MASK_NOCLOSEPROCESS; sei_hwnd := hwnd (self s); lpVerb := "open";
       lpFile := "powershell";
       lpParameters :=
         Some ("taskkill /F /FI "
               +:+ String "034" "PID eq $(Get-NetTCPConnection -LocalPort "
               +:+ port
               +:+ " | Select-Object -ExpandProperty OwningProcess)"
               +:+ String "034" EmptyString);
       nShow := SW_HIDE |} in
  shell_requests (calls r) = [kill "8000"; kill "8001"; kill "3000"]
  /\ forallb (fun c => is_log_call c || is_launch c) (calls r) = true
  /\ self (after r) = self s
  /\ timers (desk (after r)) = timers (desk s)
  /\ quit (desk (after r)) = quit (desk s).
Proof.
  intros r kill. subst r kill.
  remember (StopAllServices os s) as r eqn:E.
  open_state s. unfold StopAllServices, ShellExecuteEx in E.
  mrun in E. rewrite AddLog_run in E. mrun in E. rewrite AddLog_run in E. mrun in E.
  subst r. mrun.
  split; [reflexivity|].
  repeat split.
Qed.


(** ** Start all *)


(** The browser timer: [WndProc] opens the frontend URL once and removes
    the timer. *)
Lemma WM_TIMER_3001_run (s : State W) :
  let r := WndProc os (WM_TIMER 3001) s in
  opened (calls r) = ["http://localhost:3000"]
  /\ timers_set (calls r) = []
  /\ timers (desk (after r)) = delete 3001 (timers (desk s)).
Proof.
  intros r. subst r.
  remember (WndProc os (WM_TIMER 3001) s) as r eqn:E.
  open_state s. unfold WndProc, HandleTimer in E.
  replace (3001 =? TIMER_STATUS_UPDATE) with false in E by reflexivity.
  rewrite Z.eqb_refl in E. unfold OpenURL, ShellExecute, KillTimer in E.
  mrun in E. rewrite AddLog_run in E. mrun in E.
  subst r. mrun. repeat split.
Qed.

Lemma StartCompleteSystem_launch (s : State W) :
  let r := StartCompleteSystem os s in
  (fst (os_GetFileAttributes os "main_etiquetadora.py"
          (snd (os_localtime os (world (desk s))))) =? INVALID_FILE_ATTRIBUTES) = false ->
  shell_requests (calls r) = [start_all_sei (hwnd (self s))]
  /\ opened (calls r) = []
  /\ (exists ok,
        launch_results (calls r) = [ok]
        /\ timers_set (calls r) = (if ok then [(3001, 8000)] else [])
        /\ timers (desk (after r)) =
           (if ok then <[3001 := 8000]> (timers (desk s)) else timers (desk s))).
Proof.
  intros r Hattrs. subst r.
  remember (StartCompleteSystem os s) as r eqn:E.
  open_state s. unfold StartCompleteSystem, GetFileAttributes, ShellExecuteEx, SetTimer in E.
  mrun in E. rewrite AddLog_run in E. mrun in E.
  mrun in Hattrs. rewrite Hattrs in E.
  match type of E with
  | context [os_ShellExecuteEx os ?sei ?w] =>
      destruct (os_ShellExecuteEx os sei w) as [[ok hp] w']
  end.
  mrun in E.
  destruct ok; mrun in E; rewrite AddLog_run in E; mrun in E; subst r; mrun.
  - do 2 (split; [reflexivity|]). exists true. repeat split.
  - do 2 (split; [reflexivity|]). exists false. repeat split.
Qed.

(** C5.  "Start all" with the marker file in place requests exactly one
    launch, the startup script.  When the shell reports success a timer
    3001 of 8000 ms is set and nothing is opened yet; when it reports
    failure no timer is set.  Handling the timer (in any state) opens
    [http://localhost:3000] once and removes the timer, so that it cannot
    come a second time. *)
Theorem StartCompleteSystem_with_marker (s : State W) :
  let r := StartCompleteSystem os s in
  (fst (os_GetFileAttributes os "main_etiquetadora.py"
          (snd (os_localtime os (world (desk s))))) =? INVALID_FILE_ATTRIBUTES) = false ->
  shell_requests (calls r) = [start_all_sei (hwnd (self s))]
  /\ lpFile (start_all_sei (hwnd (self s))) = "start_sistema_completo.bat"
  /\ opened (calls r) = []
  /\ (exists ok,
        launch_results (calls r) = [ok]
        /\ timers_set (calls r) = (if ok then [(3001, 8000)] else [])
        /\ timers (desk (after r)) =
           (if ok then <[3001 := 8000]> (timers (desk s)) else timers (desk s)))
  /\ (forall s' : State W,
        let r' := WndProc os (WM_TIMER 3001) s' in
        opened (calls r') = ["http://localhost:3000"]
        /\ timers_set (calls r') = []
        /\ timers (desk (after r')) !! 3001 = None).
Proof.
  intros r Hattrs.
  destruct (StartCompleteSystem_launch s Hattrs) as (H1 & H2 & H3).
  split; [exact H1|]. split; [reflexivity|]. split; [exact H2|]. split; [exact H3|].
  intros s'. destruct (WM_TIMER_3001_run s') as (T1 & T2 & T3).
  cbv zeta. rewrite T1, T2, T3. repeat split. apply lookup_delete_eq.
Qed.

(** ** The status poller *)

Lemma CheckPort_shape (port : Z) (s : State W) :
  exists b w' cs,
    CheckPort os port s =
    {| value := b;
       after := {| self := self s;
                   desk := {| windows := windows (desk s); timers := timers (desk s);
                              quit := quit (desk s); next_handle := next_handle (desk s);
                              world := w' |} |};
       calls := cs |}
    /\ probes cs = [(port, b)]
    /\ invalidated cs = [].
Proof.
  rewrite CheckPort_run. cbv zeta.
  destruct (fst (os_InternetOpen os (world (desk s))) =? NULL).
  - eexists _, _, _. repeat split.
  - eexists _, _, _. split; [reflexivity|].
    destruct (responded _); split; reflexivity.
Qed.

Lemma UpdateStatusIndicator_shape (h : Z) (v : bool) (s : State W) :
  exists ws,
    UpdateStatusIndicator h v s =
    {| value := tt;
       after := {| self := self s;
                   desk := {| windows := ws; timers := timers (desk s);
                              quit := quit (desk s); next_handle := next_handle (desk s);
                              world := world (desk s) |} |};
       calls := [Call_SetWindowText h "●"; Call_InvalidateRect h] |}.
Proof.
  open_state s. unfold UpdateStatusIndicator, SetWindowText, InvalidateRect.
  destruct v; mrun;
    match goal with |- context [?m !! ?k] => destruct (m !! k) end;
    eexists; reflexivity.
Qed.

(** One tick of the poller: the three probes, in the order 8001, 3000,
    8000, each answer stored in the flag of its service; then the three
    indicators are invalidated. *)
Lemma UpdateServiceStatus_run (s : State W) :
  let r := UpdateServiceStatus os s in
  probes (calls r) =
    [(8001, flag backend (after r)); (3000, flag frontend (after r));
     (8000, flag system (after r))]
  /\ invalidated (calls r) =
       [hStatusBackend (self s); hStatusFrontend (self s); hStatusSystem (self s)].
Proof.
  intros r. subst r.
  remember (UpdateServiceStatus os s) as r eqn:E.
  open_state s. unfold UpdateServiceStatus, serviceStatus_assign, serviceStatus_at in E.
  mrun in E.
  do 3 (match type of E with
        | context [CheckPort os ?p ?st] =>
            let b := fresh "b" in let w := fresh "w" in let c := fresh "c" in
            let Hr := fresh "Hr" in let Hp := fresh "Hp" in let Hi := fresh "Hi" in
            destruct (CheckPort_shape p st) as (b & w & c & Hr & Hp & Hi);
            rewrite Hr in E; mrun in E
        end).
  rewrite (lookup_insert_ne _ "system" "backend") in E by discriminate.
  rewrite (lookup_insert_ne _ "frontend" "backend") in E by discriminate.
  rewrite lookup_insert_eq in E. mrun in E.
  match type of E with
  | context [UpdateStatusIndicator ?h ?v ?st] =>
      destruct (UpdateStatusIndicator_shape h v st) as (ws1 & Hu1);
      rewrite Hu1 in E; mrun in E
  end.
  rewrite (lookup_insert_ne _ "system" "frontend") in E by discriminate.
  rewrite lookup_insert_eq in E. mrun in E.
  match type of E with
  | context [UpdateStatusIndicator ?h ?v ?st] =>
      destruct (UpdateStatusIndicator_shape h v st) as (ws2 & Hu2);
      rewrite Hu2 in E; mrun in E
  end.
  rewrite lookup_insert_eq in E. mrun in E.
  match type of E with
  | context [UpdateStatusIndicator ?h ?v ?st] =>
      destruct (UpdateStatusIndicator_shape h v st) as (ws3 & Hu3);
      rewrite Hu3 in E; mrun in E
  end.
  subst r. unfold flag, probes, invalidated in *. mrun. cbn [key].
  rewrite !omap_app, Hp, Hp0, Hp1, Hi, Hi0, Hi1.
  rewrite (lookup_insert_ne _ "system" "backend") by discriminate.
  rewrite (lookup_insert_ne _ "frontend" "backend") by discriminate.
  rewrite (lookup_insert_ne _ "system" "frontend") by discriminate.
  rewrite !lookup_insert_eq.
  split; reflexivity.
Qed.

(** ** What the window procedure leaves alone *)

Lemma serviceStatus_at_flag (svc : Service) (k : string) :
  keeps (flag svc) (serviceStatus_at (W := W) k).
Proof.
  intros s. open_state s. unfold serviceStatus_at, flag. mrun.
  match goal with |- context [?m !! k] => destruct (m !! k) eqn:Hk end;
    mrun; [reflexivity|].
  destruct (decide (k = key svc)) as [<-|Hne].
  - now rewrite lookup_insert_eq, Hk.
  - now rewrite lookup_insert_ne.
Qed.

#[local] Hint Resolve serviceStatus_at_flag : frames.

Lemma WndProc_members (m : Msg) : keeps (fun s => members (self s)) (WndProc os m).
Proof. destruct m; frame. Qed.

Lemma WndProc_classes (m : Msg) : keeps classes (WndProc os m).
Proof. destruct m; frame. Qed.

Lemma WndProc_terminated (m : Msg) : mute termination_of (WndProc os m).
Proof. destruct m; quiet. Qed.

Lemma HandleCommand_flag (svc : Service) (c : Z) : keeps (flag svc) (HandleCommand os c).
Proof. frame. Qed.

Lemma HandleCommand_probes (c : Z) : mute probe_of (HandleCommand os c).
Proof. quiet. Qed.

Lemma HandleCommand_quit (c : Z) : keeps (fun s => quit (desk s)) (HandleCommand os c).
Proof. frame. Qed.

Lemma WndProc_flag (svc : Service) (m : Msg) :
  is_poll_tick m = false -> keeps (flag svc) (WndProc os m).
Proof.
  destruct m; cbn [is_poll_tick]; intros Hm; try solve [frame].
  unfold WndProc, HandleTimer. rewrite Hm. frame.
Qed.

Lemma WndProc_probes (m : Msg) :
  is_poll_tick m = false -> mute probe_of (WndProc os m).
Proof.
  destruct m; cbn [is_poll_tick]; intros Hm; try solve [quiet].
  unfold WndProc, HandleTimer. rewrite Hm. quiet.
Qed.

Lemma WndProc_quit (m : Msg) :
  match m with WM_CLOSE | WM_DESTROY => False | _ => True end ->
  keeps (fun s => quit (desk s)) (WndProc os m).
Proof. destruct m; intros Hm; try contradiction; frame. Qed.

Lemma then_ret {A B} (m : M W A) (b : B) (s : State W) :
  (m ;; ret b) s = {| value := b; after := after (m s); calls := calls (m s) |}.
Proof.
  unfold mbind, M_bind, bind, ret. destruct (m s) as [a s1 c1]; cbn.
  now rewrite app_nil_r.
Qed.

Lemma WndProc_tick (s : State W) :
  WndProc os (WM_TIMER TIMER_STATUS_UPDATE) s =
  {| value := 0;
     after := after (UpdateServiceStatus os s);
     calls := calls (UpdateServiceStatus os s) |}.
Proof. unfold WndProc, HandleTimer. rewrite Z.eqb_refl. apply then_ret. Qed.

Lemma VisiFruitLauncher_new_flag (svc : Service) (s : State W) :
  flag svc (after (VisiFruitLauncher_new s)) = false.
Proof.
  open_state s. unfold VisiFruitLauncher_new, CreateSolidBrush, serviceStatus_assign, flag.
  mrun. destruct svc; cbn [key].
  - rewrite !lookup_insert_ne by discriminate. now rewrite lookup_insert_eq.
  - rewrite lookup_insert_ne by discriminate. now rewrite lookup_insert_eq.
  - now rewrite lookup_insert_eq.
Qed.

Lemma Initialize_flag (svc : Service) : keeps (flag svc) (Initialize os).
Proof.
  unfold Initialize, CreateWindowEx, CreateControls, CreateWindow, new_window. frame.
Qed.

(** C8.  The constructor leaves the three flags [false] and [Initialize]
    does not touch them.  A tick of the poller makes the three probes of
    8001, 3000 and 8000 and leaves their answers in the flags of backend,
    frontend and system.  Every other message that reaches [WndProc]
    makes no probe and leaves the three flags as they were; so do, in
    particular, the command dispatcher and the launch of a service. *)
Theorem serviceStatus_written_only_by_poller :
  (forall (s : State W) svc, flag svc (after (VisiFruitLauncher_new s)) = false)
  /\ (forall (s : State W) svc, flag svc (after (Initialize os s)) = flag svc s)
  /\ (forall (m : Msg) (s : State W),
        let r := WndProc os m s in
        if is_poll_tick m
        then probes (calls r) =
               [(8001, flag backend (after r)); (3000, flag frontend (after r));
                (8000, flag system (after r))]
        else probes (calls r) = [] /\ forall svc, flag svc (after r) = flag svc s)
  /\ (forall (c : Z) (s : State W) svc,
        flag svc (after (HandleCommand os c s)) = flag svc s)
  /\ (forall (service script : string) (s : State W) svc,
        flag svc (after (StartIndividualService os service script s)) = flag svc s).
Proof.
  split; [intros s svc; apply VisiFruitLauncher_new_flag|].
  split; [intros s svc; apply Initialize_flag|].
  split.
  { intros m s r. subst r. destruct (is_poll_tick m) eqn:Hm.
    - destruct m; try discriminate. cbn [is_poll_tick] in Hm.
      apply Z.eqb_eq in Hm. subst wParam.
      rewrite WndProc_tick. mred. apply UpdateServiceStatus_run.
    - split; [apply (WndProc_probes m Hm s) | intros svc; apply (WndProc_flag svc m Hm s)]. }
  split; [intros c s svc; apply HandleCommand_flag|].
  intros service script s svc. revert s.
  change (keeps (flag svc) (StartIndividualService os service script)). frame.
Qed.

(** ** Start-up and the message loop *)

Lemma CreateControls_run (s : State W) :
  let r := CreateControls s in
  log_ready (after r) /\ indicators_differ (self (after r)).
Proof.
  intros r. subst r. open_state s. unfold CreateControls, CreateWindow.
  unfold log_ready, classes, indicators_differ. mrun.
  split.
  - rewrite lookup_fmap, lookup_insert_eq. reflexivity.
  - repeat split; intros [= H]; lia.
Qed.

Lemma log_ready_kept {A} (m : M W A) :
  keeps classes m -> keeps (fun s => members (self s)) m ->
  forall s, log_ready s -> log_ready (after (m s)).
Proof.
  intros Hc Hm s. unfold log_ready. rewrite Hc.
  change (hLogsTextBox (self (after (m s))))
    with (hLogsTextBox (members (self (after (m s))))).
  now rewrite (Hm s).
Qed.

Lemma indicators_kept {A} (m : M W A) :
  keeps (fun s => members (self s)) m ->
  forall s, indicators_differ (self s) -> indicators_differ (self (after (m s))).
Proof.
  intros Hm s.
  change (indicators_differ (self (after (m s))))
    with (indicators_differ (members (self (after (m s))))).
  now rewrite (Hm s).
Qed.

(** What [Initialize] does once the main window [h] exists. *)
Lemma Initialize_rest_run (h : Z) (s : State W) :
  let r := (CreateControls ;;
            ShowWindow h SW_SHOW ;;
            UpdateWindow h ;;
            SetTimer h TIMER_STATUS_UPDATE 3000 ;;
            AddLog os "🚀 VisiFruit Launcher (C++ Native) iniciado" ;;
            ret true) s in
  log_ready (after r) /\ indicators_differ (self (after r)).
Proof.
  intros r. subst r.
  rewrite bind_after. destruct (CreateControls_run s) as [Hr Hi].
  set (s1 := after (CreateControls s)) in *.
  set (rest := _ ;; _).
  split.
  - apply (log_ready_kept rest); [subst rest; frame | subst rest; frame | exact Hr].
  - apply (indicators_kept rest); [subst rest; frame | exact Hi].
Qed.

Lemma Initialize_succeeded (s : State W) :
  value (Initialize os s) = true ->
  log_ready (after (Initialize os s))
  /\ indicators_differ (self (after (Initialize os s))).
Proof.
  unfold Initialize. rewrite bind_value, bind_after. cbv beta.
  set (r1 := RegisterClassEx os "VisiFruitLauncher" s).
  destruct (value r1); cbn [negb]; [|discriminate].
  rewrite bind_value, bind_after. cbv beta.
  set (r2 := CreateWindowEx os _ _ (after r1)).
  rewrite bind_value, bind_after. cbv beta.
  set (r3 := modify_self _ (after r2)).
  destruct (value r2 =? NULL); [discriminate|].
  intros _. exact (Initialize_rest_run (value r2) (after r3)).
Qed.

Lemma VisiFruitLauncher_new_processes (s : State W) :
  processes (self (after (VisiFruitLauncher_new s))) = [].
Proof.
  open_state s. unfold VisiFruitLauncher_new, CreateSolidBrush, serviceStatus_assign.
  mrun. reflexivity.
Qed.

Lemma Initialize_processes : keeps (fun s => processes (self s)) (Initialize os).
Proof.
  unfold Initialize, CreateWindowEx, CreateControls, CreateWindow, new_window. frame.
Qed.

Lemma startup_quit : keeps (fun s => quit (desk s)) (startup os).
Proof.
  unfold startup, VisiFruitLauncher_new, Initialize, CreateWindowEx, CreateControls,
    CreateWindow, new_window.
  frame.
Qed.

Lemma startup_probes : mute probe_of (startup os).
Proof.
  unfold startup, VisiFruitLauncher_new, Initialize, CreateWindowEx, CreateControls,
    CreateWindow, new_window.
  quiet.
Qed.

Lemma startup_terminated : mute termination_of (startup os).
Proof.
  unfold startup, VisiFruitLauncher_new, Initialize, CreateWindowEx, CreateControls,
    CreateWindow, new_window.
  quiet.
Qed.

Lemma startup_dialogs : mute dialog_of (startup os).
Proof.
  unfold startup, VisiFruitLauncher_new, Initialize, CreateWindowEx, CreateControls,
    CreateWindow, new_window.
  quiet.
Qed.

Lemma startup_after (s : State W) :
  after (startup os s) =
  after (Initialize os
           (after (VisiFruitLauncher_new
                     (after (InitCommonControlsEx (W := W) ICC_STANDARD_CLASSES s))))).
Proof. unfold startup. now rewrite !bind_after. Qed.

Lemma startup_value (s : State W) :
  value (startup os s) =
  value (Initialize os
           (after (VisiFruitLauncher_new
                     (after (InitCommonControlsEx (W := W) ICC_STANDARD_CLASSES s))))).
Proof. unfold startup. now rewrite !bind_value, ?bind_after. Qed.

(** The launcher as the message loop finds it. *)
Lemma startup_facts (s : State W) :
  let r := startup os s in
  (forall svc, flag svc (after r) = false)
  /\ processes (self (after r)) = []
  /\ quit (desk (after r)) = quit (desk s)
  /\ probes (calls r) = []
  /\ terminated (calls r) = []
  /\ dialogs (calls r) = []
  /\ (value r = true -> log_ready (after r) /\ indicators_differ (self (after r))).
Proof.
  intros r. subst r.
  split. { intros svc. rewrite startup_after, Initialize_flag. apply VisiFruitLauncher_new_flag. }
  split. { rewrite startup_after, Initialize_processes. apply VisiFruitLauncher_new_processes. }
  split; [apply startup_quit|].
  split; [apply startup_probes|].
  split; [apply startup_terminated|].
  split; [apply startup_dialogs|].
  rewrite startup_value, startup_after. apply Initialize_succeeded.
Qed.

Lemma Run_unfold (msgs : list Msg) (s : State W) :
  Run os msgs s =
  match quit (desk s) with
  | Some code => {| value := Some code; after := s; calls := [] |}
  | None =>
      match msgs with
      | [] => {| value := None; after := s; calls := [] |}
      | m :: rest => (DispatchMessage os m ;; Run os rest) s
      end
  end.
Proof.
  destruct msgs as [|m rest]; cbn [Run];
    unfold mbind at 1, M_bind at 1, bind at 1, get_desk; cbn [value after calls];
    destruct (quit (desk s)); try reflexivity.
  now destruct ((DispatchMessage os m ;; Run os rest) s).
Qed.

Lemma DispatchMessage_run (m : Msg) (s : State W) :
  DispatchMessage os m s =
  {| value := tt; after := after (WndProc os m s); calls := calls (WndProc os m s) |}.
Proof. apply then_ret. Qed.

(** A property of state and history that every handled message preserves
    holds after the loop, however long it ran. *)
Lemma Run_invariant (P : State W -> list Call -> Prop) :
  (forall s cs m, P s cs -> quit (desk s) = None ->
                  P (after (WndProc os m s)) (cs ++ calls (WndProc os m s))) ->
  forall msgs s cs, P s cs -> P (after (Run os msgs s)) (cs ++ calls (Run os msgs s)).
Proof.
  intros Hstep msgs. induction msgs as [|m rest IH]; intros s cs HP;
    rewrite Run_unfold; destruct (quit (desk s)) eqn:Hq; cbn [after calls];
    rewrite ?app_nil_r; try assumption.
  rewrite bind_after, bind_calls, DispatchMessage_run. cbn [value after calls].
  rewrite app_assoc. apply IH, Hstep; assumption.
Qed.

(** The loop returns the exit code that was posted, if any. *)
Lemma Run_value (msgs : list Msg) (s : State W) :
  value (Run os msgs s) = quit (desk (after (Run os msgs s))).
Proof.
  revert s. induction msgs as [|m rest IH]; intros s;
    rewrite Run_unfold; destruct (quit (desk s)) eqn:Hq; cbn [value after];
    try (symmetry; assumption).
  rewrite bind_after, bind_value. apply IH.
Qed.

(** [WinMain], in terms of its three phases. *)
Lemma WinMain_run (msgs : list Msg) (s : State W) :
  let r0 := startup os s in
  WinMain os msgs s =
  if value r0 then
    let r1 := Run os msgs (after r0) in
    match value r1 with
    | Some code =>
        {| value := Some code;
           after := after (VisiFruitLauncher_delete (after r1));
           calls := calls r0 ++ calls r1 ++ calls (VisiFruitLauncher_delete (after r1)) |}
    | None => {| value := None; after := after r1; calls := calls r0 ++ calls r1 |}
    end
  else
    let rb := MessageBox os NULL "Error inicializando el launcher" "Error"
                (Z.lor MB_OK MB_ICONERROR) (after r0) in
    {| value := Some 1;
       after := after (VisiFruitLauncher_delete (after rb));
       calls := calls r0 ++ calls rb ++ calls (VisiFruitLauncher_delete (after rb)) |}.
Proof.
  unfold WinMain, startup, mbind, M_bind, bind.
  destruct (InitCommonControlsEx ICC_STANDARD_CLASSES s) as [[] s1 c1].
  destruct (VisiFruitLauncher_new s1) as [[] s2 c2].
  destruct (Initialize os s2) as [ok s3 c3]. cbn [value after calls].
  destruct ok; cbn [negb value after calls].
  - destruct (Run os msgs s3) as [[code|] s4 c4]; cbn [value after calls].
    + destruct (VisiFruitLauncher_delete s4) as [[] s5 c5]; cbn [value after calls ret].
      f_equal; rewrite ?(List.app_nil_r c5), ?(List.app_nil_r c4), <- ?List.app_assoc; reflexivity.
    + f_equal; rewrite ?(List.app_nil_r c5), ?(List.app_nil_r c4), <- ?List.app_assoc; reflexivity.
  - destruct (MessageBox os NULL _ _ _ s3) as [answer s4 c4]; cbn [value after calls].
    destruct (VisiFruitLauncher_delete s4) as [[] s5 c5]; cbn [value after calls ret].
    f_equal; rewrite ?(List.app_nil_r c5), ?(List.app_nil_r c4), <- ?List.app_assoc; reflexivity.
Qed.

Lemma WndProc_quit_step (m : Msg) (s : State W) :
  quit (desk s) = None ->
  quit (desk (after (WndProc os m s))) = None
  \/ quit (desk (after (WndProc os m s))) = Some 0.
Proof.
  intros Hq.
  assert (Hkeep : match m with WM_CLOSE | WM_DESTROY => False | _ => True end ->
                  quit (desk (after (WndProc os m s))) = None).
  { intros Hm. rewrite <- Hq. apply (WndProc_quit m Hm s). }
  destruct m; try (left; apply Hkeep; exact I); clear Hkeep.
  - open_state s. cbn in Hq. subst.
    unfold WndProc, MessageBox, DestroyWindow, on_WM_DESTROY, KillTimer, PostQuitMessage.
    mrun. destruct (_ =? IDYES); mrun; auto.
  - open_state s. cbn in Hq. subst.
    unfold WndProc, on_WM_DESTROY, KillTimer, PostQuitMessage. mrun. auto.
Qed.

Lemma WM_DESTROY_quits (s : State W) :
  quit (desk s) = None -> quit (desk (after (WndProc os WM_DESTROY s))) = Some 0.
Proof.
  intros Hq. open_state s. cbn in Hq. subst.
  unfold WndProc, on_WM_DESTROY, KillTimer, PostQuitMessage. mrun. reflexivity.
Qed.

(** Once the window is destroyed the loop ends with exit code 0. *)
Lemma Run_destroyed (msgs : list Msg) (s : State W) :
  quit (desk s) = None \/ quit (desk s) = Some 0 ->
  In WM_DESTROY msgs -> value (Run os msgs s) = Some 0.
Proof.
  revert s. induction msgs as [|m rest IH]; intros s Hq Hin; [destruct Hin|].
  rewrite Run_unfold. destruct (quit (desk s)) as [code|] eqn:Hs.
  - destruct Hq as [Hq|Hq]; [discriminate | now rewrite Hq].
  - rewrite bind_value, DispatchMessage_run. cbn [value after].
    destruct Hin as [->|Hin].
    + rewrite Run_unfold, (WM_DESTROY_quits s Hs). reflexivity.
    + apply IH; [apply WndProc_quit_step, Hs | exact Hin].
Qed.

Lemma Run_quit_code (msgs : list Msg) (s : State W) :
  quit (desk s) = None \/ quit (desk s) = Some 0 ->
  value (Run os msgs s) = None \/ value (Run os msgs s) = Some 0.
Proof.
  intros Hq. rewrite Run_value.
  pose proof (Run_invariant
                (fun s _ => quit (desk s) = None \/ quit (desk s) = Some 0)) as H.
  apply (H (fun s cs m _ Hn => WndProc_quit_step m s Hn) msgs s [] Hq).
Qed.

Lemma VisiFruitLauncher_delete_dialogs : mute dialog_of (VisiFruitLauncher_delete (W := W)).
Proof. quiet. Qed.

(** What the registration of the window class does, in full. *)
Lemma RegisterClassEx_run (cls : string) (s : State W) :
  RegisterClassEx os cls s =
  let reg := os_RegisterClassEx os cls (world (desk s)) in
  {| value := fst reg;
     after := {| self := self s;
                 desk := {| windows := windows (desk s); timers := timers (desk s);
                            quit := quit (desk s); next_handle := next_handle (desk s);
                            world := snd reg |} |};
     calls := [Call_RegisterClassEx cls (fst reg)] |}.
Proof. reflexivity. Qed.

(** The main window is [NULL] exactly when the system refuses it. *)
Lemma CreateWindowEx_value (cls title : string) (s : State W) :
  value (CreateWindowEx os cls title s) =
  if fst (os_CreateWindowEx os cls (world (desk s)))
  then Z.pos (next_handle (desk s)) else NULL.
Proof.
  unfold CreateWindowEx, new_window. munfold. mred.
  destruct (fst (os_CreateWindowEx os cls (world (desk s)))); reflexivity.
Qed.

(** [Initialize] succeeds exactly when the class is registered and the
    main window is created. *)
Lemma Initialize_value (s : State W) :
  let reg := os_RegisterClassEx os "VisiFruitLauncher" (world (desk s)) in
  let win := os_CreateWindowEx os "VisiFruitLauncher" (snd reg) in
  value (Initialize os s) = fst reg && fst win.
Proof.
  intros reg win. unfold Initialize.
  rewrite bind_value, RegisterClassEx_run. cbv zeta. mred. fold reg.
  destruct (fst reg); cbn [negb andb]; [|reflexivity].
  rewrite bind_value, bind_value, CreateWindowEx_value. mred. fold win.
  destruct (fst win).
  - change (Z.pos _ =? NULL) with false. cbv iota. rewrite !bind_value. reflexivity.
  - reflexivity.
Qed.

Lemma startup_world_before_Initialize (s : State W) :
  world (desk (after (VisiFruitLauncher_new
                        (after (InitCommonControlsEx (W := W) ICC_STANDARD_CLASSES s))))) =
  world (desk s).
Proof.
  assert (H : keeps (fun s : State W => world (desk s)) VisiFruitLauncher_new)
    by (unfold VisiFruitLauncher_new; frame).
  now rewrite H.
Qed.

(** The start-up succeeds exactly when the system registers the window
    class and creates the main window. *)
Lemma startup_initialized (s : State W) :
  let reg := os_RegisterClassEx os "VisiFruitLauncher" (world (desk s)) in
  let win := os_CreateWindowEx os "VisiFruitLauncher" (snd reg) in
  value (startup os s) = fst reg && fst win.
Proof.
  cbv zeta. rewrite startup_value.
  pose proof (Initialize_value
                (after (VisiFruitLauncher_new
                          (after (InitCommonControlsEx (W := W) ICC_STANDARD_CLASSES s))))) as H.
  cbv zeta in H. rewrite startup_world_before_Initialize in H. exact H.
Qed.

(** C9.  [WinMain] returns 1 exactly when the initialisation fails, that
    is, when the system refuses to register the window class
    [VisiFruitLauncher] or to create the main window; it has then shown
    exactly one dialog, the error box.  When both succeed it returns the
    code the message loop ends with, which is 0 whenever the loop ends,
    and it does end with 0 once the window is destroyed.  No other exit
    code exists.  ([None]: the loop is still waiting for messages.) *)
Theorem WinMain_exit_code (a0 : VisiFruitLauncher) (w0 : W) (msgs : list Msg) :
  let r := WinMain os msgs (process_start a0 w0) in
  let registered := os_RegisterClassEx os "VisiFruitLauncher" w0 in
  let created := os_CreateWindowEx os "VisiFruitLauncher" (snd registered) in
  (value r = Some 1 <-> fst registered = false \/ fst created = false)
  /\ (fst registered = false \/ fst created = false ->
      dialogs (calls r) =
      [(NULL, "Error inicializando el launcher", "Error", Z.lor MB_OK MB_ICONERROR)])
  /\ (value r = None \/ value r = Some 0 \/ value r = Some 1)
  /\ (fst registered = true -> fst created = true -> In WM_DESTROY msgs ->
      value r = Some 0).
Proof.
  intros r registered created. subst r.
  pose proof (startup_initialized (process_start a0 w0)) as Hinit.
  cbv zeta in Hinit. cbn [process_start desk world] in Hinit.
  fold registered in Hinit. fold created in Hinit.
  assert (Hfail : value (startup os (process_start a0 w0)) = false <->
                  fst registered = false \/ fst created = false).
  { rewrite Hinit. destruct (fst registered), (fst created); cbn; intuition congruence. }
  assert (Hgood : fst registered = true -> fst created = true ->
                  value (startup os (process_start a0 w0)) = true).
  { intros H1 H2. now rewrite Hinit, H1, H2. }
  clear Hinit. revert Hfail Hgood. generalize (fst registered) (fst created).
  intros b1 b2 Hfail Hgood.
  rewrite WinMain_run. cbv zeta.
  destruct (startup_facts (process_start a0 w0)) as (_ & _ & Hq & _ & _ & Hd & _).
  destruct (value (startup os (process_start a0 w0))) eqn:Hok.
  - assert (Hq0 : quit (desk (after (startup os (process_start a0 w0)))) = None
                  \/ quit (desk (after (startup os (process_start a0 w0)))) = Some 0)
      by (left; rewrite Hq; reflexivity).
    pose proof (Run_quit_code msgs _ Hq0) as Hcode.
    pose proof (Run_destroyed msgs _ Hq0) as Hdestroyed.
    assert (Hno : ~ (b1 = false \/ b2 = false))
      by (intros H; apply Hfail in H; discriminate).
    destruct (value (Run os msgs (after (startup os (process_start a0 w0))))) as [code|] eqn:Hv;
      cbn [value calls].
    + destruct Hcode as [Hc|Hc]; [discriminate|]. injection Hc as ->.
      repeat split; try discriminate; try contradiction; auto.
    + repeat split; try discriminate; try contradiction; auto.
  - cbn [value calls]. unfold dialogs in *.
    rewrite !omap_app, Hd, VisiFruitLauncher_delete_dialogs, app_nil_r.
    assert (Hyes : b1 = false \/ b2 = false) by (apply Hfail; reflexivity).
    repeat split; auto.
    intros H1 H2. specialize (Hgood H1 H2). discriminate.
Qed.

(** ** The indicators *)

Lemma reachable_app_quiet (port : Z) (cs cs' : list Call) :
  probes cs' = [] -> reachable port (cs ++ cs') = reachable port cs.
Proof.
  intros H. unfold reachable, probes in *. now rewrite omap_app, H, app_nil_r.
Qed.

Lemma reachable_app_tick (cs cs' : list Call) (b f y : bool) :
  probes cs' = [(8001, b); (3000, f); (8000, y)] ->
  reachable 8001 (cs ++ cs') = b
  /\ reachable 3000 (cs ++ cs') = f
  /\ reachable 8000 (cs ++ cs') = y.
Proof.
  intros H. unfold reachable, last_probe, probes in *.
  rewrite omap_app, H, !filter_app.
  repeat split.
  - change (filter (fun pb : Z * bool => fst pb = 8001) [(8001, b); (3000, f); (8000, y)])
      with [(8001, b)].
    rewrite last_snoc. now destruct b.
  - change (filter (fun pb : Z * bool => fst pb = 3000) [(8001, b); (3000, f); (8000, y)])
      with [(3000, f)].
    rewrite last_snoc. now destruct f.
  - change (filter (fun pb : Z * bool => fst pb = 8000) [(8001, b); (3000, f); (8000, y)])
      with [(8000, y)].
    rewrite last_snoc. now destruct y.
Qed.

(** Painting an indicator: the text colour follows the flag of its
    service, and the flag is only read. *)
Lemma WM_CTLCOLORSTATIC_run (svc : Service) (s : State W) :
  indicators_differ (self s) ->
  let r := WndProc os (WM_CTLCOLORSTATIC (indicator svc (self s))) s in
  text_colors (calls r) = [if flag svc s then GREEN else RED]
  /\ value r = hBrushBackground (self s).
Proof.
  intros (H1 & H2 & H3) r. subst r. open_state s.
  cbn [self hStatusBackend hStatusFrontend hStatusSystem] in H1, H2, H3.
  apply Z.eqb_neq in H1, H2, H3.
  assert (H1' := H1). assert (H2' := H2). assert (H3' := H3).
  rewrite Z.eqb_sym in H1', H2', H3'.
  unfold WndProc, serviceStatus_at, SetTextColor, SetBkColor, flag.
  destruct svc; cbn [indicator key]; mrun;
    rewrite ?Z.eqb_refl, ?H1, ?H2, ?H3, ?H1', ?H2', ?H3'; mrun;
    match goal with |- context [?m !! ?k] => destruct (m !! k) as [[]|] end;
    mrun; split; reflexivity.
Qed.

Lemma WndProc_in_step (s : State W) (cs : list Call) (m : Msg) :
  in_step s cs -> in_step (after (WndProc os m s)) (cs ++ calls (WndProc os m s)).
Proof.
  intros [Hflags Hind]. split; [|apply (indicators_kept _ (WndProc_members m)), Hind].
  destruct (is_poll_tick m) eqn:Hm.
  - destruct m; try discriminate. cbn [is_poll_tick] in Hm.
    apply Z.eqb_eq in Hm. subst wParam. rewrite WndProc_tick. mred.
    destruct (UpdateServiceStatus_run s) as [Hp _]. cbv zeta in Hp.
    destruct (reachable_app_tick cs _ _ _ _ Hp) as (Hb & Hf & Hs).
    intros svc. destruct svc; cbn [port_of]; congruence.
  - intros svc.
    rewrite (WndProc_flag svc m Hm s), Hflags.
    symmetry. apply reachable_app_quiet, (WndProc_probes m Hm s).
Qed.

(** One tick of the poller ends with the repaint of the three indicators:
    after the three probes, whatever they answered, each indicator gets
    its dot and is invalidated. *)
Lemma UpdateServiceStatus_repaints (s : State W) :
  let r := UpdateServiceStatus os s in
  exists pre,
    calls r =
      pre ++ [Call_SetWindowText (hStatusBackend (self s)) "●";
              Call_InvalidateRect (hStatusBackend (self s));
              Call_SetWindowText (hStatusFrontend (self s)) "●";
              Call_InvalidateRect (hStatusFrontend (self s));
              Call_SetWindowText (hStatusSystem (self s)) "●";
              Call_InvalidateRect (hStatusSystem (self s))]
    /\ probes pre =
         [(8001, flag backend (after r)); (3000, flag frontend (after r));
          (8000, flag system (after r))]
    /\ invalidated pre = [].
Proof.
  intros r. subst r.
  remember (UpdateServiceStatus os s) as r eqn:E.
  open_state s. unfold UpdateServiceStatus, serviceStatus_assign, serviceStatus_at in E.
  mrun in E.
  do 3 (match type of E with
        | context [CheckPort os ?p ?st] =>
            let b := fresh "b" in let w := fresh "w" in let c := fresh "c" in
            let Hr := fresh "Hr" in let Hp := fresh "Hp" in let Hi := fresh "Hi" in
            destruct (CheckPort_shape p st) as (b & w & c & Hr & Hp & Hi);
            rewrite Hr in E; mrun in E
        end).
  rewrite (lookup_insert_ne _ "system" "backend") in E by discriminate.
  rewrite (lookup_insert_ne _ "frontend" "backend") in E by discriminate.
  rewrite lookup_insert_eq in E. mrun in E.
  match type of E with
  | context [UpdateStatusIndicator ?h ?v ?st] =>
      destruct (UpdateStatusIndicator_shape h v st) as (ws1 & Hu1);
      rewrite Hu1 in E; mrun in E
  end.
  rewrite (lookup_insert_ne _ "system" "frontend") in E by discriminate.
  rewrite lookup_insert_eq in E. mrun in E.
  match type of E with
  | context [UpdateStatusIndicator ?h ?v ?st] =>
      destruct (UpdateStatusIndicator_shape h v st) as (ws2 & Hu2);
      rewrite Hu2 in E; mrun in E
  end.
  rewrite lookup_insert_eq in E. mrun in E.
  match type of E with
  | context [UpdateStatusIndicator ?h ?v ?st] =>
      destruct (UpdateStatusIndicator_shape h v st) as (ws3 & Hu3);
      rewrite Hu3 in E; mrun in E
  end.
  subst r. unfold flag, probes, invalidated in *. mrun. cbn [key].
  exists (c ++ c0 ++ c1).
  rewrite <- !app_assoc, !omap_app, Hp, Hp0, Hp1, Hi, Hi0, Hi1.
  rewrite (lookup_insert_ne _ "system" "backend") by discriminate.
  rewrite (lookup_insert_ne _ "frontend" "backend") by discriminate.
  rewrite (lookup_insert_ne _ "system" "frontend") by discriminate.
  rewrite !lookup_insert_eq.
  repeat split.
Qed.

Lemma repaint_pending_app (port h : Z) (cs cs' : list Call) :
  repaint_pending port h (cs ++ cs') =
  fold_left (repaint_step port h) cs' (repaint_pending port h cs).
Proof. apply fold_left_app. Qed.

(** Calls without a probe leave no repaint pending that was not. *)
Lemma repaint_quiet (port h : Z) (cs : list Call) :
  probes cs = [] -> fold_left (repaint_step port h) cs false = false.
Proof.
  induction cs as [|c cs IH]; [reflexivity|].
  unfold probes. cbn [omap list_omap fold_left].
  destruct c; cbn [probe_of repaint_step]; try exact IH; [|discriminate].
  intros H. destruct (_ =? _); exact (IH H).
Qed.

(** The end of a tick leaves no repaint pending for an indicator. *)
Lemma repaint_tick (port : Z) (svc : Service) (a : VisiFruitLauncher) (pending : bool) :
  fold_left (repaint_step port (indicator svc a))
    [Call_SetWindowText (hStatusBackend a) "●"; Call_InvalidateRect (hStatusBackend a);
     Call_SetWindowText (hStatusFrontend a) "●"; Call_InvalidateRect (hStatusFrontend a);
     Call_SetWindowText (hStatusSystem a) "●"; Call_InvalidateRect (hStatusSystem a)]
    pending = false.
Proof.
  destruct svc; cbn [indicator fold_left repaint_step]; rewrite ?Z.eqb_refl;
    repeat match goal with |- context [if ?c then _ else _] => destruct c end;
    reflexivity.
Qed.

(** The invariant of the message loop behind the indicators: the flags are
    in step with the probes, and no probe has been left without the
    request to repaint the indicator of its service. *)
Lemma WndProc_repainted (s : State W) (cs : list Call) (m : Msg) :
  in_step s cs
  /\ (forall svc, repaint_pending (port_of svc) (indicator svc (self s)) cs = false) ->
  in_step (after (WndProc os m s)) (cs ++ calls (WndProc os m s))
  /\ (forall svc,
        repaint_pending (port_of svc) (indicator svc (self (after (WndProc os m s))))
          (cs ++ calls (WndProc os m s)) = false).
Proof.
  intros [Hstep Hpaint]. split; [apply WndProc_in_step, Hstep|].
  intros svc.
  assert (Hind : indicator svc (self (after (WndProc os m s))) = indicator svc (self s)).
  { change (indicator svc (members (self (after (WndProc os m s))))
            = indicator svc (members (self s))).
    now rewrite (WndProc_members m s). }
  rewrite Hind, repaint_pending_app, Hpaint.
  destruct (is_poll_tick m) eqn:Hm.
  - destruct m; try discriminate. cbn [is_poll_tick] in Hm.
    apply Z.eqb_eq in Hm. subst wParam. rewrite WndProc_tick. mred.
    destruct (UpdateServiceStatus_repaints s) as (pre & -> & _ & _).
    rewrite fold_left_app. apply repaint_tick.
  - apply repaint_quiet, (WndProc_probes m Hm s).
Qed.

(** C1.  While the launcher runs, whatever messages it has handled: the
    flag of each service is the answer of the most recent probe of its
    port, and no probe of the port has been left without the request to
    repaint the indicator of the service.  When the indicator is painted,
    [WndProc] gives it the green text colour when that answer was
    "reachable" and the red one otherwise (also when no probe was made
    yet), reading the flag without changing it.  The next tick of the
    poller again ends, after its three probes, with the three indicators
    invalidated. *)
Theorem indicator_shows_last_probe
    (a0 : VisiFruitLauncher) (w0 : W) (msgs : list Msg) (svc : Service) :
  let r := WinMain os msgs (process_start a0 w0) in
  let a := self (after r) in
  let paint := WndProc os (WM_CTLCOLORSTATIC (indicator svc a)) (after r) in
  let tick := WndProc os (WM_TIMER TIMER_STATUS_UPDATE) (after r) in
  value r = None ->
  flag svc (after r) = reachable (port_of svc) (calls r)
  /\ repaint_pending (port_of svc) (indicator svc a) (calls r) = false
  /\ text_colors (calls paint) =
       [if reachable (port_of svc) (calls r) then RGB 76 175 80 else RGB 244 67 54]
  /\ (forall svc', flag svc' (after paint) = flag svc' (after r))
  /\ (exists pre,
        calls tick =
          pre ++ [Call_SetWindowText (hStatusBackend a) "●";
                  Call_InvalidateRect (hStatusBackend a);
                  Call_SetWindowText (hStatusFrontend a) "●";
                  Call_InvalidateRect (hStatusFrontend a);
                  Call_SetWindowText (hStatusSystem a) "●";
                  Call_InvalidateRect (hStatusSystem a)]
        /\ probes pre =
             [(8001, flag backend (after tick)); (3000, flag frontend (after tick));
              (8000, flag system (after tick))]
        /\ invalidated pre = []).
Proof.
  intros r a paint tick. subst tick paint a r. rewrite WinMain_run. cbv zeta.
  destruct (startup_facts (process_start a0 w0)) as (Hf & _ & _ & Hp & _ & _ & Hok).
  destruct (value (startup os (process_start a0 w0))) eqn:Hv; [|discriminate].
  destruct (Hok eq_refl) as [_ Hind].
  set (s1 := after (startup os (process_start a0 w0))) in *.
  set (c1 := calls (startup os (process_start a0 w0))) in *.
  assert (H0 : in_step s1 c1
               /\ (forall svc', repaint_pending (port_of svc') (indicator svc' (self s1)) c1
                                = false)).
  { split.
    - split; [|exact Hind]. intros svc'. unfold s1. rewrite Hf.
      unfold reachable. now rewrite Hp.
    - intros svc'. apply repaint_quiet, Hp. }
  pose proof (Run_invariant
                (fun s cs => in_step s cs
                             /\ (forall svc', repaint_pending (port_of svc')
                                                (indicator svc' (self s)) cs = false))
                (fun s cs m H _ => WndProc_repainted s cs m H) msgs _ _ H0)
    as [[Hflags Hdiff] Hpaint].
  destruct (value (Run os msgs s1)) eqn:Hr; [discriminate|].
  cbn [value after calls]. intros _.
  destruct (WM_CTLCOLORSTATIC_run svc _ Hdiff) as [Hc _]. cbv zeta in Hc.
  split; [apply Hflags|].
  split; [apply Hpaint|].
  split; [rewrite Hc, Hflags; reflexivity|].
  split; [intros svc'; apply (WndProc_flag svc' (WM_CTLCOLORSTATIC _) eq_refl)|].
  rewrite WndProc_tick. mred. apply UpdateServiceStatus_repaints.
Qed.

(** ** The process list *)

Lemma VisiFruitLauncher_delete_nothing (s : State W) :
  processes (self s) = [] -> terminated (calls (VisiFruitLauncher_delete s)) = [].
Proof.
  intros H. open_state s. cbn in H. subst.
  unfold VisiFruitLauncher_delete, DeleteObject. mrun. reflexivity.
Qed.

Lemma MessageBox_processes (owner : Z) (text caption : string) (type : Z) :
  keeps (fun s => processes (self s)) (MessageBox os owner text caption type).
Proof. frame. Qed.

Lemma MessageBox_terminated (owner : Z) (text caption : string) (type : Z) :
  mute termination_of (MessageBox os owner text caption type).
Proof. quiet. Qed.

Lemma terminated_app (a b : list Call) :
  terminated a = [] -> terminated b = [] -> terminated (a ++ b) = [].
Proof. unfold terminated. intros Ha Hb. now rewrite omap_app, Ha, Hb. Qed.

Lemma mute_terminated {A} (m : M W A) (s : State W) :
  mute termination_of m -> terminated (calls (m s)) = [].
Proof. intros H. exact (H s). Qed.

(** No start action ever puts a handle into [processes], so the
    destructor's loop has nothing to terminate: in no run at all does the
    launcher terminate a process. *)
Lemma launcher_terminates_nothing (a0 : VisiFruitLauncher) (w0 : W) (msgs : list Msg) :
  terminated (calls (WinMain os msgs (process_start a0 w0))) = [].
Proof.
  rewrite WinMain_run. cbv zeta.
  destruct (startup_facts (process_start a0 w0)) as (_ & Hp & _ & _ & Ht & _ & _).
  set (r0 := startup os (process_start a0 w0)) in *.
  assert (Hrun : processes (self (after (Run os msgs (after r0)))) = []
                 /\ terminated (calls r0 ++ calls (Run os msgs (after r0))) = []).
  { apply (Run_invariant
             (fun s cs => processes (self s) = [] /\ terminated cs = [])); [|auto].
    intros s cs m [H1 H2] _. split.
    - change (processes (members (self (after (WndProc os m s)))) = []).
      rewrite (WndProc_members m s). exact H1.
    - apply terminated_app; [exact H2|]. apply (WndProc_terminated m s). }
  destruct Hrun as [Hp1 Ht1].
  destruct (value r0).
  - destruct (value (Run os msgs (after r0))); cbn [calls]; [|exact Ht1].
    rewrite app_assoc.
    exact (terminated_app _ _ Ht1 (VisiFruitLauncher_delete_nothing _ Hp1)).
  - cbn [calls].
    set (box := MessageBox os NULL _ _ _ (after r0)).
    pose proof (mute_terminated _ (after r0)
                  (MessageBox_terminated NULL "Error inicializando el launcher" "Error"
                     (Z.lor MB_OK MB_ICONERROR))) as Hb.
    pose proof (MessageBox_processes NULL "Error inicializando el launcher" "Error"
                  (Z.lor MB_OK MB_ICONERROR) (after r0)) as Hk.
    fold box in Hb, Hk. cbv beta in Hk.
    apply terminated_app; [exact Ht|]. apply terminated_app; [exact Hb|].
    apply (VisiFruitLauncher_delete_nothing (after box)). rewrite Hk. exact Hp.
Qed.

(** ** Further properties of the launcher *)

(** ** Starting one service, opening a URL *)



(** X3.  [AddLog] touches nothing but the log view: every other window,
    the window classes, the members of the launcher, the timers and the
    quit message are as before; when [hLogsTextBox] is no window of the
    session the line is lost and no window changes at all. *)
Theorem AddLog_changes_only_the_log_view (message : string) (s : State W) :
  let r := AddLog os message s in
  self (after r) = self s
  /\ timers (desk (after r)) = timers (desk s)
  /\ quit (desk (after r)) = quit (desk s)
  /\ classes (after r) = classes s
  /\ (forall h, h <> hLogsTextBox (self s) ->
        windows (desk (after r)) !! h = windows (desk s) !! h)
  /\ (windows (desk s) !! hLogsTextBox (self s) = None ->
        windows (desk (after r)) = windows (desk s)).
Proof.
  intros r. subst r.
  split; [apply AddLog_self|].
  split; [rewrite AddLog_run; reflexivity|].
  split; [rewrite AddLog_run; reflexivity|].
  split; [apply AddLog_classes|].
  rewrite AddLog_run. mred. unfold logged. split.
  - intros h Hh. destruct (windows (desk s) !! hLogsTextBox (self s)); [|reflexivity].
    now rewrite lookup_insert_ne.
  - intros ->. reflexivity.
Qed.


(** ** The controls *)

Ltac fresh_ne := let H := fresh in intros H; injection H as H; lia.

(** X5.  [CreateControls] creates 21 child controls, all of them children
    of the main window.  Afterwards [hLogsTextBox] is an empty edit control
    with the identifier [ID_LOGS_TEXTBOX], and the indicator of each
    service is a static control of its own showing the dot, with the
    identifier of that service; no indicator is the log view.  The main
    window handle, the status flags and the process list are as before. *)
Theorem CreateControls_creates_the_controls (s : State W) :
  let r := CreateControls s in
  let ws := windows (desk (after r)) in
  let a := self (after r) in
  length (controls_created (calls r)) = 21%nat
  /\ Forall (fun c => snd c = hwnd (self s)) (controls_created (calls r))
  /\ ws !! hLogsTextBox a =
       Some {| w_class := "EDIT"; w_text := ""; w_id := ID_LOGS_TEXTBOX;
               sel_start := 0; sel_end := 0 |}
  /\ (forall svc,
        ws !! indicator svc a =
          Some {| w_class := "STATIC"; w_text := "●"; w_id := status_id svc;
                  sel_start := 0; sel_end := 0 |}
        /\ indicator svc a <> hLogsTextBox a)
  /\ indicators_differ a
  /\ hwnd a = hwnd (self s)
  /\ serviceStatus a = serviceStatus (self s)
  /\ processes a = processes (self s).
Proof.
  intros r ws a. subst ws a r. open_state s. unfold CreateControls, CreateWindow.
  unfold indicators_differ. mrun.
  split; [reflexivity|].
  split; [repeat constructor|].
  split; [apply lookup_insert_eq|].
  split.
  { intros svc; destruct svc; cbn [indicator status_id]; mrun;
      (split; [|fresh_ne]);
      rewrite !lookup_insert_ne by fresh_ne; apply lookup_insert_eq. }
  repeat split; fresh_ne.
Qed.

Lemma bind_calls_l {A B} (m : M W A) (k : A -> M W B) (s : State W) :
  calls (m s) <> [] -> calls ((m ≫= k) s) <> [].
Proof. rewrite bind_calls. intros H [E _]%app_eq_nil. exact (H E). Qed.

Lemma bind_calls_r {A B} (m : M W A) (k : A -> M W B) (s : State W) :
  (forall a s', calls (k a s') <> []) -> calls ((m ≫= k) s) <> [].
Proof. rewrite bind_calls. intros H [_ E]%app_eq_nil. exact (H _ _ E). Qed.

Lemma AddLog_calls (message : string) (s : State W) : calls (AddLog os message s) <> [].
Proof. rewrite AddLog_run. discriminate. Qed.

(** X6.  The buttons and the commands agree: the eight buttons
    [CreateControls] creates have eight different identifiers, every one
    of them makes [HandleCommand] act, and for every other identifier
    [HandleCommand] calls nothing and leaves the state as it is. *)
Theorem buttons_are_the_commands (s s' : State W) :
  let ids := button_ids (calls (CreateControls s)) in
  List.length ids = 8%nat
  /\ NoDup ids
  /\ (forall c, c ∈ ids -> calls (HandleCommand os c s') <> [])
  /\ (forall c, c ∉ ids ->
        HandleCommand os c s' = {| value := tt; after := s'; calls := [] |}).
Proof.
  intros ids.
  assert (Hids : ids = [ID_START_ALL; ID_STOP_ALL; ID_START_BACKEND; ID_START_FRONTEND;
                        ID_START_SYSTEM; ID_OPEN_FRONTEND; ID_OPEN_BACKEND; ID_OPEN_SYSTEM]).
  { subst ids. open_state s. unfold CreateControls, CreateWindow. mrun. reflexivity. }
  rewrite Hids. clear Hids ids.
  split; [reflexivity|].
  split. { apply NoDup_ListNoDup. repeat constructor; cbn; intuition discriminate. }
  split.
  - intros c Hc.
    repeat (apply elem_of_cons in Hc as [->|Hc]); [..|now apply elem_of_nil in Hc].
    + apply (bind_calls_l (AddLog os _)), AddLog_calls.
    + apply (bind_calls_l (AddLog os _)), AddLog_calls.
    + apply (bind_calls_l (AddLog os _)), AddLog_calls.
    + apply (bind_calls_l (AddLog os _)), AddLog_calls.
    + apply (bind_calls_l (AddLog os _)), AddLog_calls.
    + apply (bind_calls_r get_self). intros a st.
      apply (bind_calls_r (ShellExecute os _ _ _ _)). intros ? ?. apply AddLog_calls.
    + apply (bind_calls_r get_self). intros a st.
      apply (bind_calls_r (ShellExecute os _ _ _ _)). intros ? ?. apply AddLog_calls.
    + apply (bind_calls_r get_self). intros a st.
      apply (bind_calls_r (ShellExecute os _ _ _ _)). intros ? ?. apply AddLog_calls.
  - intros c Hc. unfold HandleCommand.
    repeat match goal with
           | |- context [c =? ?k] =>
               destruct (Z.eqb_spec c k) as [->|_];
               [exfalso; apply Hc; repeat first [left | right] | ]
           end.
    reflexivity.
Qed.

(** ** Initialisation *)

(** A sequence, from the outcome of its first part. *)
Lemma bind_run {A B} (m : M W A) (k : A -> M W B) (s : State W) :
  (m ≫= k) s =
  {| value := value (k (value (m s)) (after (m s)));
     after := after (k (value (m s)) (after (m s)));
     calls := calls (m s) ++ calls (k (value (m s)) (after (m s))) |}.
Proof.
  unfold mbind, M_bind, bind. destruct (m s) as [a s1 c1]; cbn.
  now destruct (k a s1).
Qed.

(** The main window refused: what [CreateWindowEx] does, in full. *)
Lemma CreateWindowEx_refused (cls title : string) (s : State W) :
  fst (os_CreateWindowEx os cls (world (desk s))) = false ->
  CreateWindowEx os cls title s =
  {| value := NULL;
     after := {| self := self s;
                 desk := {| windows := windows (desk s); timers := timers (desk s);
                            quit := quit (desk s); next_handle := next_handle (desk s);
                            world := snd (os_CreateWindowEx os cls (world (desk s))) |} |};
     calls := [Call_CreateWindowEx cls title NULL] |}.
Proof.
  intros H. unfold CreateWindowEx, new_window. munfold. mred. rewrite H. reflexivity.
Qed.

Lemma Initialize_not_registered (s : State W) :
  let reg := os_RegisterClassEx os "VisiFruitLauncher" (world (desk s)) in
  fst reg = false ->
  Initialize os s =
  {| value := false;
     after := {| self := self s;
                 desk := {| windows := windows (desk s); timers := timers (desk s);
                            quit := quit (desk s); next_handle := next_handle (desk s);
                            world := snd reg |} |};
     calls := [Call_RegisterClassEx "VisiFruitLauncher" false] |}.
Proof.
  intros reg H. unfold Initialize.
  rewrite bind_run, RegisterClassEx_run. cbv zeta. mred. fold reg. rewrite H.
  reflexivity.
Qed.

Lemma Initialize_no_window (s : State W) :
  let reg := os_RegisterClassEx os "VisiFruitLauncher" (world (desk s)) in
  let win := os_CreateWindowEx os "VisiFruitLauncher" (snd reg) in
  fst reg = true -> fst win = false ->
  Initialize os s =
  {| value := false;
     after := {| self := set_hwnd NULL (self s);
                 desk := {| windows := windows (desk s); timers := timers (desk s);
                            quit := quit (desk s); next_handle := next_handle (desk s);
                            world := snd win |} |};
     calls := [Call_RegisterClassEx "VisiFruitLauncher" true;
               Call_CreateWindowEx "VisiFruitLauncher" "🍎 VisiFruit Launcher (C++ Native)"
                 NULL] |}.
Proof.
  intros reg win H1 H2. unfold Initialize.
  rewrite bind_run, RegisterClassEx_run. cbv zeta. mred. fold reg. rewrite H1.
  cbn [negb]. rewrite bind_run, CreateWindowEx_refused by exact H2. mred. fold win.
  reflexivity.
Qed.

(** X7.  When [Initialize] fails it has created no control, shown no
    window, set no timer and written no log line, and the windows and
    timers of the session are as before.  When already the registration
    of the window class fails it does not ask for the main window and
    leaves the members of the launcher as they are; otherwise it has asked
    once for the main window, and [hwnd] is [NULL]. *)
Theorem Initialize_failure_creates_nothing (s : State W) :
  let r := Initialize os s in
  let registered := fst (os_RegisterClassEx os "VisiFruitLauncher" (world (desk s))) in
  value r = false ->
  controls_created (calls r) = []
  /\ shown (calls r) = []
  /\ timers_set (calls r) = []
  /\ log_appends (calls r) = []
  /\ windows (desk (after r)) = windows (desk s)
  /\ timers (desk (after r)) = timers (desk s)
  /\ (if registered
      then main_windows (calls r) = [("VisiFruitLauncher", 0)]
           /\ hwnd (self (after r)) = 0
      else main_windows (calls r) = [] /\ self (after r) = self s).
Proof.
  intros r registered Hfail. subst r registered.
  pose proof (Initialize_value s) as Hv. cbv zeta in Hv. rewrite Hv in Hfail. clear Hv.
  destruct (fst (os_RegisterClassEx os "VisiFruitLauncher" (world (desk s)))) eqn:H1.
  - cbn [andb] in Hfail. rewrite (Initialize_no_window s H1 Hfail). repeat split.
  - rewrite (Initialize_not_registered s H1). repeat split.
Qed.

(** ** The timers *)

Lemma SetTimer_timers (h id elapse : Z) (s : State W) :
  timers (desk (after (SetTimer h id elapse s))) = <[id := elapse]> (timers (desk s)).
Proof. reflexivity. Qed.

Lemma SetTimer_other (h id elapse k : Z) :
  id <> k -> keeps (fun s : State W => timers (desk s) !! k) (SetTimer h id elapse).
Proof. intros Hne s. rewrite SetTimer_timers. now apply lookup_insert_ne. Qed.

Lemma KillTimer_other (h id k : Z) :
  id <> k -> keeps (fun s : State W => timers (desk s) !! k) (KillTimer h id).
Proof.
  intros Hne s. unfold KillTimer. munfold. mred. now apply lookup_delete_ne.
Qed.

Lemma CreateControls_timers : keeps (fun s : State W => timers (desk s)) CreateControls.
Proof. unfold CreateControls, CreateWindow, new_window. frame. Qed.

Lemma AddLog_timers (message : string) :
  keeps (fun s => timers (desk s)) (AddLog os message).
Proof. frame. Qed.

Lemma Initialize_rest_timers (h : Z) (s : State W) :
  let r := (CreateControls ;;
            ShowWindow h SW_SHOW ;;
            UpdateWindow h ;;
            SetTimer h TIMER_STATUS_UPDATE 3000 ;;
            AddLog os "🚀 VisiFruit Launcher (C++ Native) iniciado" ;;
            ret true) s in
  timers (desk (after r)) = <[TIMER_STATUS_UPDATE := 3000]> (timers (desk s)).
Proof.
  intros r. subst r.
  rewrite (bind_after CreateControls), (bind_after (ShowWindow _ _)),
    (bind_after (UpdateWindow _)), (bind_after (SetTimer _ _ _)),
    (bind_after (AddLog os _)).
  cbv beta.
  rewrite (keeps_ret (fun s : State W => timers (desk s)) true).
  rewrite AddLog_timers, SetTimer_timers.
  unfold UpdateWindow, ShowWindow.
  rewrite (keeps_emit (fun s : State W => timers (desk s)) (Call_UpdateWindow h)).
  rewrite (keeps_emit (fun s : State W => timers (desk s)) (Call_ShowWindow h SW_SHOW)).
  now rewrite CreateControls_timers.
Qed.

(** A successful [Initialize] sets the status timer, to three seconds,
    and no other timer. *)
Lemma Initialize_timers (s : State W) :
  value (Initialize os s) = true ->
  timers (desk (after (Initialize os s))) =
  <[TIMER_STATUS_UPDATE := 3000]> (timers (desk s)).
Proof.
  assert (H2 : keeps (fun s => timers (desk s))
                 (CreateWindowEx os "VisiFruitLauncher" "🍎 VisiFruit Launcher (C++ Native)"))
    by (unfold CreateWindowEx, new_window; frame).
  unfold Initialize. rewrite bind_value, bind_after. cbv beta.
  set (r1 := RegisterClassEx os "VisiFruitLauncher" s).
  destruct (value r1); cbn [negb]; [|discriminate].
  rewrite bind_value, bind_after. cbv beta.
  set (r2 := CreateWindowEx os _ _ (after r1)).
  rewrite bind_value, bind_after. cbv beta.
  set (r3 := modify_self _ (after r2)).
  destruct (value r2 =? NULL); [discriminate|].
  intros _. rewrite (Initialize_rest_timers (value r2) (after r3)).
  unfold r3.
  rewrite (ltac:(intros ?; reflexivity) :
             keeps (fun s : State W => timers (desk s)) (modify_self (set_hwnd (value r2)))).
  unfold r2. rewrite (H2 (after r1)). reflexivity.
Qed.

Lemma startup_timers (s : State W) :
  value (startup os s) = true ->
  timers (desk (after (startup os s))) =
  <[TIMER_STATUS_UPDATE := 3000]> (timers (desk s)).
Proof.
  rewrite startup_value, startup_after. intros H.
  rewrite (Initialize_timers _ H).
  assert (Hk : keeps (fun s : State W => timers (desk s)) VisiFruitLauncher_new)
    by (unfold VisiFruitLauncher_new; frame).
  now rewrite Hk.
Qed.

(** What a message leaves of a timer other than its own. *)
Lemma WndProc_timer_kept (k : Z) (m : Msg) :
  (k = 2001 -> match m with WM_CLOSE | WM_DESTROY => False | _ => True end) ->
  k <> 3001 ->
  keeps (fun s => timers (desk s) !! k) (WndProc os m).
Proof.
  intros Hm Hk.
  assert (H1 : forall h e, keeps (fun s : State W => timers (desk s) !! k)
                             (SetTimer h 3001 e))
    by (intros; apply SetTimer_other; congruence).
  assert (H2 : forall h, keeps (fun s : State W => timers (desk s) !! k)
                           (KillTimer h 3001))
    by (intros; apply KillTimer_other; congruence).
  assert (H3 : k <> 2001 ->
               forall h, keeps (fun s : State W => timers (desk s) !! k)
                           (KillTimer h TIMER_STATUS_UPDATE))
    by (intros ? ?; apply KillTimer_other; unfold TIMER_STATUS_UPDATE; congruence).
  destruct m.
  - unfold WndProc, HandleCommand, StartCompleteSystem. frame.
  - unfold WndProc, HandleTimer. frame.
  - frame.
  - assert (Hne : k <> 2001) by (intros ->; apply Hm; reflexivity).
    specialize (H3 Hne). unfold WndProc, DestroyWindow, on_WM_DESTROY. frame.
  - assert (Hne : k <> 2001) by (intros ->; apply Hm; reflexivity).
    specialize (H3 Hne). unfold WndProc, on_WM_DESTROY. frame.
  - frame.
Qed.

(** X8.  As long as the launcher runs, the status timer stays set to
    three seconds: no command and no timer handler cancels it or gives
    it another period.  The only other timer there can be is the browser
    timer 3001. *)
Theorem poller_stays_armed (a0 : VisiFruitLauncher) (w0 : W) (msgs : list Msg) :
  let r := WinMain os msgs (process_start a0 w0) in
  value r = None ->
  timers (desk (after r)) !! 2001 = Some 3000
  /\ (forall id, id <> 2001 -> id <> 3001 -> timers (desk (after r)) !! id = None).
Proof.
  intros r. subst r. rewrite WinMain_run. cbv zeta.
  destruct (startup_facts (process_start a0 w0)) as (_ & _ & Hq & _).
  pose proof (startup_timers (process_start a0 w0)) as Ht.
  destruct (value (startup os (process_start a0 w0))); [|discriminate].
  specialize (Ht eq_refl). cbn [process_start desk timers quit] in Ht, Hq.
  set (s1 := after (startup os (process_start a0 w0))) in *.
  pose proof (Run_invariant
                (fun s _ => (quit (desk s) = None ->
                             timers (desk s) !! 2001 = Some 3000)
                            /\ (forall id, id <> 2001 -> id <> 3001 ->
                                  timers (desk s) !! id = None))) as Hinv.
  cbv beta in Hinv.
  assert (Hstep : forall (s : State W) (cs : list Call) (m : Msg),
            (quit (desk s) = None -> timers (desk s) !! 2001 = Some 3000)
            /\ (forall id, id <> 2001 -> id <> 3001 -> timers (desk s) !! id = None) ->
            quit (desk s) = None ->
            (quit (desk (after (WndProc os m s))) = None ->
             timers (desk (after (WndProc os m s))) !! 2001 = Some 3000)
            /\ (forall id, id <> 2001 -> id <> 3001 ->
                  timers (desk (after (WndProc os m s))) !! id = None)).
  { intros s cs m [Harmed Hdom] Hrun. split.
    - assert (Hkeep : match m with WM_CLOSE | WM_DESTROY => False | _ => True end ->
                      quit (desk (after (WndProc os m s))) = None ->
                      timers (desk (after (WndProc os m s))) !! 2001 = Some 3000).
      { intros Hm _.
        rewrite (WndProc_timer_kept 2001 m (fun _ => Hm) ltac:(discriminate) s).
        exact (Harmed Hrun). }
      destruct m; try (apply Hkeep; exact I); clear Hkeep.
      + specialize (Harmed Hrun). revert Harmed. open_state s. cbn in Hrun. subst.
        unfold WndProc, MessageBox, DestroyWindow, on_WM_DESTROY, KillTimer, PostQuitMessage.
        mrun. destruct (_ =? IDYES); mrun; [discriminate | auto].
      + rewrite (WM_DESTROY_quits s Hrun). discriminate.
    - intros id H1 H2.
      rewrite (WndProc_timer_kept id m (fun E => False_ind _ (H1 E)) H2 s).
      now apply Hdom. }
  specialize (Hinv Hstep msgs s1 []).
  cbn [app] in Hinv. rewrite <- Run_value in Hinv.
  destruct Hinv as [Harmed Hdom].
  { split.
    - intros _. rewrite Ht. apply lookup_insert_eq.
    - intros id H1 H2. rewrite Ht, lookup_insert_ne by (unfold TIMER_STATUS_UPDATE; congruence).
      apply lookup_empty. }
  destruct (value (Run os msgs s1)) eqn:Hv; [discriminate|].
  cbn [value after]. intros _. split; [apply Harmed; reflexivity | exact Hdom].
Qed.

(** ** Closing the window *)

(** X9.  [WM_CLOSE] shows exactly one dialog, the yes/no question owned by
    the main window, and returns 0.  Unless the answer is [IDYES] (6)
    nothing else happens: no window is destroyed, no timer is killed, no
    quit message is posted, and members, windows, timers and quit message
    are as before.  On [IDYES] the main window is destroyed, which kills
    the status timer 2001 and posts the quit message with exit code 0. *)
Theorem WM_CLOSE_asks_before_closing (s : State W) :
  let r := WndProc os WM_CLOSE s in
  let answer :=
    fst (os_MessageBox os "¿Estás seguro de que quieres cerrar el launcher?"
           "Confirmar cierre" (Z.lor 4 32) (world (desk s))) in
  value r = 0
  /\ dialogs (calls r) =
       [(hwnd (self s), "¿Estás seguro de que quieres cerrar el launcher?",
         "Confirmar cierre", Z.lor 4 32)]
  /\ self (after r) = self s
  /\ windows (desk (after r)) = windows (desk s)
  /\ (if answer =? 6
      then destroyed (calls r) = [hwnd (self s)]
           /\ timers_killed (calls r) = [2001]
           /\ quits_posted (calls r) = [0]
           /\ timers (desk (after r)) = delete 2001 (timers (desk s))
           /\ quit (desk (after r)) =
                match quit (desk s) with Some code => Some code | None => Some 0 end
      else destroyed (calls r) = []
           /\ timers_killed (calls r) = []
           /\ quits_posted (calls r) = []
           /\ timers (desk (after r)) = timers (desk s)
           /\ quit (desk (after r)) = quit (desk s)).
Proof.
  intros r answer. subst r answer. open_state s.
  unfold WndProc, MessageBox, DestroyWindow, on_WM_DESTROY, KillTimer, PostQuitMessage.
  mrun. change (Z.lor MB_YESNO MB_ICONQUESTION) with (Z.lor 4 32).
  match goal with
  | |- context [os_MessageBox os ?t ?c ?ty ?w] =>
      destruct (os_MessageBox os t c ty w) as [answer w']
  end.
  mrun. change IDYES with 6.
  destruct (answer =? 6); mrun;
    [match goal with |- context [match ?q with Some _ => _ | None => _ end] => destruct q end|];
    mrun; repeat split.
Qed.

(** ** The destructor *)

Lemma VisiFruitLauncher_delete_run (s : State W) :
  VisiFruitLauncher_delete s =
  {| value := tt;
     after := s;
     calls :=
       [Call_DeleteObject (hBrushBackground (self s));
        Call_DeleteObject (hBrushGreen (self s));
        Call_DeleteObject (hBrushRed (self s))]
       ++ flat_map (fun p => if negb (hProcess p =? INVALID_HANDLE_VALUE)
                             then [Call_TerminateProcess (hProcess p) 0;
                                   Call_CloseHandle (hProcess p);
                                   Call_CloseHandle (hThread p)]
                             else []) (processes (self s)) |}.
Proof.
  unfold VisiFruitLauncher_delete, DeleteObject. munfold. mred.
  generalize (processes (self s)). intros l.
  assert (H : forall st : State W,
            for_each l (fun process =>
              if negb (hProcess process =? INVALID_HANDLE_VALUE)
              then TerminateProcess (hProcess process) 0 ;;
                   CloseHandle (hProcess process) ;; CloseHandle (hThread process)
              else ret tt) st =
            {| value := tt; after := st;
               calls := flat_map (fun p => if negb (hProcess p =? INVALID_HANDLE_VALUE)
                                           then [Call_TerminateProcess (hProcess p) 0;
                                                 Call_CloseHandle (hProcess p);
                                                 Call_CloseHandle (hThread p)]
                                           else []) l |}).
  { induction l as [|p l IH]; intros st; [reflexivity|].
    cbn [for_each flat_map]. unfold mbind at 1, M_bind at 1, bind at 1.
    destruct (negb (hProcess p =? INVALID_HANDLE_VALUE));
      unfold TerminateProcess, CloseHandle; munfold; mred; rewrite IH; reflexivity. }
  unfold mbind, M_bind, bind in H. rewrite H. reflexivity.
Qed.

(** X10.  The destructor deletes the three brushes and then goes through
    the process list in order: every entry whose process handle is not
    [INVALID_HANDLE_VALUE] (-1) is terminated with exit code 0 and its
    process and thread handles are closed; the other entries are passed
    over.  Nothing else changes. *)
Theorem destructor_terminates_listed_processes (s : State W) :
  let r := VisiFruitLauncher_delete s in
  let live := filter (fun p => hProcess p <> -1) (processes (self s)) in
  deleted_objects (calls r) =
    [hBrushBackground (self s); hBrushGreen (self s); hBrushRed (self s)]
  /\ terminations (calls r) = (fun p => (hProcess p, 0)) <$> live
  /\ closed_handles (calls r) = live ≫= (fun p => [hProcess p; hThread p])
  /\ after r = s.
Proof.
  intros r live. subst r live. rewrite VisiFruitLauncher_delete_run. mred.
  unfold deleted_objects, terminations, closed_handles.
  rewrite ?omap_app. cbn [omap list_omap app].
  generalize (processes (self s)). intros l.
  change INVALID_HANDLE_VALUE with (-1).
  split; [|split; [|split; [|reflexivity]]].
  - do 3 f_equal. induction l as [|p l IH]; [reflexivity|].
    cbn [flat_map]. rewrite omap_app, IH.
    now destruct (negb (hProcess p =? -1)).
  - induction l as [|p l IH]; [reflexivity|].
    cbn [flat_map]. rewrite omap_app, filter_cons, IH.
    destruct (Z.eqb_spec (hProcess p) (-1)) as [E|E]; cbn [negb];
      destruct (decide (hProcess p <> -1)); try contradiction; reflexivity.
  - induction l as [|p l IH]; [reflexivity|].
    cbn [flat_map]. rewrite omap_app, filter_cons, IH.
    destruct (Z.eqb_spec (hProcess p) (-1)) as [E|E]; cbn [negb];
      destruct (decide (hProcess p <> -1)); try contradiction; reflexivity.
Qed.

(** ** The handles of a probe *)

(** X11.  [CheckPort] gives back to WinInet every handle it received from
    it, the handle of the URL first and the session last, and closes
    nothing else, in particular never [NULL]: a probe leaves no handle
    open. *)
Theorem CheckPort_closes_what_it_opens (port : Z) (s : State W) :
  let r := CheckPort os port s in
  inet_closed (calls r) = rev (inet_opened (calls r))
  /\ Forall (fun h => h <> NULL) (inet_closed (calls r)).
Proof.
  intros r. subst r. rewrite CheckPort_run. cbv zeta.
  destruct (fst (os_InternetOpen os (world (desk s))) =? NULL) eqn:Hs; mred.
  - unfold inet_closed, inet_opened. cbn. rewrite Hs. split; [reflexivity | constructor].
  - apply Z.eqb_neq in Hs as Hne.
    destruct (fst (os_InternetOpenUrl os (health_url port) _));
      unfold inet_closed, inet_opened; cbn; rewrite Hs; cbn;
      (split; [reflexivity | repeat constructor; (exact Hne || discriminate)]).
Qed.

(** ** Painting *)

(** X12.  Whatever static control is painted, [WndProc] sets exactly one
    text colour and the dark background colour, and returns the
    background brush; the status flags are as before.  A control that is
    none of the three indicators gets white text, and the state does not
    change at all. *)
Theorem WM_CTLCOLORSTATIC_dark_background (hControl : Z) (s : State W) :
  let r := WndProc os (WM_CTLCOLORSTATIC hControl) s in
  value r = hBrushBackground (self s)
  /\ bk_colors (calls r) = [RGB 43 43 43]
  /\ length (text_colors (calls r)) = 1%nat
  /\ length (calls r) = 2%nat
  /\ (forall svc, flag svc (after r) = flag svc s)
  /\ (hControl <> hStatusBackend (self s) -> hControl <> hStatusFrontend (self s) ->
      hControl <> hStatusSystem (self s) ->
      text_colors (calls r) = [RGB 255 255 255] /\ after r = s).
Proof.
  intros r. subst r.
  split; [|split; [|split; [|split; [|split]]]].
  6: { intros H1 H2 H3. apply Z.eqb_neq in H1, H2, H3. open_state s.
       cbn in H1, H2, H3.
       unfold WndProc, SetTextColor, SetBkColor. mrun. rewrite H1, H2, H3. mrun.
       split; reflexivity. }
  5: { intros svc. apply (WndProc_flag svc (WM_CTLCOLORSTATIC hControl) eq_refl). }
  all: open_state s; unfold WndProc, serviceStatus_at, SetTextColor, SetBkColor; mrun;
    repeat match goal with
           | |- context [if ?c then _ else _] => destruct c; mrun
           | |- context [match ?m !! ?k with _ => _ end] => destruct (m !! k); mrun
           end; reflexivity.
Qed.

(** ** A failed start *)

(** X13.  When the system refuses the window class or the main window, the
    launcher handles no message at all: whatever arrives, [WinMain] does
    what it does when nothing arrives. *)
Theorem failed_start_handles_no_message (a0 : VisiFruitLauncher) (w0 : W) (msgs : list Msg) :
  let registered := os_RegisterClassEx os "VisiFruitLauncher" w0 in
  let created := os_CreateWindowEx os "VisiFruitLauncher" (snd registered) in
  fst registered = false \/ fst created = false ->
  WinMain os msgs (process_start a0 w0) = WinMain os [] (process_start a0 w0).
Proof.
  intros registered created Hfail.
  pose proof (startup_initialized (process_start a0 w0)) as Hinit.
  cbv zeta in Hinit. cbn [process_start desk world] in Hinit.
  fold registered in Hinit. fold created in Hinit.
  assert (Hv : value (startup os (process_start a0 w0)) = false).
  { rewrite Hinit. destruct Hfail as [-> | ->]; [reflexivity | apply andb_false_r]. }
  rewrite !WinMain_run. cbv zeta. rewrite Hv. reflexivity.
Qed.

(** ** The brushes *)

(** X14.  The constructor creates exactly three brushes, the dark grey
    background, the green and the red one, and keeps their handles in
    [hBrushBackground], [hBrushGreen] and [hBrushRed]; the handles are
    different from each other and none is [NULL].  It leaves the status
    map with exactly the three keys, all [false], and the process list
    empty, and does not touch the window handles. *)
Theorem constructor_creates_the_brushes (s : State W) :
  let r := VisiFruitLauncher_new s in
  let a := self (after r) in
  brushes_created (calls r) =
    [(RGB 43 43 43, hBrushBackground a); (RGB 76 175 80, hBrushGreen a);
     (RGB 244 67 54, hBrushRed a)]
  /\ NoDup [NULL; hBrushBackground a; hBrushGreen a; hBrushRed a]
  /\ serviceStatus a = {["backend" := false; "frontend" := false; "system" := false]}
  /\ processes a = []
  /\ (hwnd a, hLogsTextBox a, hStatusBackend a, hStatusFrontend a, hStatusSystem a) =
     (hwnd (self s), hLogsTextBox (self s), hStatusBackend (self s),
      hStatusFrontend (self s), hStatusSystem (self s)).
Proof.
  intros r a. subst a r. open_state s.
  unfold VisiFruitLauncher_new, CreateSolidBrush, serviceStatus_assign. mrun.
  split; [reflexivity|].
  split. { apply NoDup_ListNoDup. repeat constructor; cbn; intros H;
           repeat (destruct H as [H|H]; [try discriminate; injection H as H; lia|]);
           exact H. }
  split. { apply map_eq. intros k.
           destruct (decide (k = "system")) as [->|H1]; [reflexivity|].
           destruct (decide (k = "frontend")) as [->|H2]; [reflexivity|].
           destruct (decide (k = "backend")) as [->|H3]; [reflexivity|].
           rewrite !lookup_insert_ne, lookup_singleton_ne, lookup_empty by congruence.
           reflexivity. }
  split; reflexivity.
Qed.

Lemma VisiFruitLauncher_new_brushes (s : State W) :
  let r := VisiFruitLauncher_new s in
  let a := self (after r) in
  brushes_created (calls r) =
    [(RGB 43 43 43, hBrushBackground a); (RGB 76 175 80, hBrushGreen a);
     (RGB 244 67 54, hBrushRed a)]
  /\ deleted_objects (calls r) = [].
Proof.
  intros r a. subst a r. open_state s.
  unfold VisiFruitLauncher_new, CreateSolidBrush, serviceStatus_assign. mrun.
  split; reflexivity.
Qed.

Lemma members_brushes (a b : VisiFruitLauncher) :
  members a = members b ->
  hBrushBackground a = hBrushBackground b
  /\ hBrushGreen a = hBrushGreen b
  /\ hBrushRed a = hBrushRed b.
Proof. destruct a, b. unfold members, set_serviceStatus. cbn. intros [=]. auto. Qed.

Lemma Initialize_brushes :
  keeps (fun s => (hBrushBackground (self s), hBrushGreen (self s), hBrushRed (self s)))
    (Initialize os).
Proof.
  unfold Initialize, CreateWindowEx, CreateControls, CreateWindow, new_window. frame.
Qed.

Lemma Initialize_no_brush :
  mute (fun c => match c with Call_CreateSolidBrush color h => Some (color, h) | _ => None end)
    (Initialize os).
Proof.
  unfold Initialize, CreateWindowEx, CreateControls, CreateWindow, new_window. quiet.
Qed.

Lemma Initialize_no_delete :
  mute (fun c => match c with Call_DeleteObject h => Some h | _ => None end) (Initialize os).
Proof.
  unfold Initialize, CreateWindowEx, CreateControls, CreateWindow, new_window. quiet.
Qed.

Lemma WndProc_no_brush (m : Msg) :
  mute (fun c => match c with Call_CreateSolidBrush color h => Some (color, h) | _ => None end)
    (WndProc os m).
Proof. destruct m; quiet. Qed.

Lemma WndProc_no_delete (m : Msg) :
  mute (fun c => match c with Call_DeleteObject h => Some h | _ => None end) (WndProc os m).
Proof. destruct m; quiet. Qed.

(** What the start-up leaves of the brushes. *)
Lemma startup_brushes (s : State W) :
  let r := startup os s in
  let a := self (after r) in
  brushes_created (calls r) =
    [(RGB 43 43 43, hBrushBackground a); (RGB 76 175 80, hBrushGreen a);
     (RGB 244 67 54, hBrushRed a)]
  /\ deleted_objects (calls r) = [].
Proof.
  intros r a. subst a r. rewrite startup_after.
  unfold startup. rewrite !bind_calls. cbv beta.
  set (s1 := after (InitCommonControlsEx (W := W) ICC_STANDARD_CLASSES s)).
  destruct (VisiFruitLauncher_new_brushes s1) as [Hb Hd]. cbv zeta in Hb, Hd.
  set (s2 := after (VisiFruitLauncher_new s1)) in *.
  pose proof (Initialize_brushes s2) as Hk. cbv beta in Hk.
  injection Hk as -> -> ->.
  unfold brushes_created, deleted_objects in *.
  rewrite !omap_app, Hb, Hd, (Initialize_no_brush s2), (Initialize_no_delete s2).
  split; reflexivity.
Qed.

Lemma VisiFruitLauncher_delete_objects (s : State W) :
  deleted_objects (calls (VisiFruitLauncher_delete s)) =
    [hBrushBackground (self s); hBrushGreen (self s); hBrushRed (self s)]
  /\ brushes_created (calls (VisiFruitLauncher_delete s)) = [].
Proof.
  rewrite VisiFruitLauncher_delete_run. mred.
  unfold deleted_objects, brushes_created. cbn [omap list_omap].
  generalize (processes (self s)). intros l.
  assert (H : omap (fun c => match c with Call_DeleteObject h => Some h | _ => None end)
                (flat_map (fun p => if negb (hProcess p =? INVALID_HANDLE_VALUE)
                                    then [Call_TerminateProcess (hProcess p) 0;
                                          Call_CloseHandle (hProcess p);
                                          Call_CloseHandle (hThread p)]
                                    else []) l) = []
              /\ omap (fun c => match c with
                                | Call_CreateSolidBrush color h => Some (color, h)
                                | _ => None
                                end)
                   (flat_map (fun p => if negb (hProcess p =? INVALID_HANDLE_VALUE)
                                       then [Call_TerminateProcess (hProcess p) 0;
                                             Call_CloseHandle (hProcess p);
                                             Call_CloseHandle (hThread p)]
                                       else []) l) = []).
  { induction l as [|p l [IH1 IH2]]; [split; reflexivity|].
    cbn [flat_map]. rewrite !omap_app, IH1, IH2.
    now destruct (negb (hProcess p =? INVALID_HANDLE_VALUE)). }
  destruct H as [-> ->]. split; reflexivity.
Qed.

(** The message loop neither creates nor deletes a brush, and leaves the
    members of the launcher as they are. *)
Lemma Run_brushes (msgs : list Msg) (s : State W) :
  brushes_created (calls (Run os msgs s)) = []
  /\ deleted_objects (calls (Run os msgs s)) = []
  /\ members (self (after (Run os msgs s))) = members (self s).
Proof.
  pose proof (Run_invariant
                (fun s' cs => members (self s') = members (self s)
                              /\ brushes_created cs = []
                              /\ deleted_objects cs = [])) as Hinv.
  cbv beta in Hinv.
  destruct (Hinv
              ltac:(intros s' cs m (H1 & H2 & H3) _;
                    unfold brushes_created, deleted_objects in *;
                    rewrite !omap_app, H2, H3, (WndProc_no_brush m s'),
                      (WndProc_no_delete m s');
                    rewrite (WndProc_members m s'); auto)
              msgs s [] (conj eq_refl (conj eq_refl eq_refl)))
    as (Hm & Hc & Hdel).
  auto.
Qed.

Lemma MessageBox_brushes (owner : Z) (text caption : string) (type : Z) (s : State W) :
  brushes_created (calls (MessageBox os owner text caption type s)) = []
  /\ deleted_objects (calls (MessageBox os owner text caption type s)) = []
  /\ self (after (MessageBox os owner text caption type s)) = self s.
Proof. repeat split. Qed.

(** X15.  Over a whole run the brushes balance: the launcher creates
    exactly the three brushes of its constructor, and when [WinMain]
    returns, with whatever exit code, it has deleted exactly these three,
    each once; while it runs it deletes none. *)
Theorem brushes_are_deleted_at_exit (a0 : VisiFruitLauncher) (w0 : W) (msgs : list Msg) :
  let r := WinMain os msgs (process_start a0 w0) in
  exists bg green red,
    brushes_created (calls r) =
      [(RGB 43 43 43, bg); (RGB 76 175 80, green); (RGB 244 67 54, red)]
    /\ deleted_objects (calls r) =
         match value r with Some _ => [bg; green; red] | None => [] end.
Proof.
  intros r. subst r. rewrite WinMain_run. cbv zeta.
  destruct (startup_brushes (process_start a0 w0)) as [Hb Hd]. cbv zeta in Hb, Hd.
  generalize dependent (startup os (process_start a0 w0)). intros r0 Hb Hd.
  exists (hBrushBackground (self (after r0))), (hBrushGreen (self (after r0))),
    (hBrushRed (self (after r0))).
  destruct (value r0).
  - destruct (Run_brushes msgs (after r0)) as (Hc & Hdel & Hm).
    generalize dependent (Run os msgs (after r0)). intros r1 Hc Hdel Hm.
    destruct (value r1); cbn [value calls].
    + destruct (VisiFruitLauncher_delete_objects (after r1)) as [Hx Hy].
      destruct (members_brushes _ _ Hm) as (E1 & E2 & E3).
      rewrite E1, E2, E3 in Hx.
      generalize dependent (VisiFruitLauncher_delete (after r1)). intros r2 Hx Hy.
      unfold brushes_created, deleted_objects in *.
      rewrite !omap_app, Hc, Hdel, Hx, Hy, Hb, Hd. split; reflexivity.
    + unfold brushes_created, deleted_objects in *.
      rewrite !omap_app, Hc, Hdel, Hb, Hd. split; reflexivity.
  - cbn [value calls].
    destruct (MessageBox_brushes NULL "Error inicializando el launcher" "Error"
                (Z.lor MB_OK MB_ICONERROR) (after r0)) as (Q1 & Q2 & K).
    generalize dependent (MessageBox os NULL "Error inicializando el launcher" "Error"
                            (Z.lor MB_OK MB_ICONERROR) (after r0)).
    intros box Q1 Q2 K.
    destruct (VisiFruitLauncher_delete_objects (after box)) as [Hx Hy].
    rewrite K in Hx.
    generalize dependent (VisiFruitLauncher_delete (after box)). intros r2 Hx Hy.
    unfold brushes_created, deleted_objects in *.
    rewrite !omap_app, Hb, Hd, Q1, Q2, Hx, Hy.
    split; reflexivity.
Qed.

(** ** The log, over a run *)

Lemma log_written_app (cs cs' : list Call) :
  log_written (cs ++ cs') = log_written cs +:+ log_written cs'.
Proof.
  unfold log_written, log_appends. rewrite omap_app.
  generalize (omap (fun c => match c with
                             | Call_SendMessage _ msg _ (L_str t) =>
                                 if msg =? EM_REPLACESEL then Some t else None
                             | _ => None
                             end) cs).
  intros l. induction l as [|x l IH]; cbn [app fold_right]; [reflexivity|].
  now rewrite IH, str_app_assoc.
Qed.

Lemma log_apart_kept (s s' : State W) :
  members (self s') = members (self s) -> classes s' = classes s ->
  log_apart s -> log_apart s'.
Proof.
  intros Hm Hc [Hr Ha].
  assert (Hh : hLogsTextBox (self s') = hLogsTextBox (self s))
    by exact (f_equal hLogsTextBox Hm).
  split.
  - unfold log_ready. now rewrite Hc, Hh.
  - intros svc. rewrite Hh.
    assert (Hi : indicator svc (self s') = indicator svc (self s))
      by (destruct svc;
          [exact (f_equal hStatusBackend Hm) | exact (f_equal hStatusFrontend Hm)
           | exact (f_equal hStatusSystem Hm)]).
    rewrite Hi. apply Ha.
Qed.

Lemma logs_ret {A} (a : VisiFruitLauncher) (x : A) : logs a (ret x : M W A).
Proof. intros s Hm Ha. cbn. now rewrite str_app_empty. Qed.

Lemma logs_bind {A B} (a : VisiFruitLauncher) (m : M W A) (k : A -> M W B) :
  logs a m -> (forall x, logs a (k x)) -> logs a (m ≫= k).
Proof.
  intros Hm Hk s Hs Ha.
  rewrite bind_after, bind_calls, log_written_app.
  destruct (Hm s Hs Ha) as (M1 & C1 & T1).
  assert (Ha1 : log_apart (after (m s))).
  { apply (log_apart_kept s); [congruence | exact C1 | exact Ha]. }
  destruct (Hk (value (m s)) (after (m s)) M1 Ha1) as (M2 & C2 & T2).
  split; [exact M2|]. split; [congruence|].
  now rewrite T2, T1, str_app_assoc.
Qed.

(** After [get_self] the handles in hand are those of the launcher. *)
Lemma logs_get_self {B} (a : VisiFruitLauncher) (k : VisiFruitLauncher -> M W B) :
  (forall x, members x = a -> logs a (k x)) -> logs a (get_self ≫= k).
Proof.
  intros Hk s Hs Ha.
  rewrite bind_after, bind_calls. cbn [get_self value after calls app].
  exact (Hk (self s) Hs s Hs Ha).
Qed.

(** An operation that leaves the windows and the handles alone and hands
    nothing to the log view. *)
Lemma logs_quiet {A} (a : VisiFruitLauncher) (m : M W A) :
  keeps (fun s => windows (desk s)) m ->
  keeps (fun s => members (self s)) m ->
  mute (fun c => match c with
                 | Call_SendMessage _ msg _ (L_str t) =>
                     if msg =? EM_REPLACESEL then Some t else None
                 | _ => None
                 end) m ->
  logs a m.
Proof.
  intros Hw Hm Hq s Hs Ha.
  specialize (Hw s). specialize (Hm s). specialize (Hq s). cbv beta in Hw, Hm.
  split; [congruence|].
  split; [unfold classes; now rewrite Hw|].
  unfold log_written, log_appends. rewrite Hq. cbn [fold_right].
  rewrite str_app_empty. unfold log_text. rewrite Hw.
  now rewrite (f_equal hLogsTextBox Hm : hLogsTextBox (self (after (m s)))
                                         = hLogsTextBox (self s)).
Qed.

Lemma logs_AddLog (a : VisiFruitLauncher) (message : string) : logs a (AddLog os message).
Proof.
  intros s Hs [Hr Ha].
  split; [now rewrite AddLog_self|].
  split; [apply AddLog_classes|].
  rewrite (AddLog_log_text message s Hr). unfold log_written.
  rewrite AddLog_appends. cbn [fold_right]. now rewrite str_app_empty.
Qed.

(** The dot of an indicator is not the log view. *)
Lemma logs_UpdateStatusIndicator (a x : VisiFruitLauncher) (svc : Service) (v : bool) :
  members x = a -> logs a (UpdateStatusIndicator (W := W) (indicator svc x) v).
Proof.
  intros Hx s Hs [Hr Ha].
  assert (Hi : indicator svc x = indicator svc (self s)).
  { rewrite <- Hs in Hx.
    destruct svc; [exact (f_equal hStatusBackend Hx) | exact (f_equal hStatusFrontend Hx)
                   | exact (f_equal hStatusSystem Hx)]. }
  rewrite Hi. specialize (Ha svc). revert Ha. generalize (indicator svc (self s)).
  intros h Hne.
  assert (Hc : keeps classes (UpdateStatusIndicator (W := W) h v))
    by (unfold UpdateStatusIndicator; frame).
  assert (Hself : keeps self (UpdateStatusIndicator (W := W) h v))
    by (unfold UpdateStatusIndicator, SetWindowText, InvalidateRect; frame).
  split; [now rewrite Hself|]. split; [apply Hc|].
  destruct (UpdateStatusIndicator_shape h v s) as (ws & E).
  assert (Hw : windows (desk (after (UpdateStatusIndicator h v s))) !! hLogsTextBox (self s)
               = windows (desk s) !! hLogsTextBox (self s)).
  { clear E. open_state s. unfold UpdateStatusIndicator, SetWindowText, InvalidateRect.
    cbn in Hne. destruct v; mrun;
      match goal with |- context [match ?m !! ?k with _ => _ end] => destruct (m !! k) end;
      mrun; try reflexivity; now rewrite lookup_insert_ne. }
  unfold log_text. rewrite Hself, Hw. rewrite E. cbn [calls]. unfold log_written. cbn.
  now rewrite str_app_empty.
Qed.

Lemma logs_for_each {A} (a : VisiFruitLauncher) (l : list A) (body : A -> M W unit) :
  (forall x, logs a (body x)) -> logs a (for_each l body).
Proof.
  intros Hb. induction l as [|x l IH]; cbn [for_each].
  - apply logs_ret.
  - apply logs_bind; auto.
Qed.

Ltac logging_leaf := apply logs_quiet; [solve [frame] | solve [frame] | solve [quiet]].

(** [logs a m], by the structure of [m]. *)
Ltac logging :=
  repeat first
    [ match goal with
      | |- logs _ (AddLog _ _) => apply logs_AddLog
      | |- logs _ (ret _) => apply logs_ret
      | H : members ?x = ?a |- logs ?a (UpdateStatusIndicator (hStatusBackend ?x) ?v) =>
          exact (logs_UpdateStatusIndicator a x backend v H)
      | H : members ?x = ?a |- logs ?a (UpdateStatusIndicator (hStatusFrontend ?x) ?v) =>
          exact (logs_UpdateStatusIndicator a x frontend v H)
      | H : members ?x = ?a |- logs ?a (UpdateStatusIndicator (hStatusSystem ?x) ?v) =>
          exact (logs_UpdateStatusIndicator a x system v H)
      | |- logs _ (let _ := _ in _) => cbv zeta
      | |- logs _ (match ?x with _ => _ end) => destruct x
      | |- logs _ (get_self ≫= _) => apply logs_get_self; intros ? ?
      | |- logs _ (for_each _ _) => apply logs_for_each; intros ?
      | |- logs _ (_ ≫= _) => apply logs_bind; [| intros ?]
      end
    | progress unfold WndProc, HandleCommand, HandleTimer, StartCompleteSystem,
        StopAllServices, StartIndividualService, OpenURL, UpdateServiceStatus
    | logging_leaf ].

(** Whatever message the window procedure handles, the log view only
    grows, by the texts handed to it. *)
Lemma WndProc_logs (a : VisiFruitLauncher) (m : Msg) : logs a (WndProc os m).
Proof. destruct m; logging. Qed.

Lemma quiet_written {A} (m : M W A) (s : State W) :
  mute (fun c => match c with
                 | Call_SendMessage _ msg _ (L_str t) =>
                     if msg =? EM_REPLACESEL then Some t else None
                 | _ => None
                 end) m ->
  log_written (calls (m s)) = EmptyString.
Proof. intros H. unfold log_written, log_appends. now rewrite (H s). Qed.

(** The log view as [CreateControls] leaves it: there, apart from the
    indicators, and empty. *)
Lemma CreateControls_log (s : State W) :
  log_apart (after (CreateControls s))
  /\ log_text (after (CreateControls s)) = EmptyString
  /\ log_written (calls (CreateControls s)) = EmptyString.
Proof.
  open_state s. unfold CreateControls, CreateWindow.
  unfold log_apart, log_ready, classes, log_text. mrun.
  split; [split|split].
  - rewrite lookup_fmap, lookup_insert_eq. reflexivity.
  - intros svc; destruct svc; cbn [indicator]; mrun;
      let H := fresh in intros H; injection H as H; lia.
  - rewrite lookup_insert_eq. reflexivity.
  - reflexivity.
Qed.

Lemma Initialize_rest_log (h : Z) (s : State W) :
  let r := (CreateControls ;;
            ShowWindow h SW_SHOW ;;
            UpdateWindow h ;;
            SetTimer h TIMER_STATUS_UPDATE 3000 ;;
            AddLog os "🚀 VisiFruit Launcher (C++ Native) iniciado" ;;
            ret true) s in
  log_apart (after r) /\ log_text (after r) = log_written (calls r).
Proof.
  intros r. subst r.
  rewrite (bind_after CreateControls), (bind_calls CreateControls), log_written_app.
  cbv beta.
  destruct (CreateControls_log s) as (Ha & Ht & Hw).
  generalize dependent (CreateControls s). intros r1 Ha Ht Hw.
  assert (L : logs (members (self (after r1)))
                (ShowWindow h SW_SHOW ;;
                 UpdateWindow h ;;
                 SetTimer h TIMER_STATUS_UPDATE 3000 ;;
                 AddLog os "🚀 VisiFruit Launcher (C++ Native) iniciado" ;;
                 ret true)) by logging.
  destruct (L (after r1) eq_refl Ha) as (M2 & C2 & T2).
  split.
  - apply (log_apart_kept (after r1)); [exact M2 | exact C2 | exact Ha].
  - now rewrite T2, Ht, Hw.
Qed.

Lemma Initialize_log (s : State W) :
  value (Initialize os s) = true ->
  log_apart (after (Initialize os s))
  /\ log_text (after (Initialize os s)) = log_written (calls (Initialize os s)).
Proof.
  assert (Q1 : forall st, log_written (calls (RegisterClassEx os "VisiFruitLauncher" st))
                          = EmptyString)
    by (intros st; apply quiet_written; quiet).
  assert (Q2 : forall st,
            log_written (calls (CreateWindowEx os "VisiFruitLauncher"
                                  "🍎 VisiFruit Launcher (C++ Native)" st)) = EmptyString)
    by (intros st; apply quiet_written; unfold CreateWindowEx, new_window; quiet).
  assert (Q3 : forall h st, log_written (calls (modify_self (W := W) (set_hwnd h) st))
                            = EmptyString)
    by (intros h st; apply quiet_written; quiet).
  unfold Initialize. rewrite bind_value, bind_after, bind_calls, log_written_app, Q1.
  cbv beta.
  generalize dependent (RegisterClassEx os "VisiFruitLauncher" s). intros r1.
  destruct (value r1); cbn [negb]; [|discriminate].
  rewrite bind_value, bind_after, bind_calls, log_written_app, Q2. cbv beta.
  generalize dependent (CreateWindowEx os "VisiFruitLauncher"
                          "🍎 VisiFruit Launcher (C++ Native)" (after r1)).
  intros r2.
  rewrite bind_value, bind_after, bind_calls, log_written_app, Q3. cbv beta.
  generalize dependent (modify_self (set_hwnd (value r2)) (after r2)). intros r3.
  destruct (value r2 =? NULL); [discriminate|].
  intros _. exact (Initialize_rest_log (value r2) (after r3)).
Qed.

Lemma startup_log (s : State W) :
  value (startup os s) = true ->
  log_apart (after (startup os s))
  /\ log_text (after (startup os s)) = log_written (calls (startup os s)).
Proof.
  assert (Q1 : forall st, log_written (calls (InitCommonControlsEx (W := W)
                                                ICC_STANDARD_CLASSES st)) = EmptyString)
    by (intros st; apply quiet_written; quiet).
  assert (Q2 : forall st : State W, log_written (calls (VisiFruitLauncher_new st))
                                    = EmptyString)
    by (intros st; apply quiet_written; unfold VisiFruitLauncher_new; quiet).
  unfold startup.
  rewrite !bind_value, !bind_after, !bind_calls, !log_written_app, Q1, Q2. cbv beta.
  apply Initialize_log.
Qed.

(** X16.  The log is append-only.  As long as the launcher runs, after
    whatever messages, the text of the log view is exactly what [AddLog]
    has handed to it since the start, entry behind entry in the order of
    the calls: nothing the launcher does removes or changes an entry. *)
Theorem log_holds_what_was_logged (a0 : VisiFruitLauncher) (w0 : W) (msgs : list Msg) :
  let r := WinMain os msgs (process_start a0 w0) in
  value r = None ->
  log_text (after r) = log_written (calls r).
Proof.
  intros r. subst r. rewrite WinMain_run. cbv zeta.
  pose proof (startup_log (process_start a0 w0)) as H0.
  generalize dependent (startup os (process_start a0 w0)). intros r0 H0.
  destruct (value r0); [|discriminate].
  destruct (H0 eq_refl) as [Ha Ht]. clear H0.
  pose proof (Run_invariant
                (fun s cs => log_apart s /\ log_text s = log_written cs)) as Hinv.
  cbv beta in Hinv.
  assert (Hstep : forall (s : State W) (cs : list Call) (m : Msg),
            log_apart s /\ log_text s = log_written cs ->
            quit (desk s) = None ->
            log_apart (after (WndProc os m s))
            /\ log_text (after (WndProc os m s)) =
               log_written (cs ++ calls (WndProc os m s))).
  { intros s cs m [A T] _.
    destruct (WndProc_logs (members (self s)) m s eq_refl A) as (M1 & C1 & T1).
    split.
    - apply (log_apart_kept s); [exact M1 | exact C1 | exact A].
    - now rewrite T1, T, log_written_app. }
  destruct (Hinv Hstep msgs (after r0) (calls r0) (conj Ha Ht)) as [_ Hlog].
  generalize dependent (Run os msgs (after r0)). intros r1 Hlog.
  destruct (value r1); [discriminate|].
  intros _. exact Hlog.
Qed.

End Facts.

(** * The scenarios, run *)

(** C7, the claim as stated fails: without a WinInet session the probe of
    port 8001 makes no request at all and answers [false]. *)
Lemma CheckPort_without_session_no_request :
  let r := CheckPort (scripted no_wininet) 8001 (after (session no_wininet [])) in
  http_gets (calls r) = [] /\ http_gets (calls r) <> [health_url 8001] /\ value r = false.
Proof. vm_compute. repeat split. discriminate. Qed.

(** C6, the claim as stated fails.  Of a message with a terminator inside,
    only the part before it reaches the log view, without a line break; a
    message with a line break inside adds two lines to the log, not one. *)
Lemma AddLog_message_with_terminator :
  let s := after (session office []) in
  (let message := String "a" (String NUL "b") in
   let r := AddLog (scripted office) message s in
   log_text (after r) = log_text s +:+ "[12:34:57] a"
   /\ log_text (after r) <> log_text s +:+ log_line (clock_tm (S noon)) message)
  /\ (let message := "a" +:+ CRLF +:+ "b" in
      let r := AddLog (scripted office) message s in
      log_text (after r) = log_text s +:+ "[12:34:57] a" +:+ CRLF +:+ "b" +:+ CRLF
      /\ line_breaks (log_text (after r)) = S (S (line_breaks (log_text s)))).
Proof. vm_compute. repeat split. discriminate. Qed.

Lemma AddLog_appends_one_line_witness :
  let s := after (session office []) in
  (log_ready s /\ nul_free "hola" = true /\ line_breaks "hola" = O
   /\ tm_valid (fst (os_localtime (scripted office) (world (desk s)))))
  /\ log_text (after (AddLog (scripted office) "hola" s)) =
     log_text s +:+ "[12:34:57] hola" +:+ CRLF
  /\ line_breaks (log_text (after (AddLog (scripted office) "hola" s))) =
     S (line_breaks (log_text s)).
Proof.
  assert (H1 : log_ready (after (session office []))) by (vm_compute; reflexivity).
  assert (H2 : nul_free "hola" = true) by reflexivity.
  assert (H3 : line_breaks "hola" = O) by reflexivity.
  assert (H4 : tm_valid (fst (os_localtime (scripted office)
                                (world (desk (after (session office []))))))).
  { vm_compute. repeat split; discriminate. }
  split; [auto|].
  destruct (AddLog_appends_one_line (scripted office) "hola" _ H1 H2 H3 H4)
    as (T1 & _ & T3 & _).
  split; [exact T1 | exact T3].
Defined.

Lemma indicator_shows_last_probe_witness :
  let r := WinMain (scripted office) [WM_TIMER TIMER_STATUS_UPDATE]
             (process_start blank noon) in
  value r = None
  /\ flag backend (after r) = true
  /\ repaint_pending (port_of backend) (indicator backend (self (after r))) (calls r) = false
  /\ text_colors
       (calls (WndProc (scripted office)
                 (WM_CTLCOLORSTATIC (indicator backend (self (after r)))) (after r))) =
     [RGB 76 175 80].
Proof.
  pose proof (indicator_shows_last_probe (scripted office) blank noon
                [WM_TIMER TIMER_STATUS_UPDATE] backend) as T.
  cbv zeta in T.
  match type of T with ?A -> _ => assert (H : A) by (vm_compute; reflexivity) end.
  destruct (T H) as (H1 & Hp & H2 & _).
  assert (Hup : reachable (port_of backend)
                  (calls (WinMain (scripted office) [WM_TIMER TIMER_STATUS_UPDATE]
                            (process_start blank noon))) = true)
    by (vm_compute; reflexivity).
  cbv zeta. rewrite H1, H2, Hup.
  split; [exact H|]. split; [reflexivity|]. split; [exact Hp|]. reflexivity.
Defined.


Lemma StartCompleteSystem_with_marker_witness :
  let s := after (session office []) in
  let r := StartCompleteSystem (scripted office) s in
  (fst (os_GetFileAttributes (scripted office) "main_etiquetadora.py"
          (snd (os_localtime (scripted office) (world (desk s))))) =?
     INVALID_FILE_ATTRIBUTES) = false
  /\ shell_requests (calls r) = [start_all_sei (hwnd (self s))]
  /\ opened (calls r) = [].
Proof.
  pose proof (StartCompleteSystem_with_marker (scripted office)
                (after (session office []))) as T.
  cbv zeta in T.
  match type of T with ?A -> _ => assert (H : A) by (vm_compute; reflexivity) end.
  destruct (T H) as (H1 & _ & H3 & _).
  cbv zeta. auto.
Defined.

(** C2, the code at the failing input: the backend is started, the shell
    hands back the process handle 500, the window is closed and the
    launcher exits with code 0; the handle was never put into [processes]
    and nothing is terminated. *)
Lemma started_process_survives_exit :
  let r := session office [WM_COMMAND ID_START_BACKEND; WM_CLOSE] in
  value r = Some 0
  /\ started_processes (calls r) = [500]
  /\ processes (self (after r)) = []
  /\ terminated (calls r) = [].
Proof. vm_compute. repeat split. Qed.

(** The launcher at work: a tick, "start all", the browser timer, then
    the window is closed with "yes". *)
Example a_day_at_the_office :
  let r := session office
             [WM_TIMER TIMER_STATUS_UPDATE; WM_COMMAND ID_START_ALL; WM_TIMER 3001;
              WM_CLOSE] in
  value r = Some 0
  /\ probes (calls r) = [(8001, true); (3000, true); (8000, false)]
  /\ opened (calls r) = ["http://localhost:3000"]
  /\ timers_set (calls r) = [(TIMER_STATUS_UPDATE, 3000); (3001, 8000)]
  /\ quits_posted (calls r) = [0].
Proof. vm_compute. repeat split. Qed.

(** Without a main window [WinMain] shows the error box and returns 1. *)
Example no_window_no_launcher :
  let r := session no_window [WM_TIMER TIMER_STATUS_UPDATE] in
  value r = Some 1
  /\ dialogs (calls r) =
       [(NULL, "Error inicializando el launcher", "Error", Z.lor MB_OK MB_ICONERROR)]
  /\ probes (calls r) = [].
Proof. vm_compute. repeat split. Qed.


Lemma Initialize_failure_creates_nothing_witness :
  let r := Initialize (scripted no_window) (process_start blank noon) in
  value r = false /\ controls_created (calls r) = [] /\ timers_set (calls r) = [].
Proof.
  pose proof (Initialize_failure_creates_nothing (scripted no_window)
                (process_start blank noon)) as T.
  cbv zeta in T.
  match type of T with ?A -> _ => assert (H : A) by (vm_compute; reflexivity) end.
  destruct (T H) as (H1 & _ & H3 & _).
  cbv zeta. split; [exact H | split; [exact H1 | exact H3]].
Defined.

Lemma poller_stays_armed_witness :
  let r := WinMain (scripted office) [WM_COMMAND ID_START_ALL; WM_TIMER 3001]
             (process_start blank noon) in
  value r = None /\ timers (desk (after r)) !! 2001 = Some 3000.
Proof.
  pose proof (poller_stays_armed (scripted office) blank noon
                [WM_COMMAND ID_START_ALL; WM_TIMER 3001]) as T.
  cbv zeta in T.
  match type of T with ?A -> _ => assert (H : A) by (vm_compute; reflexivity) end.
  destruct (T H) as (H1 & _).
  cbv zeta. split; [exact H | exact H1].
Defined.

Lemma failed_start_handles_no_message_witness :
  fst (os_CreateWindowEx (scripted no_window) "VisiFruitLauncher"
         (snd (os_RegisterClassEx (scripted no_window) "VisiFruitLauncher" noon))) = false
  /\ WinMain (scripted no_window) [WM_COMMAND ID_START_ALL; WM_CLOSE]
       (process_start blank noon) =
     WinMain (scripted no_window) [] (process_start blank noon).
Proof.
  assert (H : fst (os_CreateWindowEx (scripted no_window) "VisiFruitLauncher"
                     (snd (os_RegisterClassEx (scripted no_window) "VisiFruitLauncher"
                             noon))) = false) by reflexivity.
  split; [exact H|].
  exact (failed_start_handles_no_message (scripted no_window) blank noon
           [WM_COMMAND ID_START_ALL; WM_CLOSE] (or_intror H)).
Defined.

Lemma log_holds_what_was_logged_witness :
  let r := WinMain (scripted office) [WM_COMMAND ID_STOP_ALL] (process_start blank noon) in
  value r = None /\ log_text (after r) = log_written (calls r).
Proof.
  pose proof (log_holds_what_was_logged (scripted office) blank noon
                [WM_COMMAND ID_STOP_ALL]) as T.
  cbv zeta in T.
  match type of T with ?A -> _ => assert (H : A) by (vm_compute; reflexivity) end.
  cbv zeta. split; [exact H | exact (T H)].
Defined.
